(** * The OpenStack runner provisioning pipeline

    A shallow embedding of [src/openstack_cloud/openstack_manager.py]:
    image build and publish, instance configuration, instance launch and
    the connection helper, over an explicit model of the collaborators
    the module talks to (the OpenStack SDK connection, the GitHub client,
    the templating engine, the build script and the random source).

    Python strings are [string]s, Python [int]s are [Z], [Optional[T]] is
    [option T], dictionaries whose order matters are association lists.
    Code that raises returns [Raise e]; code that touches the outside world
    threads a [state] that holds the image catalog, the created servers and
    the history of external calls. *)

From Stdlib Require Import String Ascii List ZArith Lia Bool Arith.
Import ListNotations.
Local Open Scope string_scope.
Local Open Scope list_scope.

(** ** Strings *)

Module Str.

(** [c in s] for a one-character [c]. *)
Fixpoint contains (c : ascii) (s : string) : bool :=
  match s with
  | EmptyString => false
  | String d rest => Ascii.eqb d c || contains c rest
  end.

(** [s.rsplit(sep, 1)] for a one-character separator: at most one split,
    taken at the last occurrence of the separator; a string without the
    separator comes back whole, as a one-element list. *)
Fixpoint rsplit1 (sep : ascii) (s : string) : list string :=
  match s with
  | EmptyString => [EmptyString]
  | String c rest =>
      match rsplit1 sep rest with
      | [tl] => if Ascii.eqb c sep then [EmptyString; tl] else [String c tl]
      | [hd; tl] => [String c hd; tl]
      | parts => parts
      end
  end.

(** [sep.join(parts)]. *)
Fixpoint join (sep : string) (parts : list string) : string :=
  match parts with
  | [] => EmptyString
  | [p] => p
  | p :: rest => (p ++ sep ++ join sep rest)%string
  end.

(** Truthiness of a Python string: non-empty. *)
Definition truthy (s : string) : bool :=
  match s with EmptyString => false | String _ _ => true end.

Definition hex_digit (n : nat) : ascii :=
  match n with
  | 0 => "0" | 1 => "1" | 2 => "2" | 3 => "3" | 4 => "4" | 5 => "5"
  | 6 => "6" | 7 => "7" | 8 => "8" | 9 => "9" | 10 => "a" | 11 => "b"
  | 12 => "c" | 13 => "d" | 14 => "e" | _ => "f"
  end%char.

Definition is_hex_digit (c : ascii) : bool :=
  existsb (Ascii.eqb c) (map hex_digit (seq 0 16)).

(** Two lowercase hexadecimal digits of a byte, as [bytes.hex] prints it. *)
Definition hex_byte (b : nat) : string :=
  String (hex_digit ((b mod 256) / 16))
    (String (hex_digit ((b mod 256) mod 16)) EmptyString).

Fixpoint hexlify (bytes : list nat) : string :=
  match bytes with
  | [] => EmptyString
  | b :: rest => (hex_byte b ++ hexlify rest)%string
  end.

Fixpoint forallb_string (p : ascii -> bool) (s : string) : bool :=
  match s with
  | EmptyString => true
  | String c rest => p c && forallb_string p rest
  end.

End Str.

(** ** JSON, as [json.dumps] writes it

    Only the fragment the module serialises: objects and strings.  The
    characters of a [string] are read as the code points 0..255; with the
    default [ensure_ascii=True] everything outside the printable ASCII
    range is written as a [\u00xx] escape. *)

Module Json.

#[local] Set Warnings "-register-all".
Inductive value :=
| JString (s : string)
| JObject (members : list (string * value)).
#[local] Set Warnings "register-all".

Definition escape_char (c : ascii) : string :=
  let n := nat_of_ascii c in
  if Nat.eqb n 34 then String "\"%char (String c EmptyString)
  else if Nat.eqb n 92 then "\\"
  else if Nat.eqb n 10 then "\n"
  else if Nat.eqb n 13 then "\r"
  else if Nat.eqb n 9 then "\t"
  else if Nat.eqb n 12 then "\f"
  else if Nat.eqb n 8 then "\b"
  else if (Nat.leb 32 n && Nat.leb n 126)%bool then String c EmptyString
  else ("\u00" ++ Str.hex_byte n)%string.

Fixpoint escape (s : string) : string :=
  match s with
  | EmptyString => EmptyString
  | String c rest => (escape_char c ++ escape rest)%string
  end.

Definition quote (s : string) : string :=
  (String (ascii_of_nat 34) (escape s) ++ String (ascii_of_nat 34) EmptyString)%string.

(** [json.dumps(v)] with the default separators [", "] and [": "]; a
    Python dict keeps its insertion order. *)
Fixpoint dumps (v : value) : string :=
  match v with
  | JString s => quote s
  | JObject members =>
      ("{" ++
       (fix dump_members (ms : list (string * value)) : string :=
          match ms with
          | [] => EmptyString
          | [(k, x)] => (quote k ++ ": " ++ dumps x)%string
          | (k, x) :: rest =>
              (quote k ++ ": " ++ dumps x ++ ", " ++ dump_members rest)%string
          end) members
       ++ "}")%string
  end.

End Json.


(** ** Exceptions

    [foreign] is what the collaborators raise; [exn] adds the exceptions the
    module raises itself and the ones the Python runtime raises on its
    behalf.  [raise X(msg) from exc] keeps [exc] as the cause. *)

Inductive foreign :=
| OpenStackCloudException (subclass detail : string)
    (* openstack.exceptions.OpenStackCloudException and every subclass *)
| Unauthorized (detail : string)
    (* keystoneauth1.exceptions.http.Unauthorized *)
| RunnerBinaryError (detail : string)
| SubprocessError (detail : string)
| TemplateError (detail : string)
    (* what jinja2 raises: TemplateNotFound, UndefinedError, ... *)
| OtherException (class detail : string).

Inductive exn :=
| Foreign (e : foreign)
| ImageBuildError (msg : string) (cause : option foreign)
| InstanceLaunchError (msg : string) (cause : option foreign)
| OpenStackUnauthorizedError (msg : string) (cause : option foreign)
| ValueError (msg : string)
| KeyError (key : string)
| IndexError (msg : string).

Inductive result (A : Type) :=
| Ok (a : A)
| Raise (e : exn).
Arguments Ok {A} a.
Arguments Raise {A} e.

Definition is_ok {A} (r : result A) : bool :=
  match r with Ok _ => true | Raise _ => false end.

(** ** Data *)

(** Modelled from the spec: [charm_state.ProxyConfig] is imported, its
    declaration is not among the verified files.  An optional triple of
    strings, any of which may be absent or empty; an instance is truthy,
    as a Python object is unless its class says otherwise. *)
Record ProxyConfig := {
  http : option string;
  https : option string;
  no_proxy : option string
}.

(** Modelled from the spec: [charm_state.SSHDebugConnection] is imported,
    its declaration is not among the verified files.  The descriptor of
    one reachable debug-tunnel endpoint. *)
Record SSHDebugConnection := {
  endpoint : string
}.

(** Modelled from the spec: [github_type.RunnerApplication] is imported,
    its declaration is not among the verified files.  A downloadable
    runner-agent build: download URL, target architecture, file name; the
    code reads it as a dictionary, by the keys ["download_url"] and
    ["architecture"]. *)
Record RunnerApplication := {
  architecture : string;
  download_url : string;
  filename : string
}.

(** [openstack.image.v2.image.Image]. *)
Record Image := {
  image_id : string;
  image_name : string;
  image_filename : string
}.

(** [openstack.compute.v2.server.Server]. *)
Record Server := {
  server_name : string;
  server_image : Image;
  server_flavor : string;
  server_userdata : string
}.

Record InstanceConfig := {
  name : string;
  labels : list string;
  registration_token : string;
  github_path : string;
  openstack_image : Image
}.

(** The clouds.yaml document: [cloud_config["clouds"]] maps profile names to
    connection parameters; the order of the keys is the order of listing. *)
Definition cloud_config := list (string * list (string * string)).

Fixpoint dict_get {V} (key : string) (d : list (string * V)) : option V :=
  match d with
  | [] => None
  | (k, v) :: rest => if String.eqb k key then Some v else dict_get key rest
  end.

Definition dict_keys {V} (d : list (string * V)) : list string := map fst d.

(** ** Templates: what each [render] call is given *)

Inductive template_call :=
| SystemdDockerProxy (proxies : option ProxyConfig)
| EnvFile (proxies : option ProxyConfig) (pre_job_script : string)
    (dockerhub_mirror : option string) (ssh_debug_info : option SSHDebugConnection)
| OpenstackUserdata (github_url token instance_labels instance_name env_contents : string).

(** ** The outside world *)

(** How a [delete_image(..., wait=True)] call ends. *)
Inductive delete_fate :=
| Deleted                       (* the image is gone: returns True *)
| NotDeleted                    (* returns False, nothing removed *)
| DeleteFault (e : foreign).    (* raises *)

Inductive event :=
| EvWarning (msg : string)
| EvDebug (msg : string)
| EvLoggedFailure (e : exn)
| EvSleep (seconds : Z)
| EvGetRunnerApplication (path arch : string)
| EvGetRegistrationToken (path : string)
| EvExecute (cmd : list string)
| EvRender (call : template_call)
| EvConnect (cloud_name : string)
| EvListProjects
| EvSearchImages (name_or_id : string)
| EvDeleteImage (name_or_id : string) (fate : delete_fate)
| EvCreateImage (name filename : string)
| EvCreateServer (name : string) (image : Image) (flavor userdata : string).

Record state := {
  images : list Image;        (* the image catalog *)
  servers : list Server;
  history : list event;       (* external calls and log lines, oldest first *)
  drawn : nat                 (* how much of the random source is used up *)
}.

(** The collaborators' behaviour.  Each answer may depend on the state,
    and so on everything that happened before: a failure can be injected
    at any call. *)
Record world := {
  get_template : string -> option foreign;
  render : template_call -> foreign + string;
  get_runner_application : state -> string -> string -> foreign + RunnerApplication;
  get_runner_registration_token : state -> string -> foreign + string;
  execute_command : state -> list string -> option foreign;
  connect : state -> string -> option foreign;
  conn_list_projects : state -> foreign + list string;
  conn_search_images : state -> string -> option foreign;
  conn_delete_image : state -> string -> delete_fate;
  conn_create_image : state -> string -> string -> foreign + string;
  conn_create_server : state -> string -> option foreign;
  entropy : nat -> nat
}.

Definition record (ev : event) (s : state) : state :=
  {| images := images s; servers := servers s;
     history := history s ++ [ev]; drawn := drawn s |}.

(** ** A state and exception monad *)

Definition M (A : Type) : Type := state -> result A * state.

Definition ret {A} (a : A) : M A := fun s => (Ok a, s).

Definition raise {A} (e : exn) : M A := fun s => (Raise e, s).

Definition bind {A B} (m : M A) (k : A -> M B) : M B :=
  fun s =>
    match m s with
    | (Ok a, s') => k a s'
    | (Raise e, s') => (Raise e, s')
    end.

Declare Scope py_scope.
Delimit Scope py_scope with py.
Notation "x <- m ;; k" := (bind m (fun x => k))
  (at level 100, m at next level, right associativity) : py_scope.
Notation "m ;;; k" := (bind m (fun _ => k))
  (at level 100, right associativity) : py_scope.
Local Open Scope py_scope.

(** [try: body except ...: handler].  The handler looks at the exception;
    [None] means no [except] clause matches and the exception goes on. *)
Definition try_except {A} (body : M A) (handler : exn -> option (M A)) : M A :=
  fun s =>
    match body s with
    | (Ok a, s') => (Ok a, s')
    | (Raise e, s') =>
        match handler e with
        | Some h => h s'
        | None => (Raise e, s')
        end
    end.

Definition log (ev : event) : M unit := fun s => (Ok tt, record ev s).

Definition lift {A} (r : foreign + A) : M A :=
  match r with
  | inl e => raise (Foreign e)
  | inr a => ret a
  end.

Definition check (r : option foreign) : M unit :=
  match r with
  | Some e => raise (Foreign e)
  | None => ret tt
  end.

Definition ask {A} (f : state -> A) : M A := fun s => (Ok (f s), s).

Fixpoint for_each {A} (l : list A) (body : A -> M unit) : M unit :=
  match l with
  | [] => ret tt
  | x :: rest => body x ;;; for_each rest body
  end.

(** ** The module *)

Definition IMAGE_PATH_TMPL (architecture : string) : string :=
  ("jammy-server-cloudimg-" ++ architecture ++ "-compressed.img")%string.
Definition IMAGE_NAME : string := "jammy".
Definition BUILD_OPENSTACK_IMAGE_SCRIPT_FILENAME : string :=
  "scripts/build-openstack-image.sh".

Section Program.

Variable W : world.

(** *** Collaborator calls *)

(** One draw from the operating system's random source. *)
Definition draw : M nat :=
  fun s =>
    (Ok (entropy W (drawn s)),
     {| images := images s; servers := servers s;
        history := history s; drawn := S (drawn s) |}).

Fixpoint token_bytes (nbytes : nat) : M (list nat) :=
  match nbytes with
  | O => ret []
  | S n => b <- draw ;; rest <- token_bytes n ;; ret (b mod 256 :: rest)
  end.

(** [secrets.token_hex(nbytes)]. *)
Definition token_hex (nbytes : nat) : M string :=
  bytes <- token_bytes nbytes ;; ret (Str.hexlify bytes).

(** [secrets.choice(seq)]: [seq[randbelow(len(seq))]]. *)
Definition choice {A} (seq : list A) : M A :=
  match seq with
  | [] => raise (IndexError "Cannot choose from an empty sequence")
  | x :: _ => r <- draw ;; ret (nth (r mod length seq) seq x)
  end.

(** [environment.get_template(name)]: loading the template may fail. *)
Definition environment_get_template (name : string) : M unit :=
  check (get_template W name).

(** [template.render(...)]. *)
Definition template_render (call : template_call) : M string :=
  log (EvRender call) ;;; lift (render W call).

Definition github_get_runner_application (path arch : string) : M RunnerApplication :=
  log (EvGetRunnerApplication path arch) ;;;
  r <- ask (fun s => get_runner_application W s path arch) ;;
  lift r.

Definition github_get_runner_registration_token (path : string) : M string :=
  log (EvGetRegistrationToken path) ;;;
  r <- ask (fun s => get_runner_registration_token W s path) ;;
  lift r.

(** [execute_command(cmd, check_exit=True)]. *)
Definition run_command (cmd : list string) : M unit :=
  log (EvExecute cmd) ;;;
  r <- ask (fun s => execute_command W s cmd) ;;
  check r.

(** [openstack.connect(cloud_name)]; the connection is named after its
    cloud profile. *)
Definition openstack_connect (cloud_name : string) : M string :=
  log (EvConnect cloud_name) ;;;
  r <- ask (fun s => connect W s cloud_name) ;;
  check r ;;;
  ret cloud_name.

(** The SDK's [name_or_id] filter. *)
Definition matches (name_or_id : string) (img : Image) : bool :=
  String.eqb (image_id img) name_or_id || String.eqb (image_name img) name_or_id.

Definition search_images (name_or_id : string) : M (list Image) :=
  log (EvSearchImages name_or_id) ;;;
  r <- ask (fun s => conn_search_images W s name_or_id) ;;
  check r ;;;
  ask (fun s => filter (matches name_or_id) (images s)).

Definition remove_images (name_or_id : string) : M unit :=
  fun s =>
    (Ok tt,
     {| images := filter (fun img => negb (matches name_or_id img)) (images s);
        servers := servers s; history := history s; drawn := drawn s |}).

(** [conn.delete_image(name_or_id=..., wait=True)]. *)
Definition delete_image (name_or_id : string) : M bool :=
  fate <- ask (fun s => conn_delete_image W s name_or_id) ;;
  log (EvDeleteImage name_or_id fate) ;;;
  match fate with
  | Deleted => remove_images name_or_id ;;; ret true
  | NotDeleted => ret false
  | DeleteFault e => raise (Foreign e)
  end.

Definition add_image (img : Image) : M unit :=
  fun s =>
    (Ok tt,
     {| images := images s ++ [img]; servers := servers s;
        history := history s; drawn := drawn s |}).

(** [conn.create_image(name=..., filename=..., wait=True)]; the cloud
    chooses the id. *)
Definition create_image (name filename : string) : M Image :=
  log (EvCreateImage name filename) ;;;
  r <- ask (fun s => conn_create_image W s name filename) ;;
  id <- lift r ;;
  let img := {| image_id := id; image_name := name; image_filename := filename |} in
  add_image img ;;;
  ret img.

Definition add_server (srv : Server) : M unit :=
  fun s =>
    (Ok tt,
     {| images := images s; servers := servers s ++ [srv];
        history := history s; drawn := drawn s |}).

(** [conn.create_server(name=..., image=..., flavor=..., userdata=...,
    wait=True)]. *)
Definition create_server (name : string) (image : Image) (flavor userdata : string)
  : M Server :=
  log (EvCreateServer name image flavor userdata) ;;;
  r <- ask (fun s => conn_create_server W s name) ;;
  check r ;;;
  let srv := {| server_name := name; server_image := image;
                server_flavor := flavor; server_userdata := userdata |} in
  add_server srv ;;;
  ret srv.

(** *** [_create_connection] *)

Definition _create_connection (config : cloud_config) : M string :=
  match dict_get "clouds" config with
  | None => raise (KeyError "clouds")
  | Some profiles =>
      let clouds := dict_keys profiles in
      (if Nat.ltb 1 (length clouds)
       then log (EvWarning
                   "Multiple clouds defined in clouds.yaml. Using the first one to connect.")
       else ret tt) ;;;
      match clouds with
      | [] => raise (IndexError "list index out of range")
      | cloud_name :: _ => openstack_connect cloud_name
      end
  end.

(** *** [list_projects] *)

Definition list_projects (config : cloud_config) : M (list string) :=
  conn <- _create_connection config ;;
  try_except
    (log EvListProjects ;;;
     r <- ask (conn_list_projects W) ;;
     projects <- lift r ;;
     log (EvDebug "OpenStack connection successful.") ;;;
     log (EvDebug "Projects: %s") ;;;
     ret projects)
    (fun e =>
       match e with
       | Foreign (Unauthorized d) =>
           Some (raise (OpenStackUnauthorizedError
                          "Unauthorized to connect to OpenStack."
                          (Some (Unauthorized d))))
       | _ => None
       end).

(** *** [_build_image_command] *)

(** [proxies.f if (proxies and proxies.f) else <empty string>]. *)
Definition proxy_or_empty (proxies : option ProxyConfig)
    (field : ProxyConfig -> option string) : string :=
  match proxies with
  | Some p =>
      match field p with
      | Some v => if Str.truthy v then v else EmptyString
      | None => EmptyString
      end
  | None => EmptyString
  end.

(** The dictionary comprehension under ["default"]. *)
Definition docker_proxy_default (http_proxy https_proxy no_proxy : string)
  : list (string * string) :=
  filter (fun kv => Str.truthy (snd kv))
    [("httpProxy", http_proxy); ("httpsProxy", https_proxy); ("noProxy", no_proxy)].

Definition docker_proxy (http_proxy https_proxy no_proxy : string) : Json.value :=
  Json.JObject
    [("proxies",
      Json.JObject
        [("default",
          Json.JObject
            (map (fun kv => (fst kv, Json.JString (snd kv)))
               (docker_proxy_default http_proxy https_proxy no_proxy)))])].

Definition _build_image_command (runner_info : RunnerApplication)
    (proxies : option ProxyConfig) : M (list string) :=
  let http_proxy := proxy_or_empty proxies http in
  let https_proxy := proxy_or_empty proxies https in
  let no_proxy := proxy_or_empty proxies no_proxy in
  environment_get_template "systemd-docker-proxy.j2" ;;;
  docker_proxy_service_conf_content <- template_render (SystemdDockerProxy proxies) ;;
  let docker_client_proxy_content :=
    Json.dumps (docker_proxy http_proxy https_proxy no_proxy) in
  ret ["/usr/bin/bash";
       BUILD_OPENSTACK_IMAGE_SCRIPT_FILENAME;
       download_url runner_info;
       http_proxy;
       https_proxy;
       no_proxy;
       docker_proxy_service_conf_content;
       docker_client_proxy_content].

(** *** [build_image] *)

Definition build_image (arch : string) (config : cloud_config) (path : string)
    (proxies : option ProxyConfig) : M Image :=
  runner_application <-
    try_except (github_get_runner_application path arch)
      (fun e =>
         match e with
         | Foreign (RunnerBinaryError d) =>
             Some (raise (ImageBuildError "Failed to fetch runner application."
                            (Some (RunnerBinaryError d))))
         | _ => None
         end) ;;
  try_except
    (cmd <- _build_image_command runner_application proxies ;;
     run_command cmd)
    (fun e =>
       match e with
       | Foreign (SubprocessError d) =>
           Some (raise (ImageBuildError "Failed to build image."
                          (Some (SubprocessError d))))
       | _ => None
       end) ;;;
  try_except
    (conn <- _create_connection config ;;
     let arch :=
       if String.eqb (architecture runner_application) "x64" then "amd64" else "arm64" in
     existing <- search_images IMAGE_NAME ;;
     for_each existing
       (fun existing_image =>
          deleted <- delete_image (image_id existing_image) ;;
          if negb deleted
          then raise (ImageBuildError "Failed to delete duplicate image on Openstack." None)
          else ret tt) ;;;
     create_image IMAGE_NAME (IMAGE_PATH_TMPL arch))
    (fun e =>
       match e with
       | Foreign (OpenStackCloudException c d) =>
           Some (raise (ImageBuildError "Failed to upload image."
                          (Some (OpenStackCloudException c d))))
       | _ => None
       end).

(** *** [create_instance_config] *)

Definition create_instance_config (unit_name : string) (openstack_image : Image)
    (path : string) : M InstanceConfig :=
  match Str.rsplit1 "/" unit_name with
  | [app_name; unit_num] =>
      suffix <- token_hex 12 ;;
      registration_token <- github_get_runner_registration_token path ;;
      ret {| name := (app_name ++ "-" ++ unit_num ++ "-" ++ suffix)%string;
             labels := [app_name; "jammy"];
             registration_token := registration_token;
             github_path := path;
             openstack_image := openstack_image |}
  | [_] => raise (ValueError "not enough values to unpack (expected 2, got 1)")
  | _ => raise (ValueError "too many values to unpack (expected 2)")
  end.

(** *** [create_instance], the decorated function body *)

Definition create_instance_body (config : cloud_config)
    (instance_config : InstanceConfig) (proxies : option ProxyConfig)
    (dockerhub_mirror : option string)
    (ssh_debug_connections : option (list SSHDebugConnection)) : M Server :=
  environment_get_template "env.j2" ;;;
  ssh_debug_info <-
    match ssh_debug_connections with
    | Some (c :: cs) => chosen <- choice (c :: cs) ;; ret (Some chosen)
    | _ => ret None
    end ;;
  env_contents <-
    template_render (EnvFile proxies EmptyString dockerhub_mirror ssh_debug_info) ;;
  environment_get_template "openstack-userdata.sh.j2" ;;;
  cloud_userdata <-
    template_render
      (OpenstackUserdata
         ("https://github.com/" ++ github_path instance_config)%string
         (registration_token instance_config)
         (Str.join "," (labels instance_config))
         (name instance_config)
         env_contents) ;;
  try_except
    (conn <- _create_connection config ;;
     create_server (name instance_config) (openstack_image instance_config)
       "m1.small" cloud_userdata)
    (fun e =>
       match e with
       | Foreign (OpenStackCloudException c d) =>
           Some (raise (InstanceLaunchError "Failed to launch instance."
                          (Some (OpenStackCloudException c d))))
       | _ => None
       end).

(** *** The retry decorator *)

(** Modelled from the spec: the sleep after failed attempt number
    [attempt] is [min(delay * backoff^(attempt-1), max_delay)] seconds. *)
Definition retry_delay (delay max_delay backoff : Z) (attempt : nat) : Z :=
  Z.min (delay * backoff ^ (Z.of_nat attempt - 1)) max_delay.

(** Modelled from the spec: [utilities.retry] is imported by the module,
    its source is not among the verified files.  The wrapped operation is
    invoked again on any raised error until it succeeds or the attempts are
    used up, with a sleep between attempts; every failure is logged; after
    the last attempt the last error is raised again as it is.  [remaining]
    counts the attempts left after this one, [attempt] numbers this one. *)
Fixpoint retry_from {A} (remaining attempt : nat) (delay max_delay backoff : Z)
    (operation : M A) : M A :=
  fun s =>
    match operation s with
    | (Ok a, s') => (Ok a, s')
    | (Raise e, s') =>
        match remaining with
        | O => (Raise e, record (EvLoggedFailure e) s')
        | S remaining' =>
            retry_from remaining' (S attempt) delay max_delay backoff operation
              (record (EvSleep (retry_delay delay max_delay backoff attempt))
                 (record (EvLoggedFailure e) s'))
        end
    end.

(** Modelled from the spec: the decorator [retry(tries, delay, max_delay,
    backoff)], at most [tries] attempts in all. *)
Definition retry {A} (tries : nat) (delay max_delay backoff : Z) (operation : M A)
  : M A :=
  retry_from (pred tries) 1 delay max_delay backoff operation.

(** [@retry(tries=5, delay=5, max_delay=60, backoff=2, local_logger=logger)]. *)
Definition create_instance (config : cloud_config)
    (instance_config : InstanceConfig) (proxies : option ProxyConfig)
    (dockerhub_mirror : option string)
    (ssh_debug_connections : option (list SSHDebugConnection)) : M Server :=
  retry 5 5 60 2
    (create_instance_body config instance_config proxies dockerhub_mirror
       ssh_debug_connections).

End Program.

(** ** A world in which every collaborator answers

    Used to run the functions on concrete inputs. *)

Module Sample.

Definition render_text (call : template_call) : string :=
  match call with
  | SystemdDockerProxy _ => "[Service]"
  | EnvFile _ _ _ None => "LANG=C.UTF-8"
  | EnvFile _ _ _ (Some c) => ("LANG=C.UTF-8 TMATE_SERVER_HOST=" ++ endpoint c)%string
  | OpenstackUserdata _ _ _ instance_name env_contents =>
      ("#!/bin/sh " ++ instance_name ++ " " ++ env_contents)%string
  end.

Definition runner_x64 : RunnerApplication :=
  {| architecture := "x64";
     download_url := "http://x/runner.tgz";
     filename := "actions-runner-linux-x64.tar.gz" |}.

Definition calm : world :=
  {| get_template := fun _ => None;
     render := fun call => inr (render_text call);
     get_runner_application := fun _ _ arch =>
       inr {| architecture := arch;
              download_url := "http://x/runner.tgz";
              filename := "actions-runner-linux.tar.gz" |};
     get_runner_registration_token := fun _ _ => inr "AABBCC";
     execute_command := fun _ _ => None;
     connect := fun _ _ => None;
     conn_list_projects := fun _ => inr ["demo"];
     conn_search_images := fun _ _ => None;
     conn_delete_image := fun _ _ => Deleted;
     conn_create_image := fun s _ _ => inr (Str.hexlify [length (history s)]);
     conn_create_server := fun _ _ => None;
     entropy := fun n => 37 * n + 11 |}.

(** The cloud does not delete the image ["0c2d"]. *)
Definition stubborn : world :=
  {| get_template := get_template calm;
     render := render calm;
     get_runner_application := get_runner_application calm;
     get_runner_registration_token := get_runner_registration_token calm;
     execute_command := execute_command calm;
     connect := connect calm;
     conn_list_projects := conn_list_projects calm;
     conn_search_images := conn_search_images calm;
     conn_delete_image := fun _ id => if String.eqb id "0c2d" then NotDeleted else Deleted;
     conn_create_image := conn_create_image calm;
     conn_create_server := conn_create_server calm;
     entropy := entropy calm |}.

(** The GitHub client rejects the token. *)
Definition token_rejected : world :=
  {| get_template := get_template calm;
     render := render calm;
     get_runner_application := fun _ _ _ => inl (OtherException "TokenError" "Invalid token.");
     get_runner_registration_token := fun _ _ =>
       inl (OtherException "TokenError" "Invalid token.");
     execute_command := execute_command calm;
     connect := connect calm;
     conn_list_projects := conn_list_projects calm;
     conn_search_images := conn_search_images calm;
     conn_delete_image := conn_delete_image calm;
     conn_create_image := conn_create_image calm;
     conn_create_server := conn_create_server calm;
     entropy := entropy calm |}.

(** The GitHub client finds no runner binary. *)
Definition no_binary : world :=
  {| get_template := get_template calm;
     render := render calm;
     get_runner_application := fun _ _ _ =>
       inl (RunnerBinaryError "Unable query GitHub runner binary information");
     get_runner_registration_token := get_runner_registration_token calm;
     execute_command := execute_command calm;
     connect := connect calm;
     conn_list_projects := conn_list_projects calm;
     conn_search_images := conn_search_images calm;
     conn_delete_image := conn_delete_image calm;
     conn_create_image := conn_create_image calm;
     conn_create_server := conn_create_server calm;
     entropy := entropy calm |}.

(** Keystone rejects the credentials at every call. *)
Definition bad_credentials : world :=
  {| get_template := get_template calm;
     render := render calm;
     get_runner_application := get_runner_application calm;
     get_runner_registration_token := get_runner_registration_token calm;
     execute_command := execute_command calm;
     connect := fun _ _ => Some (Unauthorized "401");
     conn_list_projects := fun _ => inl (Unauthorized "401");
     conn_search_images := fun _ _ => Some (Unauthorized "401");
     conn_delete_image := fun _ _ => DeleteFault (Unauthorized "401");
     conn_create_image := fun _ _ _ => inl (Unauthorized "401");
     conn_create_server := fun _ _ => Some (Unauthorized "401");
     entropy := entropy calm |}.

(** The connection opens, the first request is rejected. *)
Definition bad_token : world :=
  {| get_template := get_template calm;
     render := render calm;
     get_runner_application := get_runner_application calm;
     get_runner_registration_token := get_runner_registration_token calm;
     execute_command := execute_command calm;
     connect := connect calm;
     conn_list_projects := fun _ => inl (Unauthorized "401");
     conn_search_images := fun _ _ => Some (Unauthorized "401");
     conn_delete_image := conn_delete_image calm;
     conn_create_image := conn_create_image calm;
     conn_create_server := fun _ _ => Some (Unauthorized "401");
     entropy := entropy calm |}.

(** The compute service is down. *)
Definition no_capacity : world :=
  {| get_template := get_template calm;
     render := render calm;
     get_runner_application := get_runner_application calm;
     get_runner_registration_token := get_runner_registration_token calm;
     execute_command := execute_command calm;
     connect := connect calm;
     conn_list_projects := conn_list_projects calm;
     conn_search_images := conn_search_images calm;
     conn_delete_image := conn_delete_image calm;
     conn_create_image := conn_create_image calm;
     conn_create_server := fun _ _ =>
       Some (OpenStackCloudException "OpenStackCloudTimeout" "Timeout waiting for the server");
     entropy := entropy calm |}.

(** The boot script template is missing from the package. *)
Definition no_userdata_template : world :=
  {| get_template := fun name =>
       if String.eqb name "openstack-userdata.sh.j2"
       then Some (TemplateError "TemplateNotFound: openstack-userdata.sh.j2")
       else None;
     render := render calm;
     get_runner_application := get_runner_application calm;
     get_runner_registration_token := get_runner_registration_token calm;
     execute_command := execute_command calm;
     connect := connect calm;
     conn_list_projects := conn_list_projects calm;
     conn_search_images := conn_search_images calm;
     conn_delete_image := conn_delete_image calm;
     conn_create_image := conn_create_image calm;
     conn_create_server := conn_create_server calm;
     entropy := entropy calm |}.

(** The compute service fails until the history holds three sleeps: the
    fourth attempt goes through. *)
Definition flaky : world :=
  {| get_template := get_template calm;
     render := render calm;
     get_runner_application := get_runner_application calm;
     get_runner_registration_token := get_runner_registration_token calm;
     execute_command := execute_command calm;
     connect := connect calm;
     conn_list_projects := conn_list_projects calm;
     conn_search_images := conn_search_images calm;
     conn_delete_image := conn_delete_image calm;
     conn_create_image := conn_create_image calm;
     conn_create_server := fun s _ =>
       if Nat.ltb
            (List.length
               (filter (fun ev => match ev with EvSleep _ => true | _ => false end)
                  (history s))) 3
       then Some (OpenStackCloudException "HttpException" "503")
       else None;
     entropy := entropy calm |}.

Definition one_cloud : cloud_config :=
  [("clouds", [("prod", "https://keystone.example:5000/v3")])].

Definition two_clouds : cloud_config :=
  [("clouds", [("prod", "https://keystone.example:5000/v3");
               ("staging", "https://keystone.test:5000/v3")])].

Definition empty_catalog : state :=
  {| images := []; servers := []; history := []; drawn := 0 |}.

Definition old_jammy : Image :=
  {| image_id := "0a1b"; image_name := "jammy";
     image_filename := "jammy-server-cloudimg-amd64-compressed.img" |}.

Definition focal : Image :=
  {| image_id := "77aa"; image_name := "focal";
     image_filename := "focal-server-cloudimg-amd64.img" |}.

Definition crowded_catalog : state :=
  {| images := [old_jammy; focal;
                {| image_id := "0c2d"; image_name := "jammy";
                   image_filename := "jammy-server-cloudimg-arm64-compressed.img" |}];
     servers := []; history := []; drawn := 0 |}.

Definition all_proxies : ProxyConfig :=
  {| http := Some "http://proxy:3128"; https := Some "http://proxy:3129";
     no_proxy := Some "localhost,10.0.0.0/8" |}.

Definition only_https : ProxyConfig :=
  {| http := None; https := Some "http://proxy:3129"; no_proxy := Some EmptyString |}.

Definition debug_a : SSHDebugConnection := {| endpoint := "10.1.0.1:22" |}.

Definition debug_b : SSHDebugConnection := {| endpoint := "10.1.0.2:2222" |}.

Definition sample_config : InstanceConfig :=
  {| name := "runner-0-00ff"; labels := ["runner"; "jammy"];
     registration_token := "AABBCC"; github_path := "canonical/charm";
     openstack_image := old_jammy |}.

End Sample.

(** ** Vocabulary of the statements

    Observations on runs, and the wording of the specification where it
    differs from the code's. *)

(** A proxy field as the claim words it: absent means the empty string. *)
Definition field_or_empty (proxies : option ProxyConfig)
    (field : ProxyConfig -> option string) : string :=
  match proxies with
  | Some p => match field p with Some v => v | None => EmptyString end
  | None => EmptyString
  end.

(** The proxy setting a descriptor key stands for. *)
Definition proxy_setting (proxies : option ProxyConfig) (key : string) : option string :=
  match proxies with
  | None => None
  | Some p =>
      if String.eqb key "httpProxy" then http p
      else if String.eqb key "httpsProxy" then https p
      else if String.eqb key "noProxy" then no_proxy p
      else None
  end.

(** Every event a run of [m] appends satisfies [P]. *)
Definition emits {A} (P : event -> Prop) (m : M A) : Prop :=
  forall s, exists d, history (snd (m s)) = history s ++ d /\ Forall P d.

(** A run of [m] leaves the observation [f] of the state as it was. *)
Definition preserves {A X} (f : state -> X) (m : M A) : Prop :=
  forall s, f (snd (m s)) = f s.

(** The same world with another random source. *)
Definition with_entropy (W : world) (source : nat -> nat) : world :=
  {| get_template := get_template W;
     render := render W;
     get_runner_application := get_runner_application W;
     get_runner_registration_token := get_runner_registration_token W;
     execute_command := execute_command W;
     connect := connect W;
     conn_list_projects := conn_list_projects W;
     conn_search_images := conn_search_images W;
     conn_delete_image := conn_delete_image W;
     conn_create_image := conn_create_image W;
     conn_create_server := conn_create_server W;
     entropy := source |}.

(** The debug endpoint handed to the [env.j2] render of one call of the
    function body started in [s]: the render is the first event the call
    adds to the history. *)
Definition rendered_debug_endpoint (W : world) (config : cloud_config)
    (instance_config : InstanceConfig) (proxies : option ProxyConfig)
    (dockerhub_mirror : option string)
    (candidates : option (list SSHDebugConnection)) (s : state)
  : option (option SSHDebugConnection) :=
  match nth_error
          (history (snd (create_instance_body W config instance_config proxies
                           dockerhub_mirror candidates s)))
          (List.length (history s)) with
  | Some (EvRender (EnvFile _ _ _ info)) => Some info
  | _ => None
  end.

(** The steps of [create_instance_body] that follow the [env.j2] render:
    the boot script render, the connection and the server creation. *)
Definition launch_tail (W : world) (config : cloud_config)
    (instance_config : InstanceConfig) (env_contents : string) : M Server :=
  bind (environment_get_template W "openstack-userdata.sh.j2")
    (fun _ =>
       bind (template_render W
               (OpenstackUserdata
                  ("https://github.com/" ++ github_path instance_config)%string
                  (registration_token instance_config)
                  (Str.join "," (labels instance_config))
                  (name instance_config) env_contents))
         (fun cloud_userdata =>
            try_except
              (bind (_create_connection W config)
                 (fun _ =>
                    create_server W (name instance_config)
                      (openstack_image instance_config) "m1.small" cloud_userdata))
              (fun e =>
                 match e with
                 | Foreign (OpenStackCloudException c d) =>
                     Some (raise (InstanceLaunchError "Failed to launch instance."
                                    (Some (OpenStackCloudException c d))))
                 | _ => None
                 end))).

(** The three phases of [build_image] after the runner application is
    known: the build, the replacement of same-name images, the upload. *)
Definition build_steps (W : world) (runner_application : RunnerApplication)
    (proxies : option ProxyConfig) : M unit :=
  try_except
    (bind (_build_image_command W runner_application proxies) (run_command W))
    (fun e =>
       match e with
       | Foreign (SubprocessError d) =>
           Some (raise (ImageBuildError "Failed to build image."
                          (Some (SubprocessError d))))
       | _ => None
       end).

Definition delete_duplicates (W : world) (existing : list Image) : M unit :=
  for_each existing
    (fun existing_image =>
       bind (delete_image W (image_id existing_image))
         (fun deleted =>
            if negb deleted
            then raise (ImageBuildError "Failed to delete duplicate image on Openstack." None)
            else ret tt)).

Definition upload_steps (W : world) (config : cloud_config)
    (runner_application : RunnerApplication) : M Image :=
  bind (_create_connection W config)
    (fun _ =>
       bind (search_images W IMAGE_NAME)
         (fun existing =>
            bind (delete_duplicates W existing)
              (fun _ =>
                 create_image W IMAGE_NAME
                   (IMAGE_PATH_TMPL
                      (if String.eqb (architecture runner_application) "x64"
                       then "amd64" else "arm64"))))).

Definition upload_handler (e : exn) : option (M Image) :=
  match e with
  | Foreign (OpenStackCloudException c d) =>
      Some (raise (ImageBuildError "Failed to upload image."
                     (Some (OpenStackCloudException c d))))
  | _ => None
  end.

(** The image file of an architecture, in the words of the specification. *)
Definition image_file_for (architecture : string) : string :=
  if String.eqb architecture "x64"
  then "jammy-server-cloudimg-amd64-compressed.img"
  else "jammy-server-cloudimg-arm64-compressed.img".

Definition deletion (img : Image) : event := EvDeleteImage (image_id img) Deleted.

Definition is_create_image (ev : event) : Prop :=
  match ev with EvCreateImage _ _ => True | _ => False end.

(** A step before the catalog is touched. *)
Definition is_preparation (ev : event) : Prop :=
  match ev with
  | EvCreateImage _ _ | EvDeleteImage _ _ | EvSearchImages _ => False
  | _ => True
  end.

Definition canonical (img : Image) : bool := String.eqb (image_name img) IMAGE_NAME.

(** Every exception [m] raises satisfies [Q]. *)
Definition raises_only {A} (Q : exn -> Prop) (m : M A) : Prop :=
  forall s e, fst (m s) = Raise e -> Q e.

(** The two halves of [create_instance_body]: rendering the boot payload
    (with the choice of the debug endpoint), and the part inside the
    [try]: opening the connection and creating the server. *)
Definition render_phase (W : world) (instance_config : InstanceConfig)
    (proxies : option ProxyConfig) (dockerhub_mirror : option string)
    (candidates : option (list SSHDebugConnection)) : M string :=
  bind (environment_get_template W "env.j2")
    (fun _ =>
       bind (match candidates with
             | Some (c :: cs) => bind (choice W (c :: cs)) (fun chosen => ret (Some chosen))
             | _ => ret None
             end)
         (fun ssh_debug_info =>
            bind (template_render W
                    (EnvFile proxies EmptyString dockerhub_mirror ssh_debug_info))
              (fun env_contents =>
                 bind (environment_get_template W "openstack-userdata.sh.j2")
                   (fun _ =>
                      template_render W
                        (OpenstackUserdata
                           ("https://github.com/" ++ github_path instance_config)%string
                           (registration_token instance_config)
                           (Str.join "," (labels instance_config))
                           (name instance_config) env_contents))))).

Definition cloud_phase (W : world) (config : cloud_config)
    (instance_config : InstanceConfig) (cloud_userdata : string) : M Server :=
  bind (_create_connection W config)
    (fun _ =>
       create_server W (name instance_config) (openstack_image instance_config)
         "m1.small" cloud_userdata).

Definition launch_handler (e : exn) : option (M Server) :=
  match e with
  | Foreign (OpenStackCloudException c d) =>
      Some (raise (InstanceLaunchError "Failed to launch instance."
                     (Some (OpenStackCloudException c d))))
  | _ => None
  end.

Definition is_foreign (e : exn) : Prop :=
  match e with Foreign _ => True | _ => False end.


Definition not_unauthorized_error (e : exn) : Prop :=
  match e with OpenStackUnauthorizedError _ _ => False | _ => True end.

(** The state in which attempt number [first + failures] starts, after
    [failures] failed attempts, the first of them numbered [first] and
    started in [s]: each failure is logged and followed by a sleep of
    [pause k] seconds, [k] the number of the attempt that failed.  There is
    no such state when one of these attempts succeeds. *)
Fixpoint attempt_from {A} (operation : M A) (pause : nat -> Z)
    (first failures : nat) (s : state) : option state :=
  match failures with
  | O => Some s
  | S failures' =>
      match operation s with
      | (Raise e, s') =>
          attempt_from operation pause (S first) failures'
            (record (EvSleep (pause first)) (record (EvLoggedFailure e) s'))
      | (Ok _, _) => None
      end
  end.

Definition count_connects (h : list event) : nat :=
  List.length (filter (fun ev => match ev with EvConnect _ => true | _ => false end) h).

Definition sleeps (h : list event) : list Z :=
  flat_map (fun ev => match ev with EvSleep n => [n] | _ => [] end) h.

(** ** Further vocabulary: configurations, phases of a run *)

Module Cases.

(** A configuration document without the ["clouds"] key. *)
Definition no_clouds_key : cloud_config :=
  [("cache", [("expiration", "3600")])].

(** A ["clouds"] mapping that lists no profile. *)
Definition no_profile : cloud_config := [("clouds", [])].

(** The build script exits with a non-zero status. *)
Definition build_fails : world :=
  {| get_template := get_template Sample.calm;
     render := render Sample.calm;
     get_runner_application := get_runner_application Sample.calm;
     get_runner_registration_token := get_runner_registration_token Sample.calm;
     execute_command := fun _ _ => Some (SubprocessError "exit status 1");
     connect := connect Sample.calm;
     conn_list_projects := conn_list_projects Sample.calm;
     conn_search_images := conn_search_images Sample.calm;
     conn_delete_image := conn_delete_image Sample.calm;
     conn_create_image := conn_create_image Sample.calm;
     conn_create_server := conn_create_server Sample.calm;
     entropy := entropy Sample.calm |}.

(** The image service refuses the upload. *)
Definition upload_refused : world :=
  {| get_template := get_template Sample.calm;
     render := render Sample.calm;
     get_runner_application := get_runner_application Sample.calm;
     get_runner_registration_token := get_runner_registration_token Sample.calm;
     execute_command := execute_command Sample.calm;
     connect := connect Sample.calm;
     conn_list_projects := conn_list_projects Sample.calm;
     conn_search_images := conn_search_images Sample.calm;
     conn_delete_image := conn_delete_image Sample.calm;
     conn_create_image := fun _ _ _ =>
       inl (OpenStackCloudException "ConflictException" "409");
     conn_create_server := conn_create_server Sample.calm;
     entropy := entropy Sample.calm |}.

End Cases.

(** What a failure inside the build [try] block becomes. *)
Definition build_error (e : foreign) : exn :=
  match e with
  | SubprocessError d => ImageBuildError "Failed to build image." (Some (SubprocessError d))
  | _ => Foreign e
  end.

(** The command [_build_image_command] returns once the proxy-service
    configuration [conf] is rendered. *)
Definition build_command (runner_info : RunnerApplication)
    (proxies : option ProxyConfig) (conf : string) : list string :=
  ["/usr/bin/bash";
   BUILD_OPENSTACK_IMAGE_SCRIPT_FILENAME;
   download_url runner_info;
   proxy_or_empty proxies http;
   proxy_or_empty proxies https;
   proxy_or_empty proxies no_proxy;
   conf;
   Json.dumps (docker_proxy (proxy_or_empty proxies http)
                 (proxy_or_empty proxies https)
                 (proxy_or_empty proxies no_proxy))].

(** The calls and log lines of the upload phase of [build_image]. *)
Definition is_upload_event (ev : event) : Prop :=
  match ev with
  | EvWarning _ | EvConnect _ | EvSearchImages _ | EvDeleteImage _ _
  | EvCreateImage _ _ => True
  | _ => False
  end.

(** The calls and log lines of the [try] block of [create_instance]. *)
Definition is_launch_event (ev : event) : Prop :=
  match ev with
  | EvWarning _ | EvConnect _ | EvCreateServer _ _ _ _ => True
  | _ => False
  end.

Definition is_render_event (ev : event) : Prop :=
  match ev with EvRender _ => True | _ => False end.

(** The four ways [build_image] reports a failure of its own, and what
    else can leave it. *)
Definition build_image_failure (e : exn) : Prop :=
  match e with
  | ImageBuildError msg cause =>
      (msg = "Failed to fetch runner application." /\
       exists d, cause = Some (RunnerBinaryError d)) \/
      (msg = "Failed to build image." /\
       exists d, cause = Some (SubprocessError d)) \/
      (msg = "Failed to delete duplicate image on Openstack." /\ cause = None) \/
      (msg = "Failed to upload image." /\
       exists c d, cause = Some (OpenStackCloudException c d))
  | Foreign _ | KeyError _ | IndexError _ => True
  | _ => False
  end.

(** What the steps inside the upload [try] block raise. *)
Definition upload_failure (e : exn) : Prop :=
  match e with
  | ImageBuildError msg cause =>
      msg = "Failed to delete duplicate image on Openstack." /\ cause = None
  | Foreign _ | KeyError _ | IndexError _ => True
  | _ => False
  end.

(** The value of a hexadecimal digit. *)
Definition hex_value (c : ascii) : nat :=
  match find (fun n => Ascii.eqb (Str.hex_digit n) c) (seq 0 16) with
  | Some n => n
  | None => 0
  end.

(** [bytes.fromhex]: two digits to a byte. *)
Fixpoint unhexlify (s : string) : list nat :=
  match s with
  | String hi (String lo rest) => 16 * hex_value hi + hex_value lo :: unhexlify rest
  | _ => []
  end.

(** The bytes [token_bytes] reads from the random source in state [s]. *)
Definition drawn_bytes (W : world) (s : state) (n : nat) : list nat :=
  map (fun i => entropy W (drawn s + i) mod 256) (seq 0 n).

(** ** Facts about the string helpers *)

Lemma rsplit1_without_separator sep s :
  Str.contains sep s = false -> Str.rsplit1 sep s = [s].
Proof.
  induction s as [|c rest IH]; simpl; intros H; [reflexivity|].
  apply orb_false_iff in H as [Hc Hrest].
  rewrite (IH Hrest), Hc. reflexivity.
Qed.

Lemma rsplit1_with_separator sep s :
  Str.contains sep s = true ->
  exists before after,
    Str.rsplit1 sep s = [before; after] /\
    s = (before ++ String sep after)%string /\
    Str.contains sep after = false.
Proof.
  induction s as [|c rest IH]; simpl; intros H; [discriminate|].
  destruct (Str.contains sep rest) eqn:Hrest.
  - destruct (IH eq_refl) as (b & a & -> & -> & Ha).
    exists (String c b), a. repeat split; assumption.
  - rewrite orb_false_r in H. apply Ascii.eqb_eq in H. subst c.
    rewrite (rsplit1_without_separator _ _ Hrest), Ascii.eqb_refl.
    exists EmptyString, rest. repeat split; assumption.
Qed.

Lemma hex_digit_is_hex n : Str.is_hex_digit (Str.hex_digit n) = true.
Proof. do 16 (destruct n as [|n]; [reflexivity|]). reflexivity. Qed.

Lemma forallb_string_app p a b :
  Str.forallb_string p (a ++ b) =
  Str.forallb_string p a && Str.forallb_string p b.
Proof.
  induction a as [|c a IH]; simpl; [reflexivity|].
  rewrite IH, andb_assoc. reflexivity.
Qed.

Lemma hexlify_length bytes : String.length (Str.hexlify bytes) = 2 * List.length bytes.
Proof.
  induction bytes as [|b rest IH]; simpl; [reflexivity|]. rewrite IH. lia.
Qed.

Lemma hexlify_is_hex bytes :
  Str.forallb_string Str.is_hex_digit (Str.hexlify bytes) = true.
Proof.
  induction bytes as [|b rest IH]; simpl; [reflexivity|].
  rewrite !hex_digit_is_hex, IH. reflexivity.
Qed.

(** ** Facts about the random source *)

Lemma token_bytes_run W n s :
  exists bytes,
    token_bytes W n s =
      (Ok bytes,
       {| images := images s; servers := servers s;
          history := history s; drawn := n + drawn s |}) /\
    List.length bytes = n.
Proof.
  revert s. induction n as [|n IH]; intros s.
  - exists []. destruct s; split; reflexivity.
  - cbn [token_bytes]. unfold bind at 1. unfold draw at 1.
    destruct (IH {| images := images s; servers := servers s;
                    history := history s; drawn := S (drawn s) |})
      as (rest & Hrun & Hlen).
    simpl in Hrun. unfold bind at 1. rewrite Hrun. unfold ret.
    exists (entropy W (drawn s) mod 256 :: rest). split.
    + f_equal. f_equal. lia.
    + simpl. congruence.
Qed.

Lemma token_hex_run W n s :
  exists suffix,
    token_hex W n s =
      (Ok suffix,
       {| images := images s; servers := servers s;
          history := history s; drawn := n + drawn s |}) /\
    String.length suffix = 2 * n /\
    Str.forallb_string Str.is_hex_digit suffix = true.
Proof.
  destruct (token_bytes_run W n s) as (bytes & Hrun & Hlen).
  exists (Str.hexlify bytes). unfold token_hex, bind. rewrite Hrun. unfold ret.
  repeat split.
  - rewrite hexlify_length, Hlen. reflexivity.
  - apply hexlify_is_hex.
Qed.

(** ** Instance configuration *)

(** C10.  A unit name with a slash is cut at its last slash into the
    application name and the unit number; provided the GitHub client hands
    out a registration token, [create_instance_config] returns a
    configuration named [app_name-unit_num-suffix], the suffix being 24
    hexadecimal digits, and labelled [(app_name, "jammy")].  A unit name
    without a slash makes the unpacking raise [ValueError] at once: no
    random draw, no call to the GitHub client. *)
Theorem create_instance_config_name_and_labels
    (W : world) (unit_name path : string) (image : Image) (s : state) :
  (Str.contains "/" unit_name = true ->
   (forall t, exists token, get_runner_registration_token W t path = inr token) ->
   exists app_name unit_num suffix token,
     unit_name = (app_name ++ "/" ++ unit_num)%string /\
     Str.contains "/" unit_num = false /\
     String.length suffix = 24 /\
     Str.forallb_string Str.is_hex_digit suffix = true /\
     fst (create_instance_config W unit_name image path s) =
       Ok {| name := (app_name ++ "-" ++ unit_num ++ "-" ++ suffix)%string;
             labels := [app_name; "jammy"];
             registration_token := token;
             github_path := path;
             openstack_image := image |}) /\
  (Str.contains "/" unit_name = false ->
   create_instance_config W unit_name image path s =
     (Raise (ValueError "not enough values to unpack (expected 2, got 1)"), s)).
Proof.
  split.
  - intros Hslash Htoken.
    destruct (rsplit1_with_separator _ _ Hslash) as (app & num & Hsplit & Hcat & Hnum).
    destruct (token_hex_run W 12 s) as (suffix & Hhex & Hlen & Hdigits).
    unfold create_instance_config. rewrite Hsplit.
    unfold bind at 1. rewrite Hhex.
    unfold github_get_runner_registration_token, bind, log, ask, lift.
    match goal with
    | |- context [get_runner_registration_token W ?t path] =>
        destruct (Htoken t) as (token & ->)
    end.
    exists app, num, suffix, token. repeat split; assumption.
  - intros Hnone. unfold create_instance_config.
    rewrite (rsplit1_without_separator _ _ Hnone). reflexivity.
Qed.

Lemma create_instance_config_name_and_labels_witness :
  (exists app_name unit_num suffix token,
     "github-runner/12" = (app_name ++ "/" ++ unit_num)%string /\
     Str.contains "/" unit_num = false /\
     String.length suffix = 24 /\
     Str.forallb_string Str.is_hex_digit suffix = true /\
     fst (create_instance_config Sample.calm "github-runner/12" Sample.old_jammy
            "canonical/charm" Sample.empty_catalog) =
       Ok {| name := (app_name ++ "-" ++ unit_num ++ "-" ++ suffix)%string;
             labels := [app_name; "jammy"];
             registration_token := token;
             github_path := "canonical/charm";
             openstack_image := Sample.old_jammy |}) /\
  create_instance_config Sample.calm "github-runner" Sample.old_jammy
    "canonical/charm" Sample.empty_catalog =
    (Raise (ValueError "not enough values to unpack (expected 2, got 1)"),
     Sample.empty_catalog).
Proof.
  split.
  - apply (proj1 (create_instance_config_name_and_labels Sample.calm
                    "github-runner/12" "canonical/charm" Sample.old_jammy
                    Sample.empty_catalog)).
    + reflexivity.
    + intros t. exists "AABBCC". reflexivity.
  - apply (proj2 (create_instance_config_name_and_labels Sample.calm
                    "github-runner" "canonical/charm" Sample.old_jammy
                    Sample.empty_catalog)).
    reflexivity.
Defined.

(** ** The build command *)

Lemma truthy_nonempty v : Str.truthy v = true <-> v <> EmptyString.
Proof. destruct v; simpl; split; congruence. Qed.

Lemma proxy_or_empty_default proxies field :
  proxy_or_empty proxies field = field_or_empty proxies field.
Proof.
  unfold proxy_or_empty, field_or_empty.
  destruct proxies as [p|]; [|reflexivity].
  destruct (field p) as [[|c v]|]; reflexivity.
Qed.

Lemma proxy_or_empty_set proxies field v :
  v <> EmptyString ->
  (proxy_or_empty proxies field = v <->
   exists p, proxies = Some p /\ field p = Some v).
Proof.
  intros Hv. unfold proxy_or_empty. split.
  - destruct proxies as [p|]; [|congruence].
    destruct (field p) as [[|c w]|] eqn:Hf; simpl; try congruence.
    intros <-. eauto.
  - intros (p & -> & ->). destruct v; [congruence|reflexivity].
Qed.

Lemma docker_proxy_default_entries a b c k v :
  In (k, v) (docker_proxy_default a b c) <->
  v <> EmptyString /\
  ((k = "httpProxy" /\ v = a) \/ (k = "httpsProxy" /\ v = b) \/ (k = "noProxy" /\ v = c)).
Proof.
  unfold docker_proxy_default. rewrite filter_In. simpl.
  rewrite truthy_nonempty. split.
  - intros [[H|[H|[H|[]]]] Hv]; inversion H; subst; auto 6.
  - intros [Hv [[-> ->]|[[-> ->]|[-> ->]]]]; auto 6.
Qed.

Lemma docker_proxy_default_keys a b c :
  NoDup (map fst (docker_proxy_default a b c)).
Proof.
  unfold docker_proxy_default. simpl.
  destruct (Str.truthy a), (Str.truthy b), (Str.truthy c); simpl;
    repeat constructor; simpl; intuition discriminate.
Qed.

Lemma build_image_command_run W runner proxies s :
  _build_image_command W runner proxies s =
    match get_template W "systemd-docker-proxy.j2" with
    | Some e => (Raise (Foreign e), s)
    | None =>
        match render W (SystemdDockerProxy proxies) with
        | inl e => (Raise (Foreign e), record (EvRender (SystemdDockerProxy proxies)) s)
        | inr conf =>
            (Ok ["/usr/bin/bash"; BUILD_OPENSTACK_IMAGE_SCRIPT_FILENAME;
                 download_url runner;
                 proxy_or_empty proxies http;
                 proxy_or_empty proxies https;
                 proxy_or_empty proxies no_proxy;
                 conf;
                 Json.dumps (docker_proxy (proxy_or_empty proxies http)
                               (proxy_or_empty proxies https)
                               (proxy_or_empty proxies no_proxy))],
             record (EvRender (SystemdDockerProxy proxies)) s)
        end
    end.
Proof.
  unfold _build_image_command, environment_get_template, template_render,
    bind, check, log, lift.
  destruct (get_template W "systemd-docker-proxy.j2"); [reflexivity|].
  unfold ret at 1.
  destruct (render W (SystemdDockerProxy proxies)); reflexivity.
Qed.

(** C9.  When the proxy-service template renders, the build invocation is
    the interpreter and the build script followed by exactly six
    arguments: the download URL, the three proxy fields (the empty string
    for an absent one), the rendered proxy-service configuration and the
    JSON proxy descriptor. *)
Theorem build_image_command_arguments
    (W : world) (runner : RunnerApplication) (proxies : option ProxyConfig)
    (s : state) (conf : string) :
  get_template W "systemd-docker-proxy.j2" = None ->
  render W (SystemdDockerProxy proxies) = inr conf ->
  fst (_build_image_command W runner proxies s) =
    Ok (["/usr/bin/bash"; "scripts/build-openstack-image.sh"] ++
        [download_url runner;
         field_or_empty proxies http;
         field_or_empty proxies https;
         field_or_empty proxies no_proxy;
         conf;
         Json.dumps (docker_proxy (field_or_empty proxies http)
                       (field_or_empty proxies https)
                       (field_or_empty proxies no_proxy))]).
Proof.
  intros Htemplate Hrender.
  rewrite build_image_command_run, Htemplate, Hrender.
  rewrite !proxy_or_empty_default. reflexivity.
Qed.

Lemma build_image_command_arguments_witness :
  fst (_build_image_command Sample.calm Sample.runner_x64 (Some Sample.only_https)
         Sample.empty_catalog) =
    Ok ["/usr/bin/bash"; "scripts/build-openstack-image.sh";
        "http://x/runner.tgz"; EmptyString; "http://proxy:3129"; EmptyString;
        "[Service]";
        Json.dumps
          (Json.JObject
             [("proxies",
               Json.JObject
                 [("default",
                   Json.JObject [("httpsProxy", Json.JString "http://proxy:3129")])])])].
Proof.
  apply (build_image_command_arguments Sample.calm Sample.runner_x64
           (Some Sample.only_https) Sample.empty_catalog "[Service]");
    reflexivity.
Defined.

(** C4.  When the proxy-service template renders, the build command is
    produced and its last argument is the JSON text of
    [{"proxies": {"default": D}}], where [D] has one entry for each of
    [httpProxy], [httpsProxy], [noProxy] whose proxy field is set and
    non-empty, carrying that field's value, and no other entry: an empty
    or absent field, or an absent proxy configuration, gives no key. *)
Theorem proxy_descriptor_keeps_nonempty_fields
    (W : world) (runner : RunnerApplication) (proxies : option ProxyConfig)
    (s : state) (conf : string) :
  get_template W "systemd-docker-proxy.j2" = None ->
  render W (SystemdDockerProxy proxies) = inr conf ->
  exists (cmd : list string) (default : list (string * string)),
    fst (_build_image_command W runner proxies s) = Ok cmd /\
    List.length cmd = 8 /\
    nth_error cmd 7 =
      Some (Json.dumps
              (Json.JObject
                 [("proxies",
                   Json.JObject
                     [("default",
                       Json.JObject
                         (map (fun kv => (fst kv, Json.JString (snd kv))) default))])])) /\
    NoDup (map fst default) /\
    forall key value,
      In (key, value) default <->
      value <> EmptyString /\ proxy_setting proxies key = Some value.
Proof.
  intros Htemplate Hrender.
  rewrite build_image_command_run, Htemplate, Hrender.
  eexists.
  exists (docker_proxy_default (proxy_or_empty proxies http)
            (proxy_or_empty proxies https) (proxy_or_empty proxies no_proxy)).
  split; [reflexivity|]. split; [reflexivity|]. split; [reflexivity|].
  split; [apply docker_proxy_default_keys|].
  intros key value. rewrite docker_proxy_default_entries. split.
  - intros [Hv Hcases]. split; [assumption|].
    destruct Hcases as [[-> Heq]|[[-> Heq]|[-> Heq]]];
      symmetry in Heq; apply (proxy_or_empty_set _ _ _ Hv) in Heq;
      destruct Heq as (p & -> & Hfield); exact Hfield.
  - intros [Hv Hset]. split; [assumption|].
    unfold proxy_setting in Hset.
    destruct proxies as [p|]; [|discriminate].
    destruct (String.eqb key "httpProxy") eqn:E1.
    { apply String.eqb_eq in E1. left. split; [assumption|].
      symmetry. apply proxy_or_empty_set; eauto. }
    destruct (String.eqb key "httpsProxy") eqn:E2.
    { apply String.eqb_eq in E2. right; left. split; [assumption|].
      symmetry. apply proxy_or_empty_set; eauto. }
    destruct (String.eqb key "noProxy") eqn:E3; [|discriminate].
    apply String.eqb_eq in E3. right; right. split; [assumption|].
    symmetry. apply proxy_or_empty_set; eauto.
Qed.

Lemma proxy_descriptor_keeps_nonempty_fields_witness :
  exists (cmd : list string) (default : list (string * string)),
    fst (_build_image_command Sample.calm Sample.runner_x64 (Some Sample.only_https)
           Sample.empty_catalog) = Ok cmd /\
    List.length cmd = 8 /\
    nth_error cmd 7 =
      Some (Json.dumps
              (Json.JObject
                 [("proxies",
                   Json.JObject
                     [("default",
                       Json.JObject
                         (map (fun kv => (fst kv, Json.JString (snd kv))) default))])])) /\
    NoDup (map fst default) /\
    forall key value,
      In (key, value) default <->
      value <> EmptyString /\
      proxy_setting (Some Sample.only_https) key = Some value.
Proof.
  apply (proxy_descriptor_keeps_nonempty_fields Sample.calm Sample.runner_x64
           (Some Sample.only_https) Sample.empty_catalog "[Service]");
    reflexivity.
Defined.

(** ** What a computation adds to the history *)

Section Emits.

Context {A B : Type} (P : event -> Prop).

Lemma emits_ret (a : A) : emits P (ret a).
Proof. intros s. exists []. rewrite app_nil_r. auto. Qed.

Lemma emits_raise (e : exn) : emits P (@raise A e).
Proof. intros s. exists []. rewrite app_nil_r. auto. Qed.

Lemma emits_ask (f : state -> A) : emits P (ask f).
Proof. intros s. exists []. rewrite app_nil_r. auto. Qed.

Lemma emits_lift (r : foreign + A) : emits P (lift r).
Proof. destruct r; [apply emits_raise | apply emits_ret]. Qed.

Lemma emits_bind (m : M A) (k : A -> M B) :
  emits P m -> (forall a, emits P (k a)) -> emits P (bind m k).
Proof.
  intros Hm Hk s. unfold bind.
  destruct (Hm s) as (d1 & H1 & F1).
  destruct (m s) as [[a|e] s1]; simpl in H1.
  - destruct (Hk a s1) as (d2 & H2 & F2).
    exists (d1 ++ d2). rewrite H2, H1, app_assoc. split; [reflexivity|].
    apply Forall_app; auto.
  - exists d1. auto.
Qed.

Lemma emits_try_except (m : M A) (h : exn -> option (M A)) :
  emits P m -> (forall e h', h e = Some h' -> emits P h') -> emits P (try_except m h).
Proof.
  intros Hm Hh s. unfold try_except.
  destruct (Hm s) as (d1 & H1 & F1).
  destruct (m s) as [[a|e] s1]; simpl in H1.
  - exists d1. auto.
  - destruct (h e) as [h'|] eqn:He.
    + destruct (Hh e h' He s1) as (d2 & H2 & F2).
      exists (d1 ++ d2). rewrite H2, H1, app_assoc. split; [reflexivity|].
      apply Forall_app; auto.
    + exists d1. auto.
Qed.

End Emits.

Lemma emits_log P ev : P ev -> emits P (log ev).
Proof. intros H s. exists [ev]. simpl. auto. Qed.

Lemma emits_check P r : emits P (check r).
Proof. destruct r; [apply emits_raise | apply emits_ret]. Qed.

Lemma emits_for_each {A} P (l : list A) (body : A -> M unit) :
  (forall x, emits P (body x)) -> emits P (for_each l body).
Proof.
  intros Hbody. induction l as [|x rest IH]; simpl.
  - apply emits_ret.
  - apply emits_bind; auto.
Qed.

Lemma emits_draw W P : emits P (draw W).
Proof. intros s. exists []. simpl. rewrite app_nil_r. auto. Qed.

Lemma emits_silent {A} P (m : M A) :
  (forall s, history (snd (m s)) = history s) -> emits P m.
Proof. intros H s. exists []. rewrite app_nil_r. auto. Qed.

Lemma emits_weaken {A} (P Q : event -> Prop) (m : M A) :
  (forall ev, P ev -> Q ev) -> emits P m -> emits Q m.
Proof.
  intros HPQ Hm s. destruct (Hm s) as (d & H & F).
  exists d. split; [assumption|]. eapply Forall_impl; eauto.
Qed.

(** The proof obligations left are the ones on the logged events. *)
Ltac emits_steps :=
  repeat first
    [ apply emits_ret | apply emits_raise | apply emits_ask | apply emits_lift
    | apply emits_check | apply emits_draw
    | apply emits_bind; [|intros ?]
    | apply emits_try_except; [|intros ? ? ?]
    | apply emits_for_each; intros ?
    | apply emits_silent; intros ?; reflexivity
    | apply emits_log
    | match goal with
      | |- emits _ (match ?x with _ => _ end) => destruct x
      | |- emits _ (if ?x then _ else _) => destruct x
      | H : match ?x with _ => _ end = Some _ |- _ => destruct x; try discriminate H
      | H : Some _ = Some _ |- _ => inversion H; subst; clear H
      | H : None = Some _ |- _ => discriminate H
      end ].

Lemma emits_choice W {A} P (l : list A) : emits P (choice W l).
Proof. unfold choice. emits_steps. Qed.

Lemma emits_create_connection W P config :
  P (EvWarning "Multiple clouds defined in clouds.yaml. Using the first one to connect.") ->
  (forall cloud, P (EvConnect cloud)) ->
  emits P (_create_connection W config).
Proof.
  intros Hw Hc. unfold _create_connection, openstack_connect. emits_steps; auto.
Qed.

(** ** What a computation leaves alone *)

Section Preserves.

Context {A B X : Type} (f : state -> X).

Lemma preserves_ret (a : A) : preserves f (ret a).
Proof. intros s. reflexivity. Qed.

Lemma preserves_raise (e : exn) : preserves f (@raise A e).
Proof. intros s. reflexivity. Qed.

Lemma preserves_ask (g : state -> A) : preserves f (ask g).
Proof. intros s. reflexivity. Qed.

Lemma preserves_lift (r : foreign + A) : preserves f (lift r).
Proof. destruct r; intros s; reflexivity. Qed.

Lemma preserves_bind (m : M A) (k : A -> M B) :
  preserves f m -> (forall a, preserves f (k a)) -> preserves f (bind m k).
Proof.
  intros Hm Hk s. unfold bind. specialize (Hm s).
  destruct (m s) as [[a|e] s1]; simpl in Hm.
  - rewrite Hk. assumption.
  - assumption.
Qed.

Lemma preserves_try_except (m : M A) (h : exn -> option (M A)) :
  preserves f m -> (forall e h', h e = Some h' -> preserves f h') ->
  preserves f (try_except m h).
Proof.
  intros Hm Hh s. unfold try_except. specialize (Hm s).
  destruct (m s) as [[a|e] s1]; simpl in Hm; [assumption|].
  destruct (h e) as [h'|] eqn:He; [|assumption].
  rewrite (Hh e h' He). assumption.
Qed.

End Preserves.

Lemma preserves_check {X} (f : state -> X) r : preserves f (check r).
Proof. destruct r; intros s; reflexivity. Qed.

Lemma preserves_log {X} (f : state -> X) ev :
  (forall s, f (record ev s) = f s) -> preserves f (log ev).
Proof. intros H s. apply H. Qed.

Ltac preserves_steps :=
  repeat first
    [ apply preserves_ret | apply preserves_raise | apply preserves_ask
    | apply preserves_lift | apply preserves_check
    | apply preserves_bind; [|intros ?]
    | apply preserves_try_except; [|intros ? ? ?]
    | apply preserves_log; intros ?; reflexivity
    | match goal with
      | |- preserves _ (match ?x with _ => _ end) => destruct x
      | |- preserves _ (if ?x then _ else _) => destruct x
      | H : match ?x with _ => _ end = Some _ |- _ => destruct x; try discriminate H
      | H : Some _ = Some _ |- _ => inversion H; subst; clear H
      | H : None = Some _ |- _ => discriminate H
      end ].

Lemma create_connection_keeps {X} (f : state -> X) W config :
  (forall ev s, f (record ev s) = f s) -> preserves f (_create_connection W config).
Proof.
  intros Hf. unfold _create_connection, openstack_connect.
  repeat first
    [ apply preserves_ret | apply preserves_raise | apply preserves_ask
    | apply preserves_check | apply preserves_bind; [|intros ?]
    | apply preserves_log; intros ?; apply Hf
    | match goal with
      | |- preserves _ (match ?x with _ => _ end) => destruct x
      | |- preserves _ (if ?x then _ else _) => destruct x
      end ].
Qed.

Lemma create_server_keeps_drawn W name image flavor userdata :
  preserves drawn (create_server W name image flavor userdata).
Proof.
  unfold create_server. preserves_steps. intros s. reflexivity.
Qed.

Lemma template_render_run W call s :
  template_render W call s =
    (match render W call with
     | inl e => Raise (Foreign e)
     | inr text => Ok text
     end, record (EvRender call) s).
Proof.
  unfold template_render, bind, log, lift.
  destruct (render W call); reflexivity.
Qed.

Lemma launch_tail_emits W config instance_config env_contents P :
  (forall ev, P ev) -> emits P (launch_tail W config instance_config env_contents).
Proof.
  intros HP.
  unfold launch_tail, environment_get_template, template_render, create_server,
    add_server.
  emits_steps; auto.
  apply emits_create_connection; auto.
Qed.

Lemma launch_tail_keeps_drawn W config instance_config env_contents :
  preserves drawn (launch_tail W config instance_config env_contents).
Proof.
  unfold launch_tail, environment_get_template, template_render.
  preserves_steps;
    first [ apply create_connection_keeps; reflexivity | intros ?; reflexivity ].
Qed.

Lemma create_instance_body_unfold W config instance_config proxies mirror candidates :
  create_instance_body W config instance_config proxies mirror candidates =
    bind (environment_get_template W "env.j2")
      (fun _ =>
         bind (match candidates with
               | Some (c :: cs) => bind (choice W (c :: cs)) (fun chosen => ret (Some chosen))
               | _ => ret None
               end)
           (fun ssh_debug_info =>
              bind (template_render W
                      (EnvFile proxies EmptyString mirror ssh_debug_info))
                (fun env_contents =>
                   launch_tail W config instance_config env_contents))).
Proof. reflexivity. Qed.

(** The endpoint one call of the body selects in state [s]. *)
Lemma create_instance_body_start W config instance_config proxies mirror candidates s :
  get_template W "env.j2" = None ->
  let info :=
    match candidates with
    | Some (c :: cs) =>
        Some (nth (entropy W (drawn s) mod List.length (c :: cs)) (c :: cs) c)
    | _ => None
    end in
  exists s1,
    history s1 = history s /\
    drawn s1 = match candidates with Some (_ :: _) => S (drawn s) | _ => drawn s end /\
    create_instance_body W config instance_config proxies mirror candidates s =
      match render W (EnvFile proxies EmptyString mirror info) with
      | inl e =>
          (Raise (Foreign e),
           record (EvRender (EnvFile proxies EmptyString mirror info)) s1)
      | inr env_contents =>
          launch_tail W config instance_config env_contents
            (record (EvRender (EnvFile proxies EmptyString mirror info)) s1)
      end.
Proof.
  intros Htemplate info.
  rewrite create_instance_body_unfold.
  unfold environment_get_template. rewrite Htemplate.
  unfold check. unfold bind at 1. unfold ret at 1.
  assert (Hselect :
    exists s1,
      (match candidates with
       | Some (c :: cs) => bind (choice W (c :: cs)) (fun chosen => ret (Some chosen))
       | _ => ret None
       end) s = (Ok info, s1) /\
      history s1 = history s /\
      drawn s1 = match candidates with Some (_ :: _) => S (drawn s) | _ => drawn s end).
  { destruct candidates as [[|c cs]|]; subst info.
    - exists s. auto.
    - eexists. split; [reflexivity|]. split; reflexivity.
    - exists s. auto. }
  destruct Hselect as (s1 & Hrun & Hh & Hd).
  exists s1. split; [assumption|]. split; [assumption|].
  unfold bind at 1. rewrite Hrun.
  unfold bind at 1. rewrite template_render_run.
  destruct (render W (EnvFile proxies EmptyString mirror info)); reflexivity.
Qed.

Lemma create_instance_body_first_event W config instance_config proxies mirror
    candidates s :
  get_template W "env.j2" = None ->
  rendered_debug_endpoint W config instance_config proxies mirror candidates s =
    Some match candidates with
         | Some (c :: cs) =>
             Some (nth (entropy W (drawn s) mod List.length (c :: cs)) (c :: cs) c)
         | _ => None
         end /\
  drawn (snd (create_instance_body W config instance_config proxies mirror
                candidates s)) =
    match candidates with Some (_ :: _) => S (drawn s) | _ => drawn s end.
Proof.
  intros Htemplate. unfold rendered_debug_endpoint.
  destruct (create_instance_body_start W config instance_config proxies mirror
              candidates s Htemplate) as (s1 & Hh & Hd & ->).
  match goal with
  | |- context [render W ?call] => destruct (render W call) as [e|env_contents]
  end.
  - simpl. rewrite Hh, nth_error_app2, Nat.sub_diag by lia. split; [reflexivity|assumption].
  - match goal with
    | |- context [launch_tail W config instance_config env_contents ?t] =>
        destruct (launch_tail_emits W config instance_config env_contents
                    (fun _ => True) (fun _ => I) t) as (d & -> & _);
        rewrite (launch_tail_keeps_drawn W config instance_config env_contents t)
    end.
    simpl. rewrite Hh, <- app_assoc, nth_error_app2, Nat.sub_diag by lia.
    split; [reflexivity|assumption].
Qed.

(** ** Debug endpoint selection *)

(** C8.  The debug endpoint handed to the environment descriptor render:
    none when the candidate list is absent or empty; the candidate itself
    when there is exactly one; with several, the member of the list at the
    index drawn from the random source, one fresh draw per call, so that
    every candidate is selected under some random source. *)
Theorem debug_endpoint_selection
    (W : world) (config : cloud_config) (instance_config : InstanceConfig)
    (proxies : option ProxyConfig) (mirror : option string) (s : state) :
  get_template W "env.j2" = None ->
  rendered_debug_endpoint W config instance_config proxies mirror None s = Some None /\
  rendered_debug_endpoint W config instance_config proxies mirror (Some []) s = Some None /\
  (forall only,
     rendered_debug_endpoint W config instance_config proxies mirror (Some [only]) s =
       Some (Some only)) /\
  (forall candidates, 1 < List.length candidates ->
     (exists chosen,
        rendered_debug_endpoint W config instance_config proxies mirror
          (Some candidates) s = Some (Some chosen) /\
        In chosen candidates /\
        nth_error candidates (entropy W (drawn s) mod List.length candidates) =
          Some chosen) /\
     drawn (snd (create_instance_body W config instance_config proxies mirror
                   (Some candidates) s)) = S (drawn s) /\
     (forall i, i < List.length candidates ->
        rendered_debug_endpoint (with_entropy W (fun _ => i)) config instance_config
          proxies mirror (Some candidates) s = Some (nth_error candidates i))).
Proof.
  intros Htemplate.
  split; [apply create_instance_body_first_event; assumption|].
  split; [apply create_instance_body_first_event; assumption|].
  split.
  - intros only.
    destruct (create_instance_body_first_event W config instance_config proxies
                mirror (Some [only]) s Htemplate) as [-> _].
    simpl List.length. rewrite Nat.mod_1_r. reflexivity.
  - intros candidates Hlen.
    destruct candidates as [|c cs]; [simpl in Hlen; lia|].
    assert (Hbound : forall r, r mod List.length (c :: cs) < List.length (c :: cs))
      by (intros r; apply Nat.mod_upper_bound; simpl; lia).
    split; [|split].
    + destruct (create_instance_body_first_event W config instance_config proxies
                  mirror (Some (c :: cs)) s Htemplate) as [-> _].
      eexists. split; [reflexivity|]. split.
      * apply nth_In, Hbound.
      * apply nth_error_nth', Hbound.
    + apply create_instance_body_first_event; assumption.
    + intros i Hi.
      destruct (create_instance_body_first_event (with_entropy W (fun _ => i)) config
                  instance_config proxies mirror (Some (c :: cs)) s Htemplate)
        as [-> _].
      cbn [entropy with_entropy]. rewrite (Nat.mod_small _ _ Hi).
      f_equal. symmetry. apply nth_error_nth', Hi.
Qed.

Lemma debug_endpoint_selection_witness :
  rendered_debug_endpoint Sample.calm Sample.one_cloud Sample.sample_config None None
    (Some [Sample.debug_a]) Sample.empty_catalog = Some (Some Sample.debug_a) /\
  rendered_debug_endpoint (with_entropy Sample.calm (fun _ => 0)) Sample.one_cloud
    Sample.sample_config None None (Some [Sample.debug_a; Sample.debug_b])
    Sample.empty_catalog = Some (Some Sample.debug_a) /\
  rendered_debug_endpoint (with_entropy Sample.calm (fun _ => 1)) Sample.one_cloud
    Sample.sample_config None None (Some [Sample.debug_a; Sample.debug_b])
    Sample.empty_catalog = Some (Some Sample.debug_b).
Proof.
  pose proof (debug_endpoint_selection Sample.calm Sample.one_cloud
                Sample.sample_config None None Sample.empty_catalog eq_refl)
    as (_ & _ & Hone & Hmany).
  split; [apply Hone|].
  destruct (Hmany [Sample.debug_a; Sample.debug_b]) as (_ & _ & Hany);
    [simpl; lia|].
  split; [apply (Hany 0) | apply (Hany 1)]; simpl; lia.
Defined.

(** ** Image build and publish *)

Lemma build_image_unfold W arch config path proxies :
  build_image W arch config path proxies =
    bind (try_except (github_get_runner_application W path arch)
            (fun e =>
               match e with
               | Foreign (RunnerBinaryError d) =>
                   Some (raise (ImageBuildError "Failed to fetch runner application."
                                  (Some (RunnerBinaryError d))))
               | _ => None
               end))
      (fun runner_application =>
         bind (build_steps W runner_application proxies)
           (fun _ => try_except (upload_steps W config runner_application) upload_handler)).
Proof. reflexivity. Qed.

Lemma delete_image_run W id s :
  delete_image W id s =
    match conn_delete_image W s id with
    | Deleted =>
        (Ok true,
         {| images := filter (fun img => negb (matches id img)) (images s);
            servers := servers s;
            history := history s ++ [EvDeleteImage id Deleted];
            drawn := drawn s |})
    | NotDeleted => (Ok false, record (EvDeleteImage id NotDeleted) s)
    | DeleteFault e => (Raise (Foreign e), record (EvDeleteImage id (DeleteFault e)) s)
    end.
Proof.
  unfold delete_image, bind, ask, log.
  destruct (conn_delete_image W s id); reflexivity.
Qed.

Lemma delete_duplicates_cons W img rest s :
  delete_duplicates W (img :: rest) s =
    match conn_delete_image W s (image_id img) with
    | Deleted =>
        delete_duplicates W rest
          {| images := filter (fun i => negb (matches (image_id img) i)) (images s);
             servers := servers s;
             history := history s ++ [deletion img];
             drawn := drawn s |}
    | NotDeleted =>
        (Raise (ImageBuildError "Failed to delete duplicate image on Openstack." None),
         record (EvDeleteImage (image_id img) NotDeleted) s)
    | DeleteFault e =>
        (Raise (Foreign e), record (EvDeleteImage (image_id img) (DeleteFault e)) s)
    end.
Proof.
  unfold delete_duplicates. cbn [for_each].
  unfold bind at 1. unfold bind at 1. rewrite delete_image_run.
  destruct (conn_delete_image W s (image_id img)); reflexivity.
Qed.

(** The loop over the same-name images: either every one is deleted, or
    the loop stops at the first deletion that does not go through. *)
Lemma delete_duplicates_run W existing s :
  (fst (delete_duplicates W existing s) = Ok tt /\
   history (snd (delete_duplicates W existing s)) = history s ++ map deletion existing /\
   forall i, In i (images (snd (delete_duplicates W existing s))) ->
             In i (images s) /\
             forall img, In img existing -> matches (image_id img) i = false) \/
  (exists done img fate,
     history (snd (delete_duplicates W existing s)) =
       history s ++ map deletion done ++ [EvDeleteImage (image_id img) fate] /\
     ((fate = NotDeleted /\
       fst (delete_duplicates W existing s) =
         Raise (ImageBuildError "Failed to delete duplicate image on Openstack." None)) \/
      (exists e, fate = DeleteFault e /\
                 fst (delete_duplicates W existing s) = Raise (Foreign e)))).
Proof.
  revert s. induction existing as [|img rest IH]; intros s.
  - left. simpl. rewrite app_nil_r. repeat split; auto. intros ? [].
  - rewrite delete_duplicates_cons.
    destruct (conn_delete_image W s (image_id img)) as [| |e].
    +
      match goal with
      | |- context [delete_duplicates W rest ?t] => destruct (IH t) as [Hall|Hstop]
      end.
      * left. destruct Hall as (Hok & Hhist & Himages).
        split; [assumption|]. split.
        { rewrite Hhist. simpl. rewrite <- app_assoc. reflexivity. }
        intros i Hi. destruct (Himages i Hi) as [Hin Hrest].
        simpl in Hin. apply filter_In in Hin as [Hin Hneq].
        split; [assumption|]. intros img' [<-|Hin'].
        { apply negb_true_iff. assumption. }
        { apply Hrest. assumption. }
      * right. destruct Hstop as (done & img' & fate & Hhist & Hfate).
        exists (img :: done), img', fate. split; [|assumption].
        rewrite Hhist. simpl. rewrite <- app_assoc. reflexivity.
    + right. exists [], img, NotDeleted. simpl. split; [reflexivity|].
      left. split; reflexivity.
    + right. exists [], img, (DeleteFault e). simpl. split; [reflexivity|].
      right. exists e. split; reflexivity.
Qed.

Lemma search_images_run W name_or_id s :
  search_images W name_or_id s =
    (match conn_search_images W (record (EvSearchImages name_or_id) s) name_or_id with
     | Some e => Raise (Foreign e)
     | None => Ok (filter (matches name_or_id) (images s))
     end, record (EvSearchImages name_or_id) s).
Proof.
  unfold search_images, bind, log, ask, check.
  destruct (conn_search_images W (record (EvSearchImages name_or_id) s) name_or_id);
    reflexivity.
Qed.

Lemma create_image_run W name filename s :
  create_image W name filename s =
    match conn_create_image W (record (EvCreateImage name filename) s) name filename with
    | inl e => (Raise (Foreign e), record (EvCreateImage name filename) s)
    | inr id =>
        (Ok {| image_id := id; image_name := name; image_filename := filename |},
         {| images := images s ++
                      [{| image_id := id; image_name := name; image_filename := filename |}];
            servers := servers s;
            history := history s ++ [EvCreateImage name filename];
            drawn := drawn s |})
    end.
Proof.
  unfold create_image, bind, log, ask, lift.
  destruct (conn_create_image W (record (EvCreateImage name filename) s) name filename);
    reflexivity.
Qed.

Lemma create_connection_run W config s :
  exists prep,
    history (snd (_create_connection W config s)) = history s ++ prep /\
    Forall is_preparation prep /\
    images (snd (_create_connection W config s)) = images s.
Proof.
  destruct (emits_create_connection W is_preparation config I (fun _ => I) s)
    as (prep & Hh & Hp).
  exists prep. repeat split; try assumption.
  apply (create_connection_keeps images). reflexivity.
Qed.

Lemma no_canonical_left (catalog remaining : list Image) :
  (forall i, In i remaining ->
     In i catalog /\
     forall img, In img (filter (matches IMAGE_NAME) catalog) ->
                 matches (image_id img) i = false) ->
  filter canonical remaining = [].
Proof.
  intros H. induction remaining as [|i rest IH]; [reflexivity|].
  simpl. destruct (canonical i) eqn:Hc.
  - exfalso. destruct (H i (or_introl eq_refl)) as [Hin Hdel].
    assert (Hself : matches (image_id i) i = false).
    { apply Hdel. apply filter_In. split; [assumption|].
      unfold matches. unfold canonical in Hc. rewrite Hc. apply orb_true_r. }
    unfold matches in Hself. rewrite String.eqb_refl in Hself. discriminate.
  - apply IH. intros j Hj. apply H. right. assumption.
Qed.

(** How the upload phase can go, started in [s]: the events it adds and
    its result. *)
Lemma upload_steps_run W config app s out :
  upload_steps W config app s = out ->
  exists prep,
    Forall is_preparation prep /\
    ((history (snd out) = history s ++ prep /\ exists e, fst out = Raise e) \/
     (history (snd out) = history s ++ prep ++ [EvSearchImages IMAGE_NAME] /\
      exists e, fst out = Raise (Foreign e)) \/
     (exists done img,
        history (snd out) =
          history s ++ prep ++ EvSearchImages IMAGE_NAME :: map deletion done ++
            [EvDeleteImage (image_id img) NotDeleted] /\
        fst out =
          Raise (ImageBuildError "Failed to delete duplicate image on Openstack." None)) \/
     (exists done img e,
        history (snd out) =
          history s ++ prep ++ EvSearchImages IMAGE_NAME :: map deletion done ++
            [EvDeleteImage (image_id img) (DeleteFault e)] /\
        fst out = Raise (Foreign e)) \/
     (history (snd out) =
        history s ++ prep ++ EvSearchImages IMAGE_NAME ::
          map deletion (filter (matches IMAGE_NAME) (images s)) ++
          [EvCreateImage IMAGE_NAME (image_file_for (architecture app))] /\
      ((exists e, fst out = Raise (Foreign e)) \/
       (exists img,
          fst out = Ok img /\
          image_name img = IMAGE_NAME /\
          image_filename img = image_file_for (architecture app) /\
          filter canonical (images (snd out)) = [img])))).
Proof.
  intros Hout. unfold upload_steps in Hout.
  destruct (create_connection_run W config s) as (prep & Hh & Hprep & Himg).
  exists prep. split; [assumption|].
  unfold bind at 1 in Hout.
  destruct (_create_connection W config s) as [[conn|e] s1]; simpl in Hh, Himg.
  2:{ left. subst out. simpl. split; [assumption|eauto]. }
  right.
  unfold bind at 1 in Hout. rewrite search_images_run in Hout.
  destruct (conn_search_images W (record (EvSearchImages IMAGE_NAME) s1) IMAGE_NAME)
    as [e|].
  { left. subst out. simpl. rewrite Hh, <- app_assoc. split; [reflexivity|eauto]. }
  right.
  unfold bind at 1 in Hout.
  pose proof (delete_duplicates_run W (filter (matches IMAGE_NAME) (images s1))
                (record (EvSearchImages IMAGE_NAME) s1)) as Hloop.
  destruct (delete_duplicates W (filter (matches IMAGE_NAME) (images s1))
              (record (EvSearchImages IMAGE_NAME) s1)) as [[[]|e] s2];
    simpl in Hloop.
  - destruct Hloop as [(_ & Hh2 & Hleft)|(done & img & fate & _ & [[_ Hbad]|(e & _ & Hbad)])];
      try discriminate Hbad.
    right; right.
    assert (Hfile :
      IMAGE_PATH_TMPL (if String.eqb (architecture app) "x64" then "amd64" else "arm64") =
      image_file_for (architecture app)).
    { unfold image_file_for. destruct (String.eqb (architecture app) "x64"); reflexivity. }
    rewrite Hfile, create_image_run in Hout.
    assert (Hhist :
      history s2 ++ [EvCreateImage IMAGE_NAME (image_file_for (architecture app))] =
      history s ++ prep ++ EvSearchImages IMAGE_NAME ::
        map deletion (filter (matches IMAGE_NAME) (images s)) ++
        [EvCreateImage IMAGE_NAME (image_file_for (architecture app))]).
    { rewrite Hh2, Hh, Himg. rewrite <- !app_assoc. reflexivity. }
    destruct (conn_create_image W _ IMAGE_NAME (image_file_for (architecture app)))
      as [e|id]; subst out; simpl; (split; [exact Hhist|]).
    + left. eauto.
    + right. eexists. split; [reflexivity|]. split; [reflexivity|].
      split; [reflexivity|].
      rewrite filter_app, (no_canonical_left (images s1) (images s2)); [reflexivity|].
      exact Hleft.
  - destruct Hloop as [(Hbad & _)|(done & img & fate & Hh2 & Hfate)];
      [discriminate Hbad|].
    assert (Hhist :
      history s2 =
      history s ++ prep ++ EvSearchImages IMAGE_NAME :: map deletion done ++
        [EvDeleteImage (image_id img) fate]).
    { rewrite Hh2. simpl. rewrite Hh, <- !app_assoc. reflexivity. }
    destruct Hfate as [[-> He]|(e' & -> & He)]; inversion He; subst e.
    + left. exists done, img. subst out. simpl. split; [exact Hhist|reflexivity].
    + right; left. exists done, img, e'. subst out. simpl.
      split; [exact Hhist|reflexivity].
Qed.

Lemma fetch_run W path arch s :
  try_except (github_get_runner_application W path arch)
    (fun e =>
       match e with
       | Foreign (RunnerBinaryError d) =>
           Some (raise (ImageBuildError "Failed to fetch runner application."
                          (Some (RunnerBinaryError d))))
       | _ => None
       end) s =
    (match get_runner_application W (record (EvGetRunnerApplication path arch) s)
             path arch with
     | inl (RunnerBinaryError d) =>
         Raise (ImageBuildError "Failed to fetch runner application."
                  (Some (RunnerBinaryError d)))
     | inl e => Raise (Foreign e)
     | inr app => Ok app
     end, record (EvGetRunnerApplication path arch) s).
Proof.
  unfold try_except, github_get_runner_application, bind, log, ask, lift.
  destruct (get_runner_application W (record (EvGetRunnerApplication path arch) s)
              path arch) as [[]|]; reflexivity.
Qed.

Lemma build_steps_emits W app proxies : emits is_preparation (build_steps W app proxies).
Proof.
  unfold build_steps, _build_image_command, environment_get_template,
    template_render, run_command.
  emits_steps; exact I.
Qed.

Lemma build_steps_keeps_images W app proxies : preserves images (build_steps W app proxies).
Proof.
  unfold build_steps, _build_image_command, environment_get_template,
    template_render, run_command.
  preserves_steps.
Qed.

Lemma upload_handler_run (m : M Image) s :
  try_except m upload_handler s =
    (match fst (m s) with
     | Raise (Foreign (OpenStackCloudException c d)) =>
         Raise (ImageBuildError "Failed to upload image."
                  (Some (OpenStackCloudException c d)))
     | r => r
     end, snd (m s)).
Proof.
  unfold try_except, upload_handler.
  destruct (m s) as [[img|[[]| | | | | |]] s1]; reflexivity.
Qed.

(** How [build_image] can go, started in [s]. *)
Lemma build_image_run W arch config path proxies s out :
  build_image W arch config path proxies s = out ->
  exists prep,
    Forall is_preparation prep /\
    ((history (snd out) = history s ++ prep /\ exists e, fst out = Raise e) \/
     (history (snd out) = history s ++ prep ++ [EvSearchImages IMAGE_NAME] /\
      exists e, fst out = Raise e) \/
     (exists done img,
        history (snd out) =
          history s ++ prep ++ EvSearchImages IMAGE_NAME :: map deletion done ++
            [EvDeleteImage (image_id img) NotDeleted] /\
        fst out =
          Raise (ImageBuildError "Failed to delete duplicate image on Openstack." None)) \/
     (exists done img e,
        history (snd out) =
          history s ++ prep ++ EvSearchImages IMAGE_NAME :: map deletion done ++
            [EvDeleteImage (image_id img) (DeleteFault e)] /\
        exists x, fst out = Raise x) \/
     (exists app,
        get_runner_application W (record (EvGetRunnerApplication path arch) s)
          path arch = inr app /\
        history (snd out) =
          history s ++ prep ++ EvSearchImages IMAGE_NAME ::
            map deletion (filter (matches IMAGE_NAME) (images s)) ++
            [EvCreateImage IMAGE_NAME (image_file_for (architecture app))] /\
        ((exists e, fst out = Raise e) \/
         (exists img,
            fst out = Ok img /\
            image_name img = IMAGE_NAME /\
            image_filename img = image_file_for (architecture app) /\
            filter canonical (images (snd out)) = [img])))).
Proof.
  intros Hout. rewrite build_image_unfold in Hout.
  unfold bind at 1 in Hout. rewrite fetch_run in Hout.
  destruct (get_runner_application W (record (EvGetRunnerApplication path arch) s)
              path arch) as [e|app] eqn:Happ.
  { exists [EvGetRunnerApplication path arch]. split; [repeat constructor|].
    left. destruct e; subst out; simpl; eauto. }
  unfold bind at 1 in Hout.
  destruct (build_steps_emits W app proxies (record (EvGetRunnerApplication path arch) s))
    as (d1 & Hh1 & Hp1).
  pose proof (build_steps_keeps_images W app proxies
                (record (EvGetRunnerApplication path arch) s)) as Hi1.
  destruct (build_steps W app proxies (record (EvGetRunnerApplication path arch) s))
    as [[[]|e] s1]; simpl in Hh1, Hi1.
  2:{ exists (EvGetRunnerApplication path arch :: d1).
      split; [constructor; [exact I|assumption]|].
      left. subst out. simpl. rewrite Hh1, <- app_assoc. eauto. }
  rewrite upload_handler_run in Hout.
  destruct (upload_steps_run W config app s1 _ eq_refl) as (d2 & Hp2 & Hcases).
  exists (EvGetRunnerApplication path arch :: d1 ++ d2).
  split; [constructor; [exact I|apply Forall_app; auto]|].
  assert (Hpre : forall tail,
    history s1 ++ d2 ++ tail =
    history s ++ (EvGetRunnerApplication path arch :: d1 ++ d2) ++ tail).
  { intros tail. rewrite Hh1. simpl. rewrite <- !app_assoc. reflexivity. }
  subst out. cbn [fst snd].
  destruct Hcases as [[Hh [e He]]|[[Hh [e He]]|[(done & img & Hh & He)|
                     [(done & img & e & Hh & He)|[Hh Hres]]]]]; rewrite He || idtac.
  - left. rewrite Hh. split.
    + rewrite <- (app_nil_r d2), Hpre, !app_nil_r. reflexivity.
    + destruct e as [[]| | | | | |]; eauto.
  - right; left. rewrite Hh, Hpre. split; [reflexivity|].
    destruct e; eauto.
  - right; right; left. exists done, img. rewrite Hh, Hpre. split; reflexivity.
  - right; right; right; left. exists done, img, e. rewrite Hh, Hpre.
    split; [reflexivity|]. destruct e; eauto.
  - right; right; right; right. exists app. split; [reflexivity|].
    rewrite Hh, Hpre, Hi1. split; [reflexivity|].
    destruct Hres as [[e He]|(img & He & Hname & Hfile & Hcount)]; rewrite He.
    + left. destruct e; eauto.
    + right. exists img. auto.
Qed.

Lemma preparation_not_create prep :
  Forall is_preparation prep -> Forall (fun ev => ~ is_create_image ev) prep.
Proof. apply Forall_impl. intros []; simpl; tauto. Qed.

Lemma deletions_not_create done :
  Forall (fun ev => ~ is_create_image ev) (map deletion done).
Proof. apply Forall_forall. intros ev Hin. apply in_map_iff in Hin as (img & <- & _). simpl. tauto. Qed.

Lemma catalog_events_not_create prep done last :
  Forall is_preparation prep -> ~ is_create_image last ->
  Forall (fun ev => ~ is_create_image ev)
    (prep ++ EvSearchImages IMAGE_NAME :: map deletion done ++ [last]).
Proof.
  intros Hprep Hlast. apply Forall_app. split; [apply preparation_not_create, Hprep|].
  constructor; [simpl; tauto|]. apply Forall_app. split; [apply deletions_not_create|].
  constructor; [assumption|constructor].
Qed.

Lemma delete_event_position id fate prep done last :
  Forall is_preparation prep ->
  In (EvDeleteImage id fate)
    (prep ++ EvSearchImages IMAGE_NAME :: map deletion done ++ [last]) ->
  fate = Deleted \/ last = EvDeleteImage id fate.
Proof.
  intros Hprep Hin. apply in_app_iff in Hin as [Hin|[Hin|Hin]].
  - rewrite Forall_forall in Hprep. destruct (Hprep _ Hin).
  - discriminate Hin.
  - apply in_app_iff in Hin as [Hin|[Hin|[]]].
    + apply in_map_iff in Hin as (img & Heq & _). inversion Heq. auto.
    + auto.
Qed.

(** C1.  Whatever the catalog holds and however the cloud answers,
    [build_image] attempts the image creation at most once and as its last
    step, after a successful deletion by id of every image the search for
    [jammy] returned, among them every image of that name; a deletion that
    reports failure (the call returns [False]) ends the build with
    [ImageBuildError("Failed to delete duplicate image on Openstack.")]
    and no creation is attempted; after a successful build the returned
    image is the only one under the canonical name. *)
Theorem build_image_replaces_same_name_images
    (W : world) (arch : string) (config : cloud_config) (path : string)
    (proxies : option ProxyConfig) (s : state) :
  exists delta,
    history (snd (build_image W arch config path proxies s)) = history s ++ delta /\
    (Forall (fun ev => ~ is_create_image ev) delta \/
     exists before file,
       delta = before ++ [EvCreateImage IMAGE_NAME file] /\
       Forall (fun ev => ~ is_create_image ev) before /\
       (forall img, In img (images s) -> image_name img = IMAGE_NAME ->
                    In (EvDeleteImage (image_id img) Deleted) before) /\
       (forall id fate, In (EvDeleteImage id fate) before -> fate = Deleted)) /\
    (forall id, In (EvDeleteImage id NotDeleted) delta ->
       fst (build_image W arch config path proxies s) =
         Raise (ImageBuildError "Failed to delete duplicate image on Openstack." None) /\
       Forall (fun ev => ~ is_create_image ev) delta) /\
    (forall img, fst (build_image W arch config path proxies s) = Ok img ->
       filter canonical (images (snd (build_image W arch config path proxies s))) = [img]).
Proof.
  destruct (build_image_run W arch config path proxies s _ eq_refl)
    as (prep & Hprep & Hcases).
  destruct Hcases as [[Hh [e He]]|[[Hh [e He]]|[(done & img & Hh & He)|
                     [(done & img & e & Hh & [x He])|(app & _ & Hh & Hres)]]]].
  - exists prep. split; [assumption|]. split; [|split].
    + left. apply preparation_not_create, Hprep.
    + intros id Hin. rewrite Forall_forall in Hprep. destruct (Hprep _ Hin).
    + intros img Hok. congruence.
  - exists (prep ++ [EvSearchImages IMAGE_NAME]). split; [assumption|].
    assert (Hnc : Forall (fun ev => ~ is_create_image ev)
                    (prep ++ [EvSearchImages IMAGE_NAME])).
    { apply Forall_app. split; [apply preparation_not_create, Hprep|].
      constructor; [simpl; tauto|constructor]. }
    split; [|split].
    + left. exact Hnc.
    + intros id Hin. apply in_app_iff in Hin as [Hin|[Hin|[]]]; [|discriminate Hin].
      rewrite Forall_forall in Hprep. destruct (Hprep _ Hin).
    + intros img Hok. congruence.
  - eexists. split; [exact Hh|].
    assert (Hnc := catalog_events_not_create prep done
                     (EvDeleteImage (image_id img) NotDeleted) Hprep (fun F => F)).
    split; [|split].
    + left. exact Hnc.
    + intros id Hin. split; [exact He|exact Hnc].
    + intros img' Hok. congruence.
  - eexists. split; [exact Hh|].
    assert (Hnc := catalog_events_not_create prep done
                     (EvDeleteImage (image_id img) (DeleteFault e)) Hprep (fun F => F)).
    split; [|split].
    + left. exact Hnc.
    + intros id Hin.
      destruct (delete_event_position _ _ _ _ _ Hprep Hin) as [Hbad|Hbad]; discriminate Hbad.
    + intros img' Hok. congruence.
  - exists ((prep ++ EvSearchImages IMAGE_NAME ::
               map deletion (filter (matches IMAGE_NAME) (images s))) ++
            [EvCreateImage IMAGE_NAME (image_file_for (architecture app))]).
    split; [rewrite Hh, <- app_assoc; reflexivity|].
    assert (Hbefore : Forall (fun ev => ~ is_create_image ev)
                        (prep ++ EvSearchImages IMAGE_NAME ::
                           map deletion (filter (matches IMAGE_NAME) (images s)))).
    { apply Forall_app. split; [apply preparation_not_create, Hprep|].
      constructor; [simpl; tauto|apply deletions_not_create]. }
    split; [|split].
    + right. eexists. eexists. split; [reflexivity|]. split; [exact Hbefore|]. split.
      * intros img Hin Hname. apply in_app_iff. right. right.
        apply (in_map deletion). apply filter_In. split; [assumption|].
        unfold matches. rewrite Hname, String.eqb_refl. apply orb_true_r.
      * intros id fate Hin. apply in_app_iff in Hin as [Hin|[Hin|Hin]].
        { rewrite Forall_forall in Hprep. destruct (Hprep _ Hin). }
        { discriminate Hin. }
        { apply in_map_iff in Hin as (img & Heq & _). inversion Heq. reflexivity. }
    + intros id Hin. exfalso.
      rewrite <- app_assoc in Hin. simpl in Hin.
      destruct (delete_event_position _ _ _ _ _ Hprep Hin) as [Hbad|Hbad];
        discriminate Hbad.
    + intros img Hok.
      destruct Hres as [[e He]|(img' & He & _ & _ & Hcount)]; congruence.
Qed.

Lemma build_image_replaces_same_name_images_witness :
  filter canonical
    (images (snd (build_image Sample.calm "arm64" Sample.two_clouds "canonical/charm"
                    None Sample.crowded_catalog))) =
    [{| image_id := "09"; image_name := "jammy";
        image_filename := "jammy-server-cloudimg-arm64-compressed.img" |}] /\
  fst (build_image Sample.stubborn "arm64" Sample.two_clouds "canonical/charm" None
         Sample.crowded_catalog) =
    Raise (ImageBuildError "Failed to delete duplicate image on Openstack." None).
Proof.
  split.
  - destruct (build_image_replaces_same_name_images Sample.calm "arm64"
                Sample.two_clouds "canonical/charm" None Sample.crowded_catalog)
      as (delta & _ & _ & _ & Hcount).
    apply Hcount. reflexivity.
  - destruct (build_image_replaces_same_name_images Sample.stubborn "arm64"
                Sample.two_clouds "canonical/charm" None Sample.crowded_catalog)
      as (delta & Hh & _ & Hrefused & _).
    apply (Hrefused "0c2d"). simpl in Hh. rewrite <- Hh. vm_compute. tauto.
Defined.

(** C3.  When the GitHub client resolves the runner application of the
    requested architecture, every image [build_image] creates is named
    [jammy] and is made from the file of that architecture: the amd64 file
    for ["x64"], the arm64 file for any other value.  (The code reads the
    architecture off the resolved runner application.) *)
Theorem image_file_follows_architecture
    (W : world) (arch : string) (config : cloud_config) (path : string)
    (proxies : option ProxyConfig) (s : state) (app : RunnerApplication) :
  get_runner_application W (record (EvGetRunnerApplication path arch) s) path arch =
    inr app ->
  architecture app = arch ->
  (forall n f,
     In (EvCreateImage n f) (history (snd (build_image W arch config path proxies s))) ->
     In (EvCreateImage n f) (history s) \/
     (n = "jammy" /\ f = image_file_for arch)) /\
  (forall img, fst (build_image W arch config path proxies s) = Ok img ->
     image_name img = "jammy" /\
     image_filename img = image_file_for arch /\
     In img (images (snd (build_image W arch config path proxies s)))) /\
  image_file_for "x64" = "jammy-server-cloudimg-amd64-compressed.img" /\
  (forall other, other <> "x64" ->
     image_file_for other = "jammy-server-cloudimg-arm64-compressed.img").
Proof.
  intros Happ Harch.
  destruct (build_image_run W arch config path proxies s _ eq_refl)
    as (prep & Hprep & Hcases).
  assert (Hcreate : forall n f delta,
    Forall (fun ev => ~ is_create_image ev) delta -> ~ In (EvCreateImage n f) delta).
  { intros n f delta Hnc Hin. rewrite Forall_forall in Hnc. apply (Hnc _ Hin). exact I. }
  split; [|split; [|split]].
  - intros n f Hin.
    destruct Hcases as [[Hh _]|[[Hh _]|[(done & img & Hh & _)|
                       [(done & img & e & Hh & _)|(app' & Happ' & Hh & _)]]]];
      rewrite Hh in Hin; apply in_app_iff in Hin as [Hin|Hin]; auto.
    + exfalso. revert Hin. apply Hcreate, preparation_not_create, Hprep.
    + exfalso. revert Hin. apply Hcreate, Forall_app.
      split; [apply preparation_not_create, Hprep|].
      constructor; [simpl; tauto|constructor].
    + exfalso. revert Hin. apply Hcreate, catalog_events_not_create; simpl; tauto.
    + exfalso. revert Hin. apply Hcreate, catalog_events_not_create; simpl; tauto.
    + rewrite Happ in Happ'. inversion Happ'; subst app'. rewrite Harch in Hin.
      apply in_app_iff in Hin as [Hin|[Hin|Hin]].
      * exfalso. revert Hin. apply Hcreate, preparation_not_create, Hprep.
      * discriminate Hin.
      * apply in_app_iff in Hin as [Hin|[Hin|[]]].
        { exfalso. revert Hin. apply Hcreate, deletions_not_create. }
        { inversion Hin; subst. right. split; reflexivity. }
  - intros img Hok.
    destruct Hcases as [[_ [e He]]|[[_ [e He]]|[(done & img' & _ & He)|
                       [(done & img' & e & _ & [x He])|(app' & Happ' & _ & Hres)]]]];
      try congruence.
    rewrite Happ in Happ'. inversion Happ'; subst app'. rewrite Harch in Hres.
    destruct Hres as [[e He]|(img' & He & Hname & Hfile & Hcount)]; [congruence|].
    assert (img' = img) by congruence. subst img'.
    split; [assumption|]. split; [assumption|].
    assert (Hin : In img (filter canonical
                            (images (snd (build_image W arch config path proxies s)))))
      by (rewrite Hcount; left; reflexivity).
    apply filter_In in Hin. tauto.
  - reflexivity.
  - intros other Hother. unfold image_file_for.
    apply String.eqb_neq in Hother. rewrite Hother. reflexivity.
Qed.

Lemma image_file_follows_architecture_witness :
  fst (build_image Sample.calm "x64" Sample.one_cloud "canonical/charm"
         (Some Sample.all_proxies) Sample.empty_catalog) =
    Ok {| image_id := "06"; image_name := "jammy";
          image_filename := "jammy-server-cloudimg-amd64-compressed.img" |} /\
  image_name {| image_id := "06"; image_name := "jammy";
                image_filename := "jammy-server-cloudimg-amd64-compressed.img" |} =
    "jammy" /\
  image_filename {| image_id := "06"; image_name := "jammy";
                    image_filename := "jammy-server-cloudimg-amd64-compressed.img" |} =
    image_file_for "x64".
Proof.
  split; [reflexivity|].
  destruct (image_file_follows_architecture Sample.calm "x64" Sample.one_cloud
              "canonical/charm" (Some Sample.all_proxies) Sample.empty_catalog
              {| architecture := "x64";
                 download_url := "http://x/runner.tgz";
                 filename := "actions-runner-linux.tar.gz" |}
              eq_refl eq_refl) as (_ & Himg & _).
  destruct (Himg {| image_id := "06"; image_name := "jammy";
                    image_filename := "jammy-server-cloudimg-amd64-compressed.img" |}
              eq_refl) as (Hname & Hfile & _).
  split; assumption.
Defined.

Lemma build_image_fetch_failure W arch config path proxies s e :
  get_runner_application W (record (EvGetRunnerApplication path arch) s) path arch =
    inl e ->
  build_image W arch config path proxies s =
    (match e with
     | RunnerBinaryError d =>
         Raise (ImageBuildError "Failed to fetch runner application."
                  (Some (RunnerBinaryError d)))
     | _ => Raise (Foreign e)
     end, record (EvGetRunnerApplication path arch) s).
Proof.
  intros Hfail. rewrite build_image_unfold. unfold bind at 1.
  rewrite fetch_run, Hfail. destruct e; reflexivity.
Qed.

(** C7, as the code has it.  A [RunnerBinaryError] from the GitHub client
    is raised again as [ImageBuildError("Failed to fetch runner
    application.")] with the original error as its cause; any other failure
    of that call goes to the caller as it is; either way the build stops
    there: the only thing the call leaves behind is the request to the
    client. *)
Theorem runner_binary_error_is_wrapped
    (W : world) (arch : string) (config : cloud_config) (path : string)
    (proxies : option ProxyConfig) (s : state) (e : foreign) :
  get_runner_application W (record (EvGetRunnerApplication path arch) s) path arch =
    inl e ->
  snd (build_image W arch config path proxies s) =
    record (EvGetRunnerApplication path arch) s /\
  (forall d, e = RunnerBinaryError d ->
     fst (build_image W arch config path proxies s) =
       Raise (ImageBuildError "Failed to fetch runner application."
                (Some (RunnerBinaryError d)))) /\
  ((forall d, e <> RunnerBinaryError d) ->
     fst (build_image W arch config path proxies s) = Raise (Foreign e)).
Proof.
  intros Hfail. rewrite (build_image_fetch_failure _ _ _ _ _ _ _ Hfail).
  split; [reflexivity|]. split.
  - intros d ->. reflexivity.
  - intros Hother. destruct e as [? ?|?|d|?|?|? ?]; try reflexivity. destruct (Hother d eq_refl).
Qed.

Lemma runner_binary_error_is_wrapped_witness :
  snd (build_image Sample.no_binary "x64" Sample.one_cloud "canonical/charm" None
         Sample.crowded_catalog) =
    record (EvGetRunnerApplication "canonical/charm" "x64") Sample.crowded_catalog /\
  fst (build_image Sample.no_binary "x64" Sample.one_cloud "canonical/charm" None
         Sample.crowded_catalog) =
    Raise (ImageBuildError "Failed to fetch runner application."
             (Some (RunnerBinaryError "Unable query GitHub runner binary information"))).
Proof.
  destruct (runner_binary_error_is_wrapped Sample.no_binary "x64" Sample.one_cloud
              "canonical/charm" None Sample.crowded_catalog
              (RunnerBinaryError "Unable query GitHub runner binary information")
              eq_refl) as (Hstate & Hwrapped & _).
  split; [exact Hstate|]. apply Hwrapped. reflexivity.
Defined.

(** C7 as stated fails: a failure of the GitHub client that is not a
    [RunnerBinaryError] reaches the caller unwrapped. *)
Lemma other_client_failure_is_not_wrapped :
  get_runner_application Sample.token_rejected
    (record (EvGetRunnerApplication "canonical/charm" "x64") Sample.empty_catalog)
    "canonical/charm" "x64" = inl (OtherException "TokenError" "Invalid token.") /\
  fst (build_image Sample.token_rejected "x64" Sample.one_cloud "canonical/charm" None
         Sample.empty_catalog) =
    Raise (Foreign (OtherException "TokenError" "Invalid token.")) /\
  ~ (exists cause,
       fst (build_image Sample.token_rejected "x64" Sample.one_cloud "canonical/charm"
              None Sample.empty_catalog) =
         Raise (ImageBuildError "Failed to fetch runner application." cause)).
Proof.
  split; [reflexivity|]. split; [reflexivity|].
  intros [cause H]. vm_compute in H. discriminate H.
Qed.

(** ** What a computation can raise *)

Section RaisesOnly.

Context {A B : Type} (Q : exn -> Prop).

Lemma raises_only_ret (a : A) : raises_only Q (ret a).
Proof. intros s e H. discriminate H. Qed.

Lemma raises_only_raise (e : exn) : Q e -> raises_only Q (@raise A e).
Proof. intros HQ s e' H. inversion H. subst. assumption. Qed.

Lemma raises_only_ask (f : state -> A) : raises_only Q (ask f).
Proof. intros s e H. discriminate H. Qed.

Lemma raises_only_lift (r : foreign + A) :
  (forall f, Q (Foreign f)) -> raises_only Q (lift r).
Proof.
  intros HQ. destruct r; [apply raises_only_raise, HQ | apply raises_only_ret].
Qed.

Lemma raises_only_bind (m : M A) (k : A -> M B) :
  raises_only Q m -> (forall a, raises_only Q (k a)) -> raises_only Q (bind m k).
Proof.
  intros Hm Hk s e. unfold bind. specialize (Hm s).
  destruct (m s) as [[a|e'] s1]; simpl in *.
  - apply Hk.
  - intros H. inversion H. subst. auto.
Qed.

Lemma raises_only_try_except (m : M A) (h : exn -> option (M A)) (Q' : exn -> Prop) :
  raises_only Q' m ->
  (forall e, Q' e -> match h e with Some h' => raises_only Q h' | None => Q e end) ->
  raises_only Q (try_except m h).
Proof.
  intros Hm Hh s e. unfold try_except. specialize (Hm s).
  destruct (m s) as [[a|e'] s1]; simpl in *; [discriminate|].
  specialize (Hh e' (Hm e' eq_refl)).
  destruct (h e') as [h'|].
  - apply Hh.
  - intros H. inversion H. subst. assumption.
Qed.

End RaisesOnly.

Lemma raises_only_log Q ev : raises_only Q (log ev).
Proof. intros s e H. discriminate H. Qed.

Lemma raises_only_check Q r : (forall f, Q (Foreign f)) -> raises_only Q (check r).
Proof.
  intros HQ. destruct r; [apply raises_only_raise, HQ | apply raises_only_ret].
Qed.

Lemma raises_only_for_each {A} Q (l : list A) (body : A -> M unit) :
  (forall x, raises_only Q (body x)) -> raises_only Q (for_each l body).
Proof.
  intros Hbody. induction l as [|x rest IH]; simpl.
  - apply raises_only_ret.
  - apply raises_only_bind; auto.
Qed.

Lemma raises_only_silent {A} Q (m : M A) :
  (forall s, is_ok (fst (m s)) = true) -> raises_only Q m.
Proof. intros H s e He. specialize (H s). rewrite He in H. discriminate H. Qed.

Lemma raises_only_weaken {A} (P Q : exn -> Prop) (m : M A) :
  (forall e, P e -> Q e) -> raises_only P m -> raises_only Q m.
Proof. intros HPQ Hm s e He. apply HPQ, (Hm s e He). Qed.

(** Goals left: [Q] on what the code raises by itself. *)
Ltac raises_steps :=
  repeat first
    [ apply raises_only_ret | apply raises_only_ask | apply raises_only_log
    | apply raises_only_lift; intros ?
    | apply raises_only_check; intros ?
    | apply raises_only_bind; [|intros ?]
    | apply raises_only_for_each; intros ?
    | apply raises_only_silent; intros ?; reflexivity
    | apply raises_only_raise
    | match goal with
      | |- raises_only _ (match ?x with _ => _ end) => destruct x
      | |- raises_only _ (if ?x then _ else _) => destruct x
      end ].

Lemma render_phase_raises W instance_config proxies mirror candidates :
  raises_only is_foreign (render_phase W instance_config proxies mirror candidates).
Proof.
  unfold render_phase, environment_get_template, template_render, choice, draw.
  raises_steps; exact I.
Qed.

Lemma create_connection_raises W config Q :
  (forall f, Q (Foreign f)) -> (forall k, Q (KeyError k)) -> (forall m, Q (IndexError m)) ->
  raises_only Q (_create_connection W config).
Proof.
  intros Hf Hk Hi. unfold _create_connection, openstack_connect.
  raises_steps; auto.
Qed.

Lemma cloud_phase_raises W config instance_config cloud_userdata Q :
  (forall f, Q (Foreign f)) -> (forall k, Q (KeyError k)) -> (forall m, Q (IndexError m)) ->
  raises_only Q (cloud_phase W config instance_config cloud_userdata).
Proof.
  intros Hf Hk Hi. unfold cloud_phase.
  apply raises_only_bind; [apply create_connection_raises; assumption|].
  intros conn. unfold create_server, add_server. raises_steps; auto.
Qed.

(** ** Instance launch *)

Lemma bind_assoc {A B C} (m : M A) (k : A -> M B) (k' : B -> M C) s :
  bind (bind m k) k' s = bind m (fun a => bind (k a) k') s.
Proof. unfold bind. destruct (m s) as [[a|e] s1]; reflexivity. Qed.

Lemma bind_ext {A B} (m : M A) (k k' : A -> M B) s :
  (forall a t, k a t = k' a t) -> bind m k s = bind m k' s.
Proof. intros H. unfold bind. destruct (m s) as [[a|e] s1]; auto. Qed.

Lemma create_instance_body_phases W config instance_config proxies mirror candidates s :
  create_instance_body W config instance_config proxies mirror candidates s =
    bind (render_phase W instance_config proxies mirror candidates)
      (fun cloud_userdata =>
         try_except (cloud_phase W config instance_config cloud_userdata) launch_handler)
      s.
Proof.
  unfold render_phase. rewrite bind_assoc.
  unfold create_instance_body. apply bind_ext. intros _ t.
  rewrite bind_assoc. apply bind_ext. intros info t1.
  rewrite bind_assoc. apply bind_ext. intros env_contents t2.
  rewrite bind_assoc. reflexivity.
Qed.

Lemma launch_handler_run (m : M Server) s :
  try_except m launch_handler s =
    (match fst (m s) with
     | Raise (Foreign (OpenStackCloudException c d)) =>
         Raise (InstanceLaunchError "Failed to launch instance."
                  (Some (OpenStackCloudException c d)))
     | r => r
     end, snd (m s)).
Proof.
  unfold try_except, launch_handler.
  destruct (m s) as [[srv|[[]| | | | | |]] s1]; reflexivity.
Qed.

(** One call of the function body. *)
Lemma create_instance_body_run W config instance_config proxies mirror candidates s :
  create_instance_body W config instance_config proxies mirror candidates s =
    match render_phase W instance_config proxies mirror candidates s with
    | (Raise e, s1) => (Raise e, s1)
    | (Ok cloud_userdata, s1) =>
        (match fst (cloud_phase W config instance_config cloud_userdata s1) with
         | Raise (Foreign (OpenStackCloudException c d)) =>
             Raise (InstanceLaunchError "Failed to launch instance."
                      (Some (OpenStackCloudException c d)))
         | r => r
         end, snd (cloud_phase W config instance_config cloud_userdata s1))
    end.
Proof.
  rewrite create_instance_body_phases. unfold bind.
  destruct (render_phase W instance_config proxies mirror candidates s) as [[u|e] s1];
    [|reflexivity].
  apply launch_handler_run.
Qed.

(** *** The retry wrapper *)

Section Retry.

Context {A : Type} (operation : M A) (delay max_delay backoff : Z).

#[local] Abbreviation pause := (retry_delay delay max_delay backoff).

Lemma retry_from_success failures :
  forall remaining first s t a t',
    attempt_from operation pause first failures s = Some t ->
    operation t = (Ok a, t') ->
    retry_from (failures + remaining) first delay max_delay backoff operation s =
      (Ok a, t').
Proof.
  induction failures as [|failures IH]; intros remaining first s t a t' Hstart Hrun.
  - simpl in Hstart. inversion Hstart; subst t.
    destruct remaining; simpl; rewrite Hrun; reflexivity.
  - simpl in Hstart. simpl.
    destruct (operation s) as [[a0|e] s1]; [discriminate|].
    apply (IH remaining _ _ t a t' Hstart Hrun).
Qed.

Lemma retry_from_exhausted failures :
  forall first s t e t',
    attempt_from operation pause first failures s = Some t ->
    operation t = (Raise e, t') ->
    retry_from failures first delay max_delay backoff operation s =
      (Raise e, record (EvLoggedFailure e) t').
Proof.
  induction failures as [|failures IH]; intros first s t e t' Hstart Hrun.
  - simpl in Hstart. inversion Hstart; subst t. simpl. rewrite Hrun. reflexivity.
  - simpl in Hstart. simpl.
    destruct (operation s) as [[a0|e0] s1]; [discriminate|].
    apply (IH _ _ t e t' Hstart Hrun).
Qed.

(** The wrapper always ends with the outcome of one attempt: a success
    among the first [remaining + 1] attempts, or the failure of the last. *)
Lemma retry_from_outcome remaining :
  forall first s,
    exists failures t,
      failures <= remaining /\
      attempt_from operation pause first failures s = Some t /\
      ((exists a, operation t =
                    (Ok a, snd (retry_from remaining first delay max_delay backoff
                                  operation s)) /\
                  fst (retry_from remaining first delay max_delay backoff operation s) =
                    Ok a) \/
       (exists e t', failures = remaining /\
                     operation t = (Raise e, t') /\
                     retry_from remaining first delay max_delay backoff operation s =
                       (Raise e, record (EvLoggedFailure e) t'))).
Proof.
  induction remaining as [|remaining IH]; intros first s.
  - exists 0, s. split; [lia|]. split; [reflexivity|].
    simpl. destruct (operation s) as [[a|e] s1].
    + left. exists a. split; reflexivity.
    + right. exists e, s1. repeat split; reflexivity.
  - simpl. destruct (operation s) as [[a|e] s1] eqn:Hrun.
    + exists 0, s. split; [lia|]. split; [reflexivity|].
      left. exists a. rewrite Hrun. split; reflexivity.
    + destruct (IH (S first)
                  (record (EvSleep (retry_delay delay max_delay backoff first))
                     (record (EvLoggedFailure e) s1)))
        as (failures & t & Hle & Hstart & Hout).
      exists (S failures), t. split; [lia|]. split.
      * simpl. rewrite Hrun. exact Hstart.
      * destruct Hout as [Hok|(e' & t' & -> & Hfail & Hres)]; [left; exact Hok|].
        right. exists e', t'. repeat split; assumption.
Qed.

End Retry.

Lemma retry_from_raises {A} (Q : exn -> Prop) (operation : M A) delay max_delay backoff
    remaining first :
  raises_only Q operation ->
  raises_only Q (retry_from remaining first delay max_delay backoff operation).
Proof.
  intros Hop s e He.
  destruct (retry_from_outcome operation delay max_delay backoff remaining first s)
    as (failures & t & _ & _ & [(a & _ & Hok)|(e' & t' & _ & Hfail & Hres)]).
  - congruence.
  - rewrite Hres in He. inversion He; subst e'.
    apply (Hop t). rewrite Hfail. reflexivity.
Qed.

Lemma create_instance_body_raises Q W config instance_config proxies mirror candidates :
  (forall f, Q (Foreign f)) -> (forall k, Q (KeyError k)) -> (forall m, Q (IndexError m)) ->
  (forall m c, Q (InstanceLaunchError m c)) ->
  raises_only Q (create_instance_body W config instance_config proxies mirror candidates).
Proof.
  intros Hf Hk Hi Hl s e He. rewrite create_instance_body_run in He.
  pose proof (render_phase_raises W instance_config proxies mirror candidates s) as Hr.
  destruct (render_phase W instance_config proxies mirror candidates s) as [[u|e0] s1].
  - pose proof (cloud_phase_raises W config instance_config u Q Hf Hk Hi s1) as Hc.
    simpl in He.
    destruct (fst (cloud_phase W config instance_config u s1)) as [srv|x];
      [discriminate|].
    specialize (Hc x eq_refl).
    destruct x as [[]| | | | | |]; inversion He; subst; auto.
  - simpl in He. inversion He; subst e0.
    specialize (Hr e eq_refl). destruct e; simpl in Hr; try contradiction. apply Hf.
Qed.



Lemma create_instance_body_emits P W config instance_config proxies mirror candidates :
  (forall ev, match ev with EvSleep _ | EvLoggedFailure _ => True | _ => P ev end) ->
  emits P (create_instance_body W config instance_config proxies mirror candidates).
Proof.
  intros HP.
  assert (Hrender : forall call, P (EvRender call)) by (intros c; apply (HP (EvRender c))).
  unfold create_instance_body, environment_get_template, template_render, choice,
    create_server, add_server.
  emits_steps; auto.
  - apply emits_create_connection.
    + apply (HP (EvWarning _)).
    + intros c. apply (HP (EvConnect c)).
  - apply (HP (EvCreateServer _ _ _ _)).
Qed.

Lemma sleeps_app a b : sleeps (a ++ b) = sleeps a ++ sleeps b.
Proof. apply flat_map_app. Qed.

Lemma sleeps_quiet d :
  Forall (fun ev => match ev with EvSleep _ => False | _ => True end) d -> sleeps d = [].
Proof.
  induction 1 as [|ev d Hev _ IH]; [reflexivity|].
  unfold sleeps in *. simpl. rewrite IH. destruct ev; try reflexivity. contradiction.
Qed.

Lemma attempt_from_sleeps {A} (operation : M A) (pause : nat -> Z) failures :
  emits (fun ev => match ev with EvSleep _ => False | _ => True end) operation ->
  forall first s t,
    attempt_from operation pause first failures s = Some t ->
    sleeps (history t) = sleeps (history s) ++ map pause (seq first failures).
Proof.
  intros Hquiet. induction failures as [|failures IH]; intros first s t Hstart.
  - simpl in Hstart. inversion Hstart. simpl. rewrite app_nil_r. reflexivity.
  - simpl in Hstart. destruct (Hquiet s) as (d & Hd & Hnone).
    destruct (operation s) as [[a|e] s1]; [discriminate|]. simpl in Hd.
    rewrite (IH _ _ _ Hstart). simpl.
    rewrite !sleeps_app, Hd, sleeps_app, (sleeps_quiet d Hnone). simpl.
    rewrite !app_nil_r, <- app_assoc. reflexivity.
Qed.

Lemma retry_delay_steps (k : nat) :
  1 <= k ->
  (retry_delay 5 60 2 k <= retry_delay 5 60 2 (S k) /\ retry_delay 5 60 2 k <= 60)%Z.
Proof.
  intros Hk. unfold retry_delay.
  replace (Z.of_nat (S k) - 1)%Z with (Z.succ (Z.of_nat k - 1)) by lia.
  rewrite Z.pow_succ_r by lia.
  assert (0 < 2 ^ (Z.of_nat k - 1))%Z by (apply Z.pow_pos_nonneg; lia).
  lia.
Qed.

(** ** Retry around instance creation *)

(** C2.  [create_instance] makes at most five attempts.  When attempt
    [k <= 5] is the first to succeed its result is returned; when five
    attempts fail the error of the fifth is raised as it is, and not
    before; the sleep after failed attempt [k] is [min(5 * 2^(k-1), 60)]
    seconds, that is 5, 10, 20, 40, never decreasing and never above 60. *)
Theorem create_instance_retry_policy
    (W : world) (config : cloud_config) (instance_config : InstanceConfig)
    (proxies : option ProxyConfig) (mirror : option string)
    (candidates : option (list SSHDebugConnection)) (s : state) :
  let body := create_instance_body W config instance_config proxies mirror candidates in
  let pause := fun k : nat => Z.min (5 * 2 ^ (Z.of_nat k - 1)) 60 in
  let out := create_instance W config instance_config proxies mirror candidates s in
  (forall failures t a t',
     failures < 5 ->
     attempt_from body pause 1 failures s = Some t ->
     body t = (Ok a, t') ->
     out = (Ok a, t')) /\
  (forall t e t',
     attempt_from body pause 1 4 s = Some t ->
     body t = (Raise e, t') ->
     out = (Raise e, record (EvLoggedFailure e) t')) /\
  (forall e, fst out = Raise e ->
     exists t t',
       attempt_from body pause 1 4 s = Some t /\
       body t = (Raise e, t') /\
       sleeps (history (snd out)) = sleeps (history s) ++ [5; 10; 20; 40]%Z) /\
  (forall a, fst out = Ok a ->
     exists failures t,
       failures < 5 /\
       attempt_from body pause 1 failures s = Some t /\
       body t = (Ok a, snd out) /\
       sleeps (history (snd out)) =
         sleeps (history s) ++ firstn failures [5; 10; 20; 40]%Z) /\
  (forall k, 1 <= k -> (pause k <= pause (S k) /\ pause k <= 60)%Z).
Proof.
  intros body pause out.
  assert (Hquiet : emits (fun ev => match ev with EvSleep _ => False | _ => True end) body).
  { apply create_instance_body_emits. intros []; exact I. }
  change pause with (retry_delay 5 60 2).
  assert (Hout : out = retry_from 4 1 5 60 2 body s) by reflexivity.
  clearbody out. subst out. clear pause.
  split; [|split; [|split; [|split]]].
  - intros failures t a t' Hlt Hstart Hrun.
    replace 4 with (failures + (4 - failures)) by lia.
    apply (retry_from_success body 5 60 2 failures _ _ _ _ _ _ Hstart Hrun).
  - intros t e t' Hstart Hrun.
    apply (retry_from_exhausted body 5 60 2 4 _ _ _ _ _ Hstart Hrun).
  - intros e He.
    destruct (retry_from_outcome body 5 60 2 4 1 s)
      as (failures & t & _ & Hstart & [(a & _ & Hok)|(e' & t' & -> & Hfail & Hres)]).
    + congruence.
    + rewrite Hres in He |- *. inversion He; subst e'.
      exists t, t'. split; [assumption|]. split; [assumption|].
      destruct (Hquiet t) as (d & Hd & Hnone). rewrite Hfail in Hd. cbn [snd] in Hd.
      cbn [snd record history].
      rewrite sleeps_app, Hd, sleeps_app, (sleeps_quiet d Hnone).
      rewrite (attempt_from_sleeps body _ 4 Hquiet _ _ _ Hstart).
      cbn [sleeps flat_map app]. rewrite !app_nil_r. reflexivity.
  - intros a Ha.
    destruct (retry_from_outcome body 5 60 2 4 1 s)
      as (failures & t & Hle & Hstart & [(a' & Hrun & Hok)|(e' & t' & _ & _ & Hres)]).
    + assert (a' = a) by congruence. subst a'.
      exists failures, t. split; [lia|]. split; [assumption|]. split; [assumption|].
      destruct (Hquiet t) as (d & Hd & Hnone). rewrite Hrun in Hd. cbn [snd] in Hd.
      rewrite Hd, sleeps_app, (sleeps_quiet d Hnone), app_nil_r.
      rewrite (attempt_from_sleeps body _ failures Hquiet _ _ _ Hstart).
      f_equal.
      destruct failures as [|[|[|[|[|]]]]]; try reflexivity. lia.
    + rewrite Hres in Ha. discriminate Ha.
  - apply retry_delay_steps.
Qed.

Lemma create_instance_retry_policy_witness :
  (exists t srv t',
     attempt_from
       (create_instance_body Sample.flaky Sample.one_cloud Sample.sample_config
          None None None)
       (fun k : nat => Z.min (5 * 2 ^ (Z.of_nat k - 1)) 60) 1 3
       Sample.empty_catalog = Some t /\
     create_instance_body Sample.flaky Sample.one_cloud Sample.sample_config
       None None None t = (Ok srv, t') /\
     sleeps (history t) = [5; 10; 20]%Z /\
     create_instance Sample.flaky Sample.one_cloud Sample.sample_config
       None None None Sample.empty_catalog = (Ok srv, t')) /\
  (exists t t',
     attempt_from
       (create_instance_body Sample.no_capacity Sample.one_cloud Sample.sample_config
          None None None)
       (fun k : nat => Z.min (5 * 2 ^ (Z.of_nat k - 1)) 60) 1 4
       Sample.empty_catalog = Some t /\
     create_instance_body Sample.no_capacity Sample.one_cloud Sample.sample_config
       None None None t =
       (Raise (InstanceLaunchError "Failed to launch instance."
                 (Some (OpenStackCloudException "OpenStackCloudTimeout"
                          "Timeout waiting for the server"))), t') /\
     sleeps (history
               (snd (create_instance Sample.no_capacity Sample.one_cloud
                       Sample.sample_config None None None Sample.empty_catalog))) =
       [5; 10; 20; 40]%Z).
Proof.
  split.
  - pose proof (create_instance_retry_policy Sample.flaky Sample.one_cloud
                  Sample.sample_config None None None Sample.empty_catalog)
      as (Hsuccess & _).
    eexists. eexists. eexists.
    split; [vm_compute; reflexivity|].
    split; [vm_compute; reflexivity|].
    split; [vm_compute; reflexivity|].
    eapply (Hsuccess 3); [lia | vm_compute; reflexivity | vm_compute; reflexivity].
  - pose proof (create_instance_retry_policy Sample.no_capacity Sample.one_cloud
                  Sample.sample_config None None None Sample.empty_catalog)
      as (_ & _ & Hraise & _).
    destruct (Hraise (InstanceLaunchError "Failed to launch instance."
                        (Some (OpenStackCloudException "OpenStackCloudTimeout"
                                 "Timeout waiting for the server"))))
      as (t & t' & Hstart & Hrun & Hsleeps); [vm_compute; reflexivity|].
    exists t, t'. split; [exact Hstart|]. split; [exact Hrun|]. exact Hsleeps.
Defined.

(** ** The connection helper and authorization failures *)

Lemma create_connection_first W config first params rest s :
  dict_get "clouds" config = Some ((first, params) :: rest) ->
  _create_connection W config s =
    (match connect W
             (record (EvConnect first)
                (match rest with
                 | [] => s
                 | _ :: _ =>
                     record (EvWarning
                               "Multiple clouds defined in clouds.yaml. Using the first one to connect.")
                       s
                 end)) first with
     | Some e => Raise (Foreign e)
     | None => Ok first
     end,
     record (EvConnect first)
       (match rest with
        | [] => s
        | _ :: _ =>
            record (EvWarning
                      "Multiple clouds defined in clouds.yaml. Using the first one to connect.")
              s
        end)).
Proof.
  intros Hclouds. unfold _create_connection. rewrite Hclouds.
  unfold dict_keys, openstack_connect, bind, log, ask, check.
  destruct rest as [|second rest]; simpl;
    match goal with |- context [connect W ?t first] => destruct (connect W t first) end;
    reflexivity.
Qed.

Lemma build_image_raises W arch config path proxies :
  raises_only not_unauthorized_error (build_image W arch config path proxies).
Proof.
  rewrite build_image_unfold.
  apply raises_only_bind.
  - apply (raises_only_try_except _ _ _ is_foreign).
    + unfold github_get_runner_application. raises_steps; exact I.
    + intros [[]| | | | | |]; simpl; try tauto. intros _.
      apply raises_only_raise. exact I.
  - intros app. apply raises_only_bind.
    + unfold build_steps.
      apply (raises_only_try_except _ _ _ is_foreign).
      * unfold _build_image_command, environment_get_template, template_render,
          run_command.
        raises_steps; exact I.
      * intros [[]| | | | | |]; simpl; try tauto. intros _.
        apply raises_only_raise. exact I.
    + intros _.
      apply (raises_only_try_except _ _ _ not_unauthorized_error).
      * unfold upload_steps.
        apply raises_only_bind;
          [apply create_connection_raises; intros; exact I|intros conn].
        unfold search_images, delete_duplicates, delete_image, remove_images,
          create_image, add_image.
        raises_steps; exact I.
      * intros [[]| | | | | |]; simpl; try tauto. intros _.
        apply raises_only_raise. exact I.
Qed.

Lemma create_instance_raises W config instance_config proxies mirror candidates :
  raises_only not_unauthorized_error
    (create_instance W config instance_config proxies mirror candidates).
Proof.
  unfold create_instance, retry. apply retry_from_raises.
  apply create_instance_body_raises; intros; exact I.
Qed.

(** C5 as stated fails: with credentials that Keystone rejects,
    [create_instance] tries the connection five times and then raises the
    SDK's own [Unauthorized], and [build_image] raises it too; neither
    raises [OpenStackUnauthorizedError]. *)
Lemma unauthorized_is_retried_and_not_translated :
  fst (create_instance Sample.bad_credentials Sample.one_cloud Sample.sample_config
         None None None Sample.empty_catalog) = Raise (Foreign (Unauthorized "401")) /\
  count_connects
    (history (snd (create_instance Sample.bad_credentials Sample.one_cloud
                     Sample.sample_config None None None Sample.empty_catalog))) = 5 /\
  sleeps
    (history (snd (create_instance Sample.bad_credentials Sample.one_cloud
                     Sample.sample_config None None None Sample.empty_catalog))) =
    [5; 10; 20; 40]%Z /\
  fst (build_image Sample.bad_credentials "x64" Sample.one_cloud "canonical/charm" None
         Sample.empty_catalog) = Raise (Foreign (Unauthorized "401")) /\
  ~ (exists msg cause,
       fst (create_instance Sample.bad_credentials Sample.one_cloud Sample.sample_config
              None None None Sample.empty_catalog) =
         Raise (OpenStackUnauthorizedError msg cause) /\
       count_connects
         (history (snd (create_instance Sample.bad_credentials Sample.one_cloud
                          Sample.sample_config None None None Sample.empty_catalog))) = 1).
Proof.
  split; [vm_compute; reflexivity|].
  split; [vm_compute; reflexivity|].
  split; [vm_compute; reflexivity|].
  split; [vm_compute; reflexivity|].
  intros (msg & cause & H & _). vm_compute in H. discriminate H.
Qed.

(** * Further properties of the module *)

(** ** The connection helper on malformed configurations *)

Lemma create_connection_cases W config s :
  match dict_get "clouds" config with
  | None => _create_connection W config s = (Raise (KeyError "clouds"), s)
  | Some [] =>
      _create_connection W config s = (Raise (IndexError "list index out of range"), s)
  | Some ((first, _) :: _) =>
      exists t, snd (_create_connection W config s) = t /\
                (fst (_create_connection W config s) = Ok first \/
                 exists f, fst (_create_connection W config s) = Raise (Foreign f))
  end.
Proof.
  destruct (dict_get "clouds" config) as [[|[first params] rest]|] eqn:Hclouds.
  - unfold _create_connection. rewrite Hclouds. reflexivity.
  - rewrite (create_connection_first _ _ _ _ _ _ Hclouds).
    eexists. split; [reflexivity|]. cbn [fst].
    match goal with |- context [connect W ?t first] => destruct (connect W t first) end;
      eauto.
  - unfold _create_connection. rewrite Hclouds. reflexivity.
Qed.

(** X1.  [_create_connection] raises [KeyError] exactly when the
    configuration has no ["clouds"] entry and [IndexError] exactly when
    that entry lists no profile; in both cases nothing has happened: no
    warning, no connection attempt. *)
Theorem create_connection_malformed_config
    (W : world) (config : cloud_config) (s : state) :
  (forall key,
     fst (_create_connection W config s) = Raise (KeyError key) <->
     key = "clouds" /\ dict_get "clouds" config = None) /\
  (forall msg,
     fst (_create_connection W config s) = Raise (IndexError msg) <->
     msg = "list index out of range" /\ dict_get "clouds" config = Some []) /\
  (dict_get "clouds" config = None \/ dict_get "clouds" config = Some [] ->
   snd (_create_connection W config s) = s).
Proof.
  pose proof (create_connection_cases W config s) as Hcases.
  destruct (dict_get "clouds" config) as [[|[first params] rest]|].
  - rewrite Hcases. cbn [fst snd]. split; [|split].
    + intros key. split; [discriminate|]. intros [_ H]. discriminate H.
    + intros msg. split.
      * intros H. inversion H. auto.
      * intros [-> _]. reflexivity.
    + reflexivity.
  - destruct Hcases as (t & _ & Hres). split; [|split].
    + intros key. split.
      * intros H. destruct Hres as [Hok|[f Hf]]; congruence.
      * intros [_ H]. discriminate H.
    + intros msg. split.
      * intros H. destruct Hres as [Hok|[f Hf]]; congruence.
      * intros [_ H]. discriminate H.
    + intros [H|H]; discriminate H.
  - rewrite Hcases. cbn [fst snd]. split; [|split].
    + intros key. split.
      * intros H. inversion H. auto.
      * intros [-> _]. reflexivity.
    + intros msg. split; [discriminate|]. intros [_ H]. discriminate H.
    + reflexivity.
Qed.

Lemma create_connection_malformed_config_witness :
  fst (_create_connection Sample.calm Cases.no_clouds_key Sample.crowded_catalog) =
    Raise (KeyError "clouds") /\
  fst (_create_connection Sample.calm Cases.no_profile Sample.crowded_catalog) =
    Raise (IndexError "list index out of range") /\
  snd (_create_connection Sample.calm Cases.no_profile Sample.crowded_catalog) =
    Sample.crowded_catalog.
Proof.
  split; [|split].
  - apply (proj1 (create_connection_malformed_config Sample.calm Cases.no_clouds_key
                    Sample.crowded_catalog)).
    split; reflexivity.
  - apply (proj1 (proj2 (create_connection_malformed_config Sample.calm
                           Cases.no_profile Sample.crowded_catalog))).
    split; reflexivity.
  - apply (proj2 (proj2 (create_connection_malformed_config Sample.calm
                           Cases.no_profile Sample.crowded_catalog))).
    right. reflexivity.
Defined.

(** ** [list_projects] *)

Lemma list_projects_run W config s :
  list_projects W config s =
    match _create_connection W config s with
    | (Raise e, s1) => (Raise e, s1)
    | (Ok _, s1) =>
        match conn_list_projects W (record EvListProjects s1) with
        | inl (Unauthorized d) =>
            (Raise (OpenStackUnauthorizedError "Unauthorized to connect to OpenStack."
                      (Some (Unauthorized d))),
             record EvListProjects s1)
        | inl f => (Raise (Foreign f), record EvListProjects s1)
        | inr projects =>
            (Ok projects,
             record (EvDebug "Projects: %s")
               (record (EvDebug "OpenStack connection successful.")
                  (record EvListProjects s1)))
        end
    end.
Proof.
  unfold list_projects. unfold bind at 1.
  destruct (_create_connection W config s) as [[conn|e] s1]; [|reflexivity].
  unfold try_except, bind, log, ask, lift.
  destruct (conn_list_projects W (record EvListProjects s1)) as [[]|projects];
    reflexivity.
Qed.

(** X2.  [list_projects] raises [OpenStackUnauthorizedError] exactly when
    the connection opened and the project listing raised [Unauthorized],
    which becomes the cause.  A failure while opening the connection, an
    authorization failure included, is outside the [try] block and leaves
    as it is; so does any other failure of the listing; a successful
    listing is returned unchanged. *)
Theorem list_projects_unauthorized
    (W : world) (config : cloud_config) (s : state) :
  (forall msg cause,
     fst (list_projects W config s) = Raise (OpenStackUnauthorizedError msg cause) <->
     msg = "Unauthorized to connect to OpenStack." /\
     exists d conn s1,
       cause = Some (Unauthorized d) /\
       _create_connection W config s = (Ok conn, s1) /\
       conn_list_projects W (record EvListProjects s1) = inl (Unauthorized d)) /\
  (forall e s1,
     _create_connection W config s = (Raise e, s1) ->
     list_projects W config s = (Raise e, s1)) /\
  (forall conn s1 f,
     _create_connection W config s = (Ok conn, s1) ->
     conn_list_projects W (record EvListProjects s1) = inl f ->
     (forall d, f <> Unauthorized d) ->
     list_projects W config s = (Raise (Foreign f), record EvListProjects s1)) /\
  (forall conn s1 projects,
     _create_connection W config s = (Ok conn, s1) ->
     conn_list_projects W (record EvListProjects s1) = inr projects ->
     fst (list_projects W config s) = Ok projects).
Proof.
  rewrite list_projects_run.
  pose proof (create_connection_raises W config not_unauthorized_error
                (fun _ => I) (fun _ => I) (fun _ => I) s) as Hconn.
  destruct (_create_connection W config s) as [[conn|e] s1]; cbn [fst] in Hconn.
  - split; [|split; [|split]].
    + intros msg cause. split.
      * intros H.
        destruct (conn_list_projects W (record EvListProjects s1)) as [[]|projects] eqn:Hl;
          inversion H; subst.
        split; [reflexivity|]. eauto 8.
      * intros (-> & d & conn' & s1' & -> & Heq & Hl). inversion Heq; subst.
        rewrite Hl. reflexivity.
    + intros e s1' H. discriminate H.
    + intros conn' s1' f Heq Hl Hother. inversion Heq; subst. rewrite Hl.
      destruct f; try reflexivity. destruct (Hother detail eq_refl).
    + intros conn' s1' projects Heq Hl. inversion Heq; subst. rewrite Hl. reflexivity.
  - split; [|split; [|split]].
    + intros msg cause. split.
      * intros H. inversion H; subst. destruct (Hconn _ eq_refl).
      * intros (_ & d & conn' & s1' & _ & Heq & _). discriminate Heq.
    + intros e' s1' H. inversion H; subst. reflexivity.
    + intros conn' s1' f Heq. discriminate Heq.
    + intros conn' s1' projects Heq. discriminate Heq.
Qed.

Lemma list_projects_unauthorized_witness :
  list_projects Sample.bad_credentials Sample.one_cloud Sample.empty_catalog =
    (Raise (Foreign (Unauthorized "401")),
     record (EvConnect "prod") Sample.empty_catalog) /\
  fst (list_projects Sample.calm Sample.one_cloud Sample.empty_catalog) = Ok ["demo"].
Proof.
  split.
  - apply (proj1 (proj2 (list_projects_unauthorized Sample.bad_credentials
                           Sample.one_cloud Sample.empty_catalog))).
    reflexivity.
  - apply (proj2 (proj2 (proj2 (list_projects_unauthorized Sample.calm
                                  Sample.one_cloud Sample.empty_catalog)))
             "prod" (record (EvConnect "prod") Sample.empty_catalog));
      reflexivity.
Defined.

(** ** The phases of [build_image] *)

Lemma build_steps_run W app proxies s :
  build_steps W app proxies s =
    match get_template W "systemd-docker-proxy.j2" with
    | Some e => (Raise (build_error e), s)
    | None =>
        match render W (SystemdDockerProxy proxies) with
        | inl e =>
            (Raise (build_error e), record (EvRender (SystemdDockerProxy proxies)) s)
        | inr conf =>
            (match execute_command W
                     (record (EvExecute (build_command app proxies conf))
                        (record (EvRender (SystemdDockerProxy proxies)) s))
                     (build_command app proxies conf) with
             | Some e => Raise (build_error e)
             | None => Ok tt
             end,
             record (EvExecute (build_command app proxies conf))
               (record (EvRender (SystemdDockerProxy proxies)) s))
        end
    end.
Proof.
  unfold build_steps, try_except. unfold bind at 1.
  rewrite build_image_command_run.
  destruct (get_template W "systemd-docker-proxy.j2") as [e|].
  { destruct e; reflexivity. }
  destruct (render W (SystemdDockerProxy proxies)) as [e|conf].
  { destruct e; reflexivity. }
  unfold run_command, bind, log, ask, check. fold (build_command app proxies conf).
  destruct (execute_command W _ (build_command app proxies conf)) as [e|];
    [destruct e|]; reflexivity.
Qed.

Lemma upload_steps_emits W config app : emits is_upload_event (upload_steps W config app).
Proof.
  unfold upload_steps. apply emits_bind.
  - apply emits_create_connection; [exact I|intros; exact I].
  - intros conn.
    unfold search_images, delete_duplicates, delete_image, remove_images,
      create_image, add_image.
    emits_steps; exact I.
Qed.

(** A step-by-step reading of [build_image] once the runner application is
    resolved. *)
Lemma build_image_after_fetch W arch config path proxies s app :
  get_runner_application W (record (EvGetRunnerApplication path arch) s) path arch =
    inr app ->
  build_image W arch config path proxies s =
    match build_steps W app proxies (record (EvGetRunnerApplication path arch) s) with
    | (Raise e, s2) => (Raise e, s2)
    | (Ok _, s2) =>
        (match fst (upload_steps W config app s2) with
         | Raise (Foreign (OpenStackCloudException c d)) =>
             Raise (ImageBuildError "Failed to upload image."
                      (Some (OpenStackCloudException c d)))
         | r => r
         end, snd (upload_steps W config app s2))
    end.
Proof.
  intros Happ. rewrite build_image_unfold. unfold bind at 1.
  rewrite fetch_run, Happ. unfold bind at 1.
  destruct (build_steps W app proxies (record (EvGetRunnerApplication path arch) s))
    as [[[]|e] s2]; [|reflexivity].
  apply upload_handler_run.
Qed.

(** X3.  The order of the external calls of [build_image]: first the
    request for the runner application, then at most one render of the
    proxy-service template and at most one run of the build command, then
    the cloud calls; and the cloud is not touched unless the build command
    was run. *)
Theorem build_image_call_order
    (W : world) (arch : string) (config : cloud_config) (path : string)
    (proxies : option ProxyConfig) (s : state) :
  exists build upload,
    history (snd (build_image W arch config path proxies s)) =
      history s ++ EvGetRunnerApplication path arch :: build ++ upload /\
    (build = [] \/
     build = [EvRender (SystemdDockerProxy proxies)] \/
     exists cmd, build = [EvRender (SystemdDockerProxy proxies); EvExecute cmd]) /\
    Forall is_upload_event upload /\
    (upload <> [] ->
     exists cmd, build = [EvRender (SystemdDockerProxy proxies); EvExecute cmd]).
Proof.
  destruct (get_runner_application W (record (EvGetRunnerApplication path arch) s)
              path arch) as [e|app] eqn:Happ.
  { rewrite (build_image_fetch_failure _ _ _ _ _ _ _ Happ).
    exists [], []. cbn [snd record history]. repeat split; auto.
    intros H. destruct (H eq_refl). }
  rewrite (build_image_after_fetch _ _ _ _ _ _ _ Happ), build_steps_run.
  destruct (get_template W "systemd-docker-proxy.j2") as [e|].
  { exists [], []. cbn [snd record history]. repeat split; auto.
    intros H. destruct (H eq_refl). }
  destruct (render W (SystemdDockerProxy proxies)) as [e|conf].
  { exists [EvRender (SystemdDockerProxy proxies)], [].
    cbn [snd record history]. rewrite <- app_assoc. repeat split; auto.
    intros H. destruct (H eq_refl). }
  match goal with
  | |- context [execute_command W ?t ?c] => destruct (execute_command W t c) as [e|]
  end.
  { exists [EvRender (SystemdDockerProxy proxies);
            EvExecute (build_command app proxies conf)], [].
    cbn [snd record history]. rewrite <- !app_assoc. repeat split; eauto. }
  match goal with
  | |- context [upload_steps W config app ?t] =>
      destruct (upload_steps_emits W config app t) as (upload & Hh & Hupload)
  end.
  exists [EvRender (SystemdDockerProxy proxies);
          EvExecute (build_command app proxies conf)], upload.
  cbn [snd]. rewrite Hh. cbn [record history]. rewrite <- !app_assoc.
  repeat split; eauto.
Qed.

(** X4.  When the build command ends with a [SubprocessError],
    [build_image] raises [ImageBuildError("Failed to build image.")] with
    that error as its cause, and stops: the state is the one the command
    left, no connection is opened and the catalog is as it was.  Any other
    failure of the command leaves [build_image] as it was raised. *)
Theorem build_failure_is_wrapped
    (W : world) (arch : string) (config : cloud_config) (path : string)
    (proxies : option ProxyConfig) (s : state) (app : RunnerApplication)
    (conf : string) (e : foreign) :
  get_runner_application W (record (EvGetRunnerApplication path arch) s) path arch =
    inr app ->
  get_template W "systemd-docker-proxy.j2" = None ->
  render W (SystemdDockerProxy proxies) = inr conf ->
  execute_command W
    (record (EvExecute (build_command app proxies conf))
       (record (EvRender (SystemdDockerProxy proxies))
          (record (EvGetRunnerApplication path arch) s)))
    (build_command app proxies conf) = Some e ->
  snd (build_image W arch config path proxies s) =
    record (EvExecute (build_command app proxies conf))
      (record (EvRender (SystemdDockerProxy proxies))
         (record (EvGetRunnerApplication path arch) s)) /\
  images (snd (build_image W arch config path proxies s)) = images s /\
  (forall d, e = SubprocessError d ->
     fst (build_image W arch config path proxies s) =
       Raise (ImageBuildError "Failed to build image." (Some (SubprocessError d)))) /\
  ((forall d, e <> SubprocessError d) ->
     fst (build_image W arch config path proxies s) = Raise (Foreign e)).
Proof.
  intros Happ Htemplate Hrender Hexec.
  rewrite (build_image_after_fetch _ _ _ _ _ _ _ Happ), build_steps_run,
    Htemplate, Hrender, Hexec.
  split; [reflexivity|]. split; [reflexivity|]. split.
  - intros d ->. reflexivity.
  - intros Hother. destruct e as [? ?|?|?|d|?|? ?]; try reflexivity.
    destruct (Hother d eq_refl).
Qed.

Lemma build_failure_is_wrapped_witness :
  fst (build_image Cases.build_fails "x64" Sample.one_cloud "canonical/charm" None
         Sample.crowded_catalog) =
    Raise (ImageBuildError "Failed to build image."
             (Some (SubprocessError "exit status 1"))) /\
  images (snd (build_image Cases.build_fails "x64" Sample.one_cloud "canonical/charm"
                 None Sample.crowded_catalog)) = images Sample.crowded_catalog.
Proof.
  destruct (build_failure_is_wrapped Cases.build_fails "x64" Sample.one_cloud
              "canonical/charm" None Sample.crowded_catalog
              {| architecture := "x64"; download_url := "http://x/runner.tgz";
                 filename := "actions-runner-linux.tar.gz" |}
              "[Service]" (SubprocessError "exit status 1")
              eq_refl eq_refl eq_refl eq_refl) as (_ & Himages & Hwrapped & _).
  split; [apply Hwrapped; reflexivity|exact Himages].
Defined.

(** X5.  The cloud configuration is read only after the build: on a
    configuration without the ["clouds"] key, or with no profile under it,
    [build_image] still resolves the runner application and runs the build
    command, and then lets the [KeyError], or [IndexError], out unwrapped,
    having made no cloud call. *)
Theorem build_image_reads_config_after_build
    (W : world) (arch : string) (config : cloud_config) (path : string)
    (proxies : option ProxyConfig) (s : state) (app : RunnerApplication)
    (conf : string) :
  get_runner_application W (record (EvGetRunnerApplication path arch) s) path arch =
    inr app ->
  get_template W "systemd-docker-proxy.j2" = None ->
  render W (SystemdDockerProxy proxies) = inr conf ->
  execute_command W
    (record (EvExecute (build_command app proxies conf))
       (record (EvRender (SystemdDockerProxy proxies))
          (record (EvGetRunnerApplication path arch) s)))
    (build_command app proxies conf) = None ->
  (dict_get "clouds" config = None ->
   build_image W arch config path proxies s =
     (Raise (KeyError "clouds"),
      record (EvExecute (build_command app proxies conf))
        (record (EvRender (SystemdDockerProxy proxies))
           (record (EvGetRunnerApplication path arch) s)))) /\
  (dict_get "clouds" config = Some [] ->
   build_image W arch config path proxies s =
     (Raise (IndexError "list index out of range"),
      record (EvExecute (build_command app proxies conf))
        (record (EvRender (SystemdDockerProxy proxies))
           (record (EvGetRunnerApplication path arch) s)))).
Proof.
  intros Happ Htemplate Hrender Hexec.
  rewrite (build_image_after_fetch _ _ _ _ _ _ _ Happ), build_steps_run,
    Htemplate, Hrender, Hexec.
  set (t := record (EvExecute (build_command app proxies conf))
              (record (EvRender (SystemdDockerProxy proxies))
                 (record (EvGetRunnerApplication path arch) s))).
  assert (Hup : forall e, _create_connection W config t = (Raise e, t) ->
                          upload_steps W config app t = (Raise e, t)).
  { intros e He. unfold upload_steps. unfold bind at 1. rewrite He. reflexivity. }
  pose proof (create_connection_cases W config t) as Hcase.
  split; intros Hclouds; rewrite Hclouds in Hcase; rewrite (Hup _ Hcase); reflexivity.
Qed.

Lemma build_image_reads_config_after_build_witness :
  build_image Sample.calm "x64" Cases.no_clouds_key "canonical/charm" None
    Sample.empty_catalog =
    (Raise (KeyError "clouds"),
     record (EvExecute (build_command
                          {| architecture := "x64";
                             download_url := "http://x/runner.tgz";
                             filename := "actions-runner-linux.tar.gz" |}
                          None "[Service]"))
       (record (EvRender (SystemdDockerProxy None))
          (record (EvGetRunnerApplication "canonical/charm" "x64")
             Sample.empty_catalog))).
Proof.
  apply (proj1 (build_image_reads_config_after_build Sample.calm "x64"
                  Cases.no_clouds_key "canonical/charm" None Sample.empty_catalog
                  {| architecture := "x64"; download_url := "http://x/runner.tgz";
                     filename := "actions-runner-linux.tar.gz" |}
                  "[Service]" eq_refl eq_refl eq_refl eq_refl)).
  reflexivity.
Defined.

Lemma build_image_call_order_witness :
  exists build upload,
    history (snd (build_image Cases.build_fails "x64" Sample.one_cloud
                    "canonical/charm" None Sample.empty_catalog)) =
      history Sample.empty_catalog ++
      EvGetRunnerApplication "canonical/charm" "x64" :: build ++ upload /\
    (build = [] \/
     build = [EvRender (SystemdDockerProxy None)] \/
     exists cmd, build = [EvRender (SystemdDockerProxy None); EvExecute cmd]) /\
    Forall is_upload_event upload /\
    (upload <> [] ->
     exists cmd, build = [EvRender (SystemdDockerProxy None); EvExecute cmd]).
Proof.
  exact (build_image_call_order Cases.build_fails "x64" Sample.one_cloud
           "canonical/charm" None Sample.empty_catalog).
Defined.

(** ** Failures of [build_image] *)

Lemma upload_steps_raises W config app :
  raises_only upload_failure (upload_steps W config app).
Proof.
  unfold upload_steps. apply raises_only_bind.
  - apply create_connection_raises; intros; exact I.
  - intros conn.
    unfold search_images, delete_duplicates, delete_image, remove_images,
      create_image, add_image.
    raises_steps; try exact I. split; reflexivity.
Qed.

Lemma build_error_failure e : build_image_failure (build_error e).
Proof.
  destruct e; simpl; try exact I. right; left. split; [reflexivity|eauto].
Qed.

(** X6.  [build_image] raises [ImageBuildError("Failed to upload image.")]
    exactly when the runner application was resolved, the build went
    through, and a step of the upload phase (connection, search, deletion,
    creation) raised an [OpenStackCloudException], which becomes the
    cause. *)
Theorem upload_failure_is_wrapped
    (W : world) (arch : string) (config : cloud_config) (path : string)
    (proxies : option ProxyConfig) (s : state) (cause : option foreign) :
  fst (build_image W arch config path proxies s) =
    Raise (ImageBuildError "Failed to upload image." cause) <->
  exists c d app s2,
    cause = Some (OpenStackCloudException c d) /\
    get_runner_application W (record (EvGetRunnerApplication path arch) s) path arch =
      inr app /\
    build_steps W app proxies (record (EvGetRunnerApplication path arch) s) =
      (Ok tt, s2) /\
    fst (upload_steps W config app s2) = Raise (Foreign (OpenStackCloudException c d)).
Proof.
  destruct (get_runner_application W (record (EvGetRunnerApplication path arch) s)
              path arch) as [e|app] eqn:Happ.
  { rewrite (build_image_fetch_failure _ _ _ _ _ _ _ Happ). split.
    - intros H. destruct e; discriminate H.
    - intros (c & d & app & s2 & _ & H & _). discriminate H. }
  rewrite (build_image_after_fetch _ _ _ _ _ _ _ Happ).
  pose proof (build_steps_run W app proxies
                (record (EvGetRunnerApplication path arch) s)) as Hbuild.
  destruct (build_steps W app proxies (record (EvGetRunnerApplication path arch) s))
    as [[[]|e] s2] eqn:Hb.
  - pose proof (upload_steps_raises W config app s2) as Hup. cbn [fst]. split.
    + intros H.
      destruct (fst (upload_steps W config app s2)) as [img|x] eqn:Hx;
        [discriminate|].
      specialize (Hup x eq_refl).
      destruct x as [[c d| | | | |]| | | | | |]; inversion H; subst.
      * exists c, d, app, s2. repeat split; try reflexivity; assumption.
      * destruct Hup as [Hmsg _]. discriminate Hmsg.
    + intros (c & d & app' & s2' & -> & Heq & Hrun & Hraise).
      inversion Heq; subst app'. rewrite Hb in Hrun. inversion Hrun; subst s2'.
      rewrite Hraise. reflexivity.
  - cbn [fst]. split.
    + intros H. inversion H; subst e.
      destruct (get_template W "systemd-docker-proxy.j2") as [f|].
      { inversion Hbuild as [[Hf Hs]]. destruct f; discriminate Hf. }
      destruct (render W (SystemdDockerProxy proxies)) as [f|conf].
      { inversion Hbuild as [[Hf Hs]]. destruct f; discriminate Hf. }
      match type of Hbuild with
      | context [execute_command W ?t ?c] => destruct (execute_command W t c) as [f|]
      end; inversion Hbuild as [[Hf Hs]]. destruct f; discriminate Hf.
    + intros (c & d & app' & s2' & _ & Heq & Hrun & _).
      inversion Heq; subst app'. rewrite Hb in Hrun. discriminate Hrun.
Qed.

Lemma upload_failure_is_wrapped_witness :
  fst (build_image Cases.upload_refused "x64" Sample.one_cloud "canonical/charm" None
         Sample.crowded_catalog) =
    Raise (ImageBuildError "Failed to upload image."
             (Some (OpenStackCloudException "ConflictException" "409"))).
Proof.
  apply (proj2 (upload_failure_is_wrapped Cases.upload_refused "x64" Sample.one_cloud
                  "canonical/charm" None Sample.crowded_catalog
                  (Some (OpenStackCloudException "ConflictException" "409")))).
  do 4 eexists. split; [reflexivity|]. split; [reflexivity|].
  split; vm_compute; reflexivity.
Defined.

(** X7.  Whatever [build_image] raises is an [ImageBuildError] with one of
    four messages, each with the cause of its phase (a [RunnerBinaryError],
    a [SubprocessError], none for a refused deletion, an
    [OpenStackCloudException]), or an exception it did not catch: one of a
    collaborator, or the [KeyError] or [IndexError] of a malformed
    configuration.  It raises no [InstanceLaunchError], no
    [OpenStackUnauthorizedError] and no [ValueError]. *)
Theorem build_image_failures
    (W : world) (arch : string) (config : cloud_config) (path : string)
    (proxies : option ProxyConfig) (s : state) (e : exn) :
  fst (build_image W arch config path proxies s) = Raise e ->
  build_image_failure e.
Proof.
  destruct (get_runner_application W (record (EvGetRunnerApplication path arch) s)
              path arch) as [f|app] eqn:Happ.
  { rewrite (build_image_fetch_failure _ _ _ _ _ _ _ Happ). intros H.
    destruct f; inversion H; subst; simpl; try exact I.
    left. split; [reflexivity|eauto]. }
  rewrite (build_image_after_fetch _ _ _ _ _ _ _ Happ).
  pose proof (build_steps_run W app proxies
                (record (EvGetRunnerApplication path arch) s)) as Hbuild.
  destruct (build_steps W app proxies (record (EvGetRunnerApplication path arch) s))
    as [[[]|x] s2].
  - pose proof (upload_steps_raises W config app s2) as Hup. cbn [fst]. intros H.
    destruct (fst (upload_steps W config app s2)) as [img|y]; [discriminate|].
    specialize (Hup y eq_refl).
    destruct y as [[c d| | | | |]| | | | | |]; inversion H; subst; simpl in *;
      try exact I; try contradiction.
    + right; right; right. split; [reflexivity|eauto].
    + right; right; left. exact Hup.
  - cbn [fst]. intros H. inversion H; subst x.
    destruct (get_template W "systemd-docker-proxy.j2") as [f|].
    { inversion Hbuild. apply build_error_failure. }
    destruct (render W (SystemdDockerProxy proxies)) as [f|conf].
    { inversion Hbuild. apply build_error_failure. }
    match type of Hbuild with
    | context [execute_command W ?t ?c] => destruct (execute_command W t c) as [f|]
    end; inversion Hbuild. apply build_error_failure.
Qed.

Lemma build_image_failures_witness :
  build_image_failure
    (ImageBuildError "Failed to delete duplicate image on Openstack." None).
Proof.
  apply (build_image_failures Sample.stubborn "arm64" Sample.two_clouds
           "canonical/charm" None Sample.crowded_catalog).
  reflexivity.
Defined.

(** ** Building twice *)

(** X8.  Two successful builds in a row: the second one deletes the image
    the first one created, and the image it returns is then the only one
    under the canonical name. *)
Theorem second_build_replaces_first
    (W : world) (arch arch' : string) (config config' : cloud_config)
    (path path' : string) (proxies proxies' : option ProxyConfig) (s : state)
    (first second : Image) :
  fst (build_image W arch config path proxies s) = Ok first ->
  fst (build_image W arch' config' path' proxies'
         (snd (build_image W arch config path proxies s))) = Ok second ->
  In (EvDeleteImage (image_id first) Deleted)
    (history (snd (build_image W arch' config' path' proxies'
                     (snd (build_image W arch config path proxies s))))) /\
  filter canonical
    (images (snd (build_image W arch' config' path' proxies'
                    (snd (build_image W arch config path proxies s))))) = [second].
Proof.
  intros Hfirst Hsecond.
  destruct (build_image_run W arch config path proxies s _ eq_refl)
    as (prep & _ & Hcases).
  assert (Hin : In first (images (snd (build_image W arch config path proxies s))) /\
                canonical first = true).
  { destruct Hcases as [[_ [e He]]|[[_ [e He]]|[(done & img & _ & He)|
                       [(done & img & e & _ & [x He])|(app & _ & _ & Hres)]]]];
      try congruence.
    destruct Hres as [[e He]|(img & He & _ & _ & Hcount)]; [congruence|].
    assert (img = first) by congruence. subst img.
    apply filter_In. rewrite Hcount. left. reflexivity. }
  destruct Hin as [Hin Hcanon].
  destruct (build_image_run W arch' config' path' proxies'
              (snd (build_image W arch config path proxies s)) _ eq_refl)
    as (prep' & _ & Hcases').
  destruct Hcases' as [[_ [e He]]|[[_ [e He]]|[(done & img & _ & He)|
                      [(done & img & e & _ & [x He])|(app & _ & Hh & Hres)]]]];
    try congruence.
  destruct Hres as [[e He]|(img & He & _ & _ & Hcount)]; [congruence|].
  assert (img = second) by congruence. subst img.
  split; [|exact Hcount].
  rewrite Hh. apply in_app_iff. right. apply in_app_iff. right. right.
  apply in_app_iff. left. apply (in_map deletion). apply filter_In.
  split; [assumption|]. unfold matches. unfold canonical in Hcanon.
  rewrite Hcanon. apply orb_true_r.
Qed.

Lemma second_build_replaces_first_witness :
  In (EvDeleteImage "06" Deleted)
    (history (snd (build_image Sample.calm "arm64" Sample.one_cloud "canonical/charm"
                     None
                     (snd (build_image Sample.calm "x64" Sample.one_cloud
                             "canonical/charm" None Sample.empty_catalog))))) /\
  filter canonical
    (images (snd (build_image Sample.calm "arm64" Sample.one_cloud "canonical/charm"
                    None
                    (snd (build_image Sample.calm "x64" Sample.one_cloud
                            "canonical/charm" None Sample.empty_catalog))))) =
    [{| image_id := "0d"; image_name := "jammy";
        image_filename := "jammy-server-cloudimg-arm64-compressed.img" |}].
Proof.
  apply (second_build_replaces_first Sample.calm "x64" "arm64" Sample.one_cloud
           Sample.one_cloud "canonical/charm" "canonical/charm" None None
           Sample.empty_catalog
           {| image_id := "06"; image_name := "jammy";
              image_filename := "jammy-server-cloudimg-amd64-compressed.img" |});
    vm_compute; reflexivity.
Defined.

(** ** One call of the [create_instance] body *)

Lemma render_phase_run W instance_config proxies mirror candidates s :
  exists renders,
    history (snd (render_phase W instance_config proxies mirror candidates s)) =
      history s ++ renders /\
    Forall is_render_event renders /\
    List.length renders <= 2 /\
    servers (snd (render_phase W instance_config proxies mirror candidates s)) =
      servers s /\
    images (snd (render_phase W instance_config proxies mirror candidates s)) =
      images s /\
    forall cloud_userdata,
      fst (render_phase W instance_config proxies mirror candidates s) =
        Ok cloud_userdata ->
      List.length renders = 2 /\
      exists info env_contents,
        render W (EnvFile proxies EmptyString mirror info) = inr env_contents /\
        render W
          (OpenstackUserdata
             ("https://github.com/" ++ github_path instance_config)%string
             (registration_token instance_config)
             (Str.join "," (labels instance_config))
             (name instance_config) env_contents) = inr cloud_userdata.
Proof.
  remember (render_phase W instance_config proxies mirror candidates s) as out eqn:Hout.
  unfold render_phase, environment_get_template in Hout.
  destruct (get_template W "env.j2") as [e|].
  { subst out. exists []. cbn. rewrite app_nil_r.
    repeat split; auto; try (simpl; lia); try solve [repeat constructor]; discriminate. }
  unfold check in Hout. unfold bind at 1 in Hout. unfold ret at 1 in Hout.
  assert (Hselect :
    exists info s1,
      (match candidates with
       | Some (c :: cs) => bind (choice W (c :: cs)) (fun chosen => ret (Some chosen))
       | _ => ret None
       end) s = (Ok info, s1) /\
      history s1 = history s /\ servers s1 = servers s /\ images s1 = images s).
  { destruct candidates as [[|c cs]|].
    - exists None, s. auto.
    - eexists. eexists. split; [reflexivity|]. repeat split; reflexivity.
    - exists None, s. auto. }
  destruct Hselect as (info & s1 & Hrun & Hh & Hs & Hi).
  unfold bind at 1 in Hout. rewrite Hrun in Hout.
  unfold bind at 1 in Hout. rewrite template_render_run in Hout.
  destruct (render W (EnvFile proxies EmptyString mirror info)) as [e|env_contents] eqn:Henv.
  { subst out. exists [EvRender (EnvFile proxies EmptyString mirror info)].
    cbn [fst snd record history servers images]. rewrite Hh.
    repeat split; auto; try (simpl; lia); try solve [repeat constructor]; discriminate. }
  destruct (get_template W "openstack-userdata.sh.j2") as [e|].
  { subst out. exists [EvRender (EnvFile proxies EmptyString mirror info)].
    cbn. rewrite Hh. repeat split; auto; try (simpl; lia); try solve [repeat constructor]; discriminate. }
  unfold bind at 1 in Hout. unfold ret at 1 in Hout.
  rewrite template_render_run in Hout.
  match type of Hout with
  | context [render W (OpenstackUserdata ?a ?b ?c ?d ?e)] =>
      exists [EvRender (EnvFile proxies EmptyString mirror info);
              EvRender (OpenstackUserdata a b c d e)];
      destruct (render W (OpenstackUserdata a b c d e)) as [f|text] eqn:Hud
  end; subst out; cbn [fst snd record history servers images];
    rewrite Hh, <- app_assoc;
    repeat split; auto; try (simpl; lia); try solve [repeat constructor];
    try discriminate;
    match goal with H : Ok _ = Ok _ |- _ => inversion H; subst end; eauto.
Qed.

Lemma cloud_phase_emits W config instance_config cloud_userdata :
  emits is_launch_event (cloud_phase W config instance_config cloud_userdata).
Proof.
  unfold cloud_phase. apply emits_bind.
  - apply emits_create_connection; [exact I|intros; exact I].
  - intros conn. unfold create_server, add_server. emits_steps; exact I.
Qed.

Lemma cloud_phase_ok W config instance_config cloud_userdata s srv s2 :
  cloud_phase W config instance_config cloud_userdata s = (Ok srv, s2) ->
  srv = {| server_name := name instance_config;
           server_image := openstack_image instance_config;
           server_flavor := "m1.small";
           server_userdata := cloud_userdata |} /\
  servers s2 = servers s ++ [srv] /\
  images s2 = images s /\
  exists before,
    history s2 =
      before ++ [EvCreateServer (name instance_config)
                   (openstack_image instance_config) "m1.small" cloud_userdata].
Proof.
  unfold cloud_phase. unfold bind at 1.
  pose proof (create_connection_keeps servers W config (fun _ _ => eq_refl) s) as Hs.
  pose proof (create_connection_keeps images W config (fun _ _ => eq_refl) s) as Hi.
  destruct (_create_connection W config s) as [[conn|e] s1]; [|discriminate].
  cbn [snd] in Hs, Hi.
  unfold create_server, add_server, bind, log, ask, check.
  destruct (conn_create_server W _ (name instance_config)); [discriminate|].
  unfold ret. intros H. inversion H; subst. cbn. rewrite Hs, Hi.
  repeat split. eexists. reflexivity.
Qed.

(** X9.  When one call of the function body returns a server, that server
    is the one requested: named after the instance configuration, booted
    from its image, of flavor [m1.small], with as user data the boot
    script rendered from the GitHub URL of the path, the registration
    token, the comma-joined labels, the name and the rendered environment
    descriptor.  The request is the last call made, the server list has
    grown by this server alone and the image catalog is untouched. *)
Theorem launched_server_is_the_requested_one
    (W : world) (config : cloud_config) (instance_config : InstanceConfig)
    (proxies : option ProxyConfig) (mirror : option string)
    (candidates : option (list SSHDebugConnection)) (s : state) (srv : Server) :
  fst (create_instance_body W config instance_config proxies mirror candidates s) =
    Ok srv ->
  server_name srv = name instance_config /\
  server_image srv = openstack_image instance_config /\
  server_flavor srv = "m1.small" /\
  (exists info env_contents,
     render W (EnvFile proxies EmptyString mirror info) = inr env_contents /\
     render W
       (OpenstackUserdata
          ("https://github.com/" ++ github_path instance_config)%string
          (registration_token instance_config)
          (Str.join "," (labels instance_config))
          (name instance_config) env_contents) = inr (server_userdata srv)) /\
  servers (snd (create_instance_body W config instance_config proxies mirror
                  candidates s)) = servers s ++ [srv] /\
  images (snd (create_instance_body W config instance_config proxies mirror
                 candidates s)) = images s /\
  exists before,
    history (snd (create_instance_body W config instance_config proxies mirror
                    candidates s)) =
      before ++ [EvCreateServer (name instance_config)
                   (openstack_image instance_config) "m1.small"
                   (server_userdata srv)].
Proof.
  rewrite create_instance_body_run.
  destruct (render_phase_run W instance_config proxies mirror candidates s)
    as (renders & _ & _ & _ & Hs & Hi & Hok).
  destruct (render_phase W instance_config proxies mirror candidates s)
    as [[cloud_userdata|e] s1]; [|discriminate].
  cbn [fst snd] in *.
  destruct (Hok cloud_userdata eq_refl) as (_ & info & env_contents & Henv & Hud).
  destruct (cloud_phase W config instance_config cloud_userdata s1)
    as [[srv'|x] s2] eqn:Hcloud; cbn [fst snd].
  - intros H. inversion H; subst srv'.
    destruct (cloud_phase_ok _ _ _ _ _ _ _ Hcloud) as (-> & Hservers & Himages & Hlast).
    cbn [server_name server_image server_flavor server_userdata].
    split; [reflexivity|]. split; [reflexivity|]. split; [reflexivity|].
    split; [eauto|]. rewrite Hservers, Himages, Hs, Hi. auto.
  - intros H. destruct x as [[]| | | | | |]; discriminate H.
Qed.

Lemma launched_server_is_the_requested_one_witness :
  server_name
    {| server_name := "runner-0-00ff"; server_image := Sample.old_jammy;
       server_flavor := "m1.small";
       server_userdata := "#!/bin/sh runner-0-00ff LANG=C.UTF-8" |} = "runner-0-00ff" /\
  servers (snd (create_instance_body Sample.calm Sample.one_cloud Sample.sample_config
                  None None None Sample.empty_catalog)) =
    [{| server_name := "runner-0-00ff"; server_image := Sample.old_jammy;
        server_flavor := "m1.small";
        server_userdata := "#!/bin/sh runner-0-00ff LANG=C.UTF-8" |}].
Proof.
  destruct (launched_server_is_the_requested_one Sample.calm Sample.one_cloud
              Sample.sample_config None None None Sample.empty_catalog
              {| server_name := "runner-0-00ff"; server_image := Sample.old_jammy;
                 server_flavor := "m1.small";
                 server_userdata := "#!/bin/sh runner-0-00ff LANG=C.UTF-8" |}
              eq_refl) as (Hname & _ & _ & _ & Hservers & _).
  split; [exact Hname|exact Hservers].
Defined.

(** X10.  The order of the external calls of one call of the function
    body: first the renders, at most two, then the calls of the [try]
    block; a cloud call is made only when both templates have rendered, so
    a rendering failure costs no connection. *)
Theorem create_instance_renders_before_connecting
    (W : world) (config : cloud_config) (instance_config : InstanceConfig)
    (proxies : option ProxyConfig) (mirror : option string)
    (candidates : option (list SSHDebugConnection)) (s : state) :
  exists renders launch,
    history (snd (create_instance_body W config instance_config proxies mirror
                    candidates s)) = history s ++ renders ++ launch /\
    Forall is_render_event renders /\
    List.length renders <= 2 /\
    Forall is_launch_event launch /\
    (launch <> [] ->
     List.length renders = 2 /\
     is_ok (fst (render_phase W instance_config proxies mirror candidates s)) = true).
Proof.
  rewrite create_instance_body_run.
  destruct (render_phase_run W instance_config proxies mirror candidates s)
    as (renders & Hh & Hr & Hlen & _ & _ & Hok).
  destruct (render_phase W instance_config proxies mirror candidates s)
    as [[cloud_userdata|e] s1]; cbn [fst snd] in *.
  - destruct (cloud_phase_emits W config instance_config cloud_userdata s1)
      as (launch & Hl & Hlaunch).
    exists renders, launch. rewrite Hl, Hh, <- app_assoc.
    split; [reflexivity|]. split; [assumption|]. split; [assumption|].
    split; [assumption|]. intros _. split; [|reflexivity].
    apply (Hok cloud_userdata eq_refl).
  - exists renders, []. rewrite Hh, app_nil_r.
    split; [reflexivity|]. split; [assumption|]. split; [assumption|].
    split; [constructor|]. intros H; destruct (H eq_refl).
Qed.

Lemma create_instance_renders_before_connecting_witness :
  exists renders launch,
    history (snd (create_instance_body Sample.no_userdata_template Sample.one_cloud
                    Sample.sample_config None None None Sample.empty_catalog)) =
      history Sample.empty_catalog ++ renders ++ launch /\
    Forall is_render_event renders /\
    List.length renders <= 2 /\
    Forall is_launch_event launch /\
    (launch <> [] ->
     List.length renders = 2 /\
     is_ok (fst (render_phase Sample.no_userdata_template Sample.sample_config
                   None None None Sample.empty_catalog)) = true).
Proof.
  exact (create_instance_renders_before_connecting Sample.no_userdata_template
           Sample.one_cloud Sample.sample_config None None None Sample.empty_catalog).
Defined.

(** ** Instance names and the random source *)

Lemma drawn_bytes_step W s n :
  drawn_bytes W s (S n) =
    entropy W (drawn s) mod 256 ::
    drawn_bytes W
      {| images := images s; servers := servers s;
         history := history s; drawn := S (drawn s) |} n.
Proof.
  unfold drawn_bytes. cbn [seq map drawn]. rewrite Nat.add_0_r. f_equal.
  rewrite <- seq_shift, map_map. apply map_ext. intros i.
  rewrite Nat.add_succ_r. reflexivity.
Qed.

Lemma token_bytes_value W n s :
  fst (token_bytes W n s) = Ok (drawn_bytes W s n).
Proof.
  revert s. induction n as [|n IH]; intros s; [reflexivity|].
  rewrite drawn_bytes_step. cbn [token_bytes]. unfold bind at 1. unfold draw at 1.
  specialize (IH {| images := images s; servers := servers s;
                    history := history s; drawn := S (drawn s) |}).
  unfold bind at 1.
  destruct (token_bytes W n _) as [[rest|e] s1]; cbn [fst] in IH; inversion IH.
  reflexivity.
Qed.

Lemma drawn_bytes_are_bytes W s n : Forall (fun b => b < 256) (drawn_bytes W s n).
Proof.
  unfold drawn_bytes. apply Forall_forall. intros b Hin.
  apply in_map_iff in Hin as (i & <- & _). apply Nat.mod_upper_bound. discriminate.
Qed.

Lemma hex_value_digit n : n < 16 -> hex_value (Str.hex_digit n) = n.
Proof.
  intros Hn. do 16 (destruct n as [|n]; [reflexivity|]). lia.
Qed.

Lemma unhexlify_hexlify bytes :
  Forall (fun b => b < 256) bytes -> unhexlify (Str.hexlify bytes) = bytes.
Proof.
  induction 1 as [|b rest Hb _ IH]; [reflexivity|].
  cbn [Str.hexlify]. unfold Str.hex_byte. cbn [append unhexlify].
  rewrite IH, (Nat.mod_small b 256 Hb).
  rewrite !hex_value_digit.
  - f_equal. symmetry. apply Nat.div_mod_eq.
  - apply Nat.mod_upper_bound. discriminate.
  - apply Nat.Div0.div_lt_upper_bound. exact Hb.
Qed.

Lemma append_associative (a b c : string) :
  ((a ++ b) ++ c = a ++ (b ++ c))%string.
Proof. induction a as [|x a IH]; simpl; [reflexivity|]. rewrite IH. reflexivity. Qed.

Lemma append_cancel (p a b : string) : (p ++ a = p ++ b)%string -> a = b.
Proof.
  induction p as [|c p IH]; simpl; intros H; [assumption|].
  inversion H. auto.
Qed.

Lemma name_suffix_cancel (app num h h' : string) :
  (app ++ "-" ++ num ++ "-" ++ h = app ++ "-" ++ num ++ "-" ++ h')%string -> h = h'.
Proof.
  intros H. apply append_cancel in H. cbn [append] in H. injection H as H.
  apply append_cancel in H. cbn [append] in H. injection H as H. exact H.
Qed.

(** [create_instance_config] on a unit name with a slash. *)
Lemma create_instance_config_run W unit_name image path s app_name unit_num :
  Str.rsplit1 "/" unit_name = [app_name; unit_num] ->
  create_instance_config W unit_name image path s =
    (match get_runner_registration_token W
             (record (EvGetRegistrationToken path)
                {| images := images s; servers := servers s;
                   history := history s; drawn := 12 + drawn s |}) path with
     | inl e => Raise (Foreign e)
     | inr token =>
         Ok {| name := (app_name ++ "-" ++ unit_num ++ "-" ++
                        Str.hexlify (drawn_bytes W s 12))%string;
               labels := [app_name; "jammy"];
               registration_token := token;
               github_path := path;
               openstack_image := image |}
     end,
     record (EvGetRegistrationToken path)
       {| images := images s; servers := servers s;
          history := history s; drawn := 12 + drawn s |}).
Proof.
  intros Hsplit. unfold create_instance_config. rewrite Hsplit.
  destruct (token_bytes_run W 12 s) as (bytes & Hrun & _).
  pose proof (token_bytes_value W 12 s) as Hvalue.
  rewrite Hrun in Hvalue. cbn [fst] in Hvalue. inversion Hvalue; subst bytes.
  unfold token_hex. unfold bind at 1. unfold bind at 1. rewrite Hrun.
  unfold ret at 1.
  unfold github_get_runner_registration_token, bind, log, ask, lift.
  destruct (get_runner_registration_token W _ path); reflexivity.
Qed.

(** X11.  On a unit name with a slash, the only effects of
    [create_instance_config] are twelve draws from the random source
    followed by one request for a registration token; a failure of that
    request leaves as it was raised, and otherwise the token, the path and
    the image are handed on unchanged. *)
Theorem create_instance_config_effects
    (W : world) (unit_name path : string) (image : Image) (s : state) :
  Str.contains "/" unit_name = true ->
  snd (create_instance_config W unit_name image path s) =
    record (EvGetRegistrationToken path)
      {| images := images s; servers := servers s;
         history := history s; drawn := 12 + drawn s |} /\
  (forall e,
     get_runner_registration_token W
       (snd (create_instance_config W unit_name image path s)) path = inl e ->
     fst (create_instance_config W unit_name image path s) = Raise (Foreign e)) /\
  (forall token,
     get_runner_registration_token W
       (snd (create_instance_config W unit_name image path s)) path = inr token ->
     exists cfg,
       fst (create_instance_config W unit_name image path s) = Ok cfg /\
       registration_token cfg = token /\
       github_path cfg = path /\
       openstack_image cfg = image).
Proof.
  intros Hslash.
  destruct (rsplit1_with_separator _ _ Hslash) as (app & num & Hsplit & _ & _).
  rewrite (create_instance_config_run _ _ _ _ _ _ _ Hsplit). cbn [fst snd].
  split; [reflexivity|]. split.
  - intros e ->. reflexivity.
  - intros token ->. eexists. split; [reflexivity|]. repeat split.
Qed.

Lemma create_instance_config_effects_witness :
  snd (create_instance_config Sample.token_rejected "runner/0" Sample.old_jammy
         "canonical/charm" Sample.empty_catalog) =
    record (EvGetRegistrationToken "canonical/charm")
      {| images := []; servers := []; history := []; drawn := 12 |} /\
  fst (create_instance_config Sample.token_rejected "runner/0" Sample.old_jammy
         "canonical/charm" Sample.empty_catalog) =
    Raise (Foreign (OtherException "TokenError" "Invalid token.")).
Proof.
  destruct (create_instance_config_effects Sample.token_rejected "runner/0"
              "canonical/charm" Sample.old_jammy Sample.empty_catalog eq_refl)
    as (Hstate & Hfail & _).
  split; [exact Hstate|]. apply Hfail. reflexivity.
Defined.

(** X12.  The instance name is an injective function of the twelve random
    bytes: two configurations made for the same unit name have the same
    name exactly when the same twelve bytes were drawn.  The hexadecimal
    suffix loses nothing: decoding it gives the bytes back. *)
Theorem instance_names_differ_with_the_random_bytes
    (W W' : world) (unit_name path path' : string) (image image' : Image)
    (s s' : state) (cfg cfg' : InstanceConfig) :
  fst (create_instance_config W unit_name image path s) = Ok cfg ->
  fst (create_instance_config W' unit_name image' path' s') = Ok cfg' ->
  (name cfg = name cfg' <-> drawn_bytes W s 12 = drawn_bytes W' s' 12) /\
  exists prefix,
    name cfg = (prefix ++ Str.hexlify (drawn_bytes W s 12))%string /\
    unhexlify (Str.hexlify (drawn_bytes W s 12)) = drawn_bytes W s 12.
Proof.
  intros Hcfg Hcfg'.
  destruct (Str.contains "/" unit_name) eqn:Hslash.
  2:{ unfold create_instance_config in Hcfg.
      rewrite (rsplit1_without_separator _ _ Hslash) in Hcfg. discriminate Hcfg. }
  destruct (rsplit1_with_separator _ _ Hslash) as (app & num & Hsplit & _ & _).
  rewrite (create_instance_config_run _ _ _ _ _ _ _ Hsplit) in Hcfg.
  rewrite (create_instance_config_run _ _ _ _ _ _ _ Hsplit) in Hcfg'.
  pose proof (unhexlify_hexlify _ (drawn_bytes_are_bytes W s 12)) as Hback.
  pose proof (unhexlify_hexlify _ (drawn_bytes_are_bytes W' s' 12)) as Hback'.
  remember (Str.hexlify (drawn_bytes W s 12)) as h eqn:Hh.
  remember (Str.hexlify (drawn_bytes W' s' 12)) as h' eqn:Hh'.
  remember (drawn_bytes W s 12) as bytes eqn:Hb.
  remember (drawn_bytes W' s' 12) as bytes' eqn:Hb'.
  cbn [fst] in Hcfg, Hcfg'.
  destruct (get_runner_registration_token W _ path); [discriminate|].
  destruct (get_runner_registration_token W' _ path'); [discriminate|].
  injection Hcfg as <-. injection Hcfg' as <-. cbn [name].
  split.
  - split.
    + intros Hname. apply name_suffix_cancel in Hname.
      rewrite <- Hback, <- Hback', Hname. reflexivity.
    + intros Heq. rewrite Hh, Hh', Heq. reflexivity.
  - exists (app ++ "-" ++ num ++ "-")%string. split; [|exact Hback].
    rewrite !append_associative. reflexivity.
Qed.

Lemma instance_names_differ_with_the_random_bytes_witness :
  name {| name := "runner-0-0b30557a9fc4e90e33587da2"; labels := ["runner"; "jammy"];
          registration_token := "AABBCC"; github_path := "canonical/charm";
          openstack_image := Sample.old_jammy |} =
  name {| name := "runner-0-000000000000000000000000"; labels := ["runner"; "jammy"];
          registration_token := "AABBCC"; github_path := "canonical/charm";
          openstack_image := Sample.old_jammy |} <->
  drawn_bytes Sample.calm Sample.empty_catalog 12 =
  drawn_bytes (with_entropy Sample.calm (fun _ => 0)) Sample.empty_catalog 12.
Proof.
  refine (proj1 (instance_names_differ_with_the_random_bytes Sample.calm
                   (with_entropy Sample.calm (fun _ => 0)) "runner/0"
                   "canonical/charm" "canonical/charm" Sample.old_jammy
                   Sample.old_jammy Sample.empty_catalog Sample.empty_catalog
                   {| name := "runner-0-0b30557a9fc4e90e33587da2";
                      labels := ["runner"; "jammy"];
                      registration_token := "AABBCC"; github_path := "canonical/charm";
                      openstack_image := Sample.old_jammy |}
                   {| name := "runner-0-000000000000000000000000";
                      labels := ["runner"; "jammy"];
                      registration_token := "AABBCC"; github_path := "canonical/charm";
                      openstack_image := Sample.old_jammy |} _ _));
    vm_compute; reflexivity.
Defined.

(** ** Authorization failures at the entry points *)

Lemma count_connects_app a b :
  count_connects (a ++ b) = count_connects a + count_connects b.
Proof. unfold count_connects. rewrite filter_app, length_app. reflexivity. Qed.

Lemma count_connects_renders d : Forall is_render_event d -> count_connects d = 0.
Proof.
  induction 1 as [|ev d Hev _ IH]; [reflexivity|].
  change (ev :: d) with ([ev] ++ d). rewrite count_connects_app, IH.
  destruct ev; try contradiction. reflexivity.
Qed.

Lemma render_phase_succeeds W instance_config proxies mirror candidates s :
  (forall template, get_template W template = None) ->
  (forall call, exists text, render W call = inr text) ->
  is_ok (fst (render_phase W instance_config proxies mirror candidates s)) = true.
Proof.
  intros Htemplate Hrender.
  remember (render_phase W instance_config proxies mirror candidates s) as out eqn:Hout.
  unfold render_phase, environment_get_template in Hout.
  rewrite !Htemplate in Hout.
  unfold check in Hout. unfold bind at 1 in Hout. unfold ret at 1 in Hout.
  assert (Hselect :
    exists info s1,
      (match candidates with
       | Some (c :: cs) => bind (choice W (c :: cs)) (fun chosen => ret (Some chosen))
       | _ => ret None
       end) s = (Ok info, s1)).
  { destruct candidates as [[|c cs]|].
    - exists None, s. reflexivity.
    - eexists. eexists. reflexivity.
    - exists None, s. reflexivity. }
  destruct Hselect as (info & s1 & Hrun).
  unfold bind at 1 in Hout. rewrite Hrun in Hout.
  unfold bind at 1 in Hout. rewrite template_render_run in Hout.
  destruct (Hrender (EnvFile proxies EmptyString mirror info)) as (env_contents & Henv).
  rewrite Henv in Hout.
  unfold bind at 1 in Hout. unfold ret at 1 in Hout.
  rewrite template_render_run in Hout.
  match type of Hout with
  | context [render W ?call] => destruct (Hrender call) as (text & Htext)
  end.
  rewrite Htext in Hout. subst out. reflexivity.
Qed.

(** One attempt when Keystone rejects the credentials at the connection. *)
Lemma rejected_attempt W config first params rest instance_config proxies mirror
    candidates d s :
  dict_get "clouds" config = Some ((first, params) :: rest) ->
  (forall template, get_template W template = None) ->
  (forall call, exists text, render W call = inr text) ->
  (forall t cloud, connect W t cloud = Some (Unauthorized d)) ->
  fst (create_instance_body W config instance_config proxies mirror candidates s) =
    Raise (Foreign (Unauthorized d)) /\
  count_connects
    (history (snd (create_instance_body W config instance_config proxies mirror
                     candidates s))) = S (count_connects (history s)).
Proof.
  intros Hclouds Htemplate Hrender Hconnect.
  rewrite create_instance_body_run.
  pose proof (render_phase_succeeds W instance_config proxies mirror candidates s
                Htemplate Hrender) as Hok.
  destruct (render_phase_run W instance_config proxies mirror candidates s)
    as (renders & Hh & Hr & _).
  destruct (render_phase W instance_config proxies mirror candidates s)
    as [[cloud_userdata|e] s1]; [|discriminate Hok].
  cbn [snd] in Hh.
  assert (Hcloud :
    cloud_phase W config instance_config cloud_userdata s1 =
      (Raise (Foreign (Unauthorized d)),
       record (EvConnect first)
         (match rest with
          | [] => s1
          | _ :: _ =>
              record (EvWarning
                        "Multiple clouds defined in clouds.yaml. Using the first one to connect.")
                s1
          end))).
  { unfold cloud_phase. unfold bind at 1.
    rewrite (create_connection_first _ _ _ _ _ _ Hclouds), Hconnect. reflexivity. }
  rewrite Hcloud. cbn [fst snd]. split; [reflexivity|].
  destruct rest; cbn [record history]; rewrite ?count_connects_app, Hh,
    count_connects_app, (count_connects_renders _ Hr); cbn; lia.
Qed.

Lemma attempt_from_connects {A} (operation : M A) (pause : nat -> Z) failures :
  (forall u, count_connects (history (snd (operation u))) =
             S (count_connects (history u))) ->
  forall first s t,
    attempt_from operation pause first failures s = Some t ->
    count_connects (history t) = count_connects (history s) + failures.
Proof.
  intros Hstep. induction failures as [|failures IH]; intros first s t Hstart.
  - simpl in Hstart. inversion Hstart. lia.
  - simpl in Hstart. specialize (Hstep s).
    destruct (operation s) as [[a|e] s1]; [discriminate|]. cbn [snd] in Hstep.
    rewrite (IH _ _ _ Hstart). cbn [record history].
    rewrite !count_connects_app, Hstep. cbn. lia.
Qed.

(** C5, as the code has it.  [_create_connection] connects to the
    first-listed cloud profile, logs a warning when more than one is
    listed, and hands on whatever the connection raises.  In
    [list_projects] an authorization failure of the project listing is
    raised as [OpenStackUnauthorizedError], with the original error as its
    cause, after that one listing call.  [build_image] and
    [create_instance] never raise [OpenStackUnauthorizedError]: an
    [Unauthorized] raised by a cloud step of [build_image] leaves it as it
    was raised, at once; one raised by a cloud step of an attempt of
    [create_instance] leaves that attempt as it was raised, and leaves
    [create_instance] exactly when it is the fifth attempt that raises it,
    after the sleeps of 5, 10, 20 and 40 seconds; with credentials that
    are rejected at every connection, [create_instance] opens five
    connections and then raises the [Unauthorized]. *)
Theorem unauthorized_error_comes_from_list_projects
    (W : world) (config : cloud_config) (first params : string)
    (rest : list (string * string)) (s : state) :
  dict_get "clouds" config = Some ((first, params) :: rest) ->
  let opened :=
    record (EvConnect first)
      (match rest with
       | [] => s
       | _ :: _ =>
           record (EvWarning
                     "Multiple clouds defined in clouds.yaml. Using the first one to connect.")
             s
       end) in
  _create_connection W config s =
    (match connect W opened first with
     | Some e => Raise (Foreign e)
     | None => Ok first
     end, opened) /\
  (forall d,
     connect W opened first = None ->
     conn_list_projects W (record EvListProjects opened) = inl (Unauthorized d) ->
     list_projects W config s =
       (Raise (OpenStackUnauthorizedError "Unauthorized to connect to OpenStack."
                 (Some (Unauthorized d))),
        record EvListProjects opened)) /\
  (forall arch path proxies msg cause,
     fst (build_image W arch config path proxies s) <>
       Raise (OpenStackUnauthorizedError msg cause)) /\
  (forall instance_config proxies mirror candidates msg cause,
     fst (create_instance W config instance_config proxies mirror candidates s) <>
       Raise (OpenStackUnauthorizedError msg cause)) /\
  (forall arch path proxies app s2 d,
     get_runner_application W (record (EvGetRunnerApplication path arch) s) path arch =
       inr app ->
     build_steps W app proxies (record (EvGetRunnerApplication path arch) s) =
       (Ok tt, s2) ->
     (fst (upload_steps W config app s2) = Raise (Foreign (Unauthorized d)) ->
      build_image W arch config path proxies s =
        (Raise (Foreign (Unauthorized d)), snd (upload_steps W config app s2))) /\
     (connect W
        (record (EvConnect first)
           (match rest with
            | [] => s2
            | _ :: _ =>
                record (EvWarning
                          "Multiple clouds defined in clouds.yaml. Using the first one to connect.")
                  s2
            end)) first = Some (Unauthorized d) ->
      build_image W arch config path proxies s =
        (Raise (Foreign (Unauthorized d)),
         record (EvConnect first)
           (match rest with
            | [] => s2
            | _ :: _ =>
                record (EvWarning
                          "Multiple clouds defined in clouds.yaml. Using the first one to connect.")
                  s2
            end)))) /\
  (forall instance_config proxies mirror candidates t cloud_userdata t1 d,
     render_phase W instance_config proxies mirror candidates t =
       (Ok cloud_userdata, t1) ->
     fst (cloud_phase W config instance_config cloud_userdata t1) =
       Raise (Foreign (Unauthorized d)) ->
     create_instance_body W config instance_config proxies mirror candidates t =
       (Raise (Foreign (Unauthorized d)),
        snd (cloud_phase W config instance_config cloud_userdata t1))) /\
  (forall instance_config proxies mirror candidates d,
     let body :=
       create_instance_body W config instance_config proxies mirror candidates in
     let pause := fun k : nat => Z.min (5 * 2 ^ (Z.of_nat k - 1)) 60 in
     let out := create_instance W config instance_config proxies mirror candidates s in
     (forall t t',
        attempt_from body pause 1 4 s = Some t ->
        body t = (Raise (Foreign (Unauthorized d)), t') ->
        out = (Raise (Foreign (Unauthorized d)),
               record (EvLoggedFailure (Foreign (Unauthorized d))) t')) /\
     (fst out = Raise (Foreign (Unauthorized d)) ->
      exists t t',
        attempt_from body pause 1 4 s = Some t /\
        body t = (Raise (Foreign (Unauthorized d)), t') /\
        sleeps (history (snd out)) = sleeps (history s) ++ [5; 10; 20; 40]%Z) /\
     ((forall template, get_template W template = None) ->
      (forall call, exists text, render W call = inr text) ->
      (forall u cloud, connect W u cloud = Some (Unauthorized d)) ->
      fst out = Raise (Foreign (Unauthorized d)) /\
      count_connects (history (snd out)) = count_connects (history s) + 5)).
Proof.
  intros Hclouds opened. split; [|split; [|split; [|split; [|split; [|split]]]]].
  - apply (create_connection_first _ _ _ _ _ _ Hclouds).
  - intros d Hconnect Hlist. unfold list_projects. unfold bind at 1.
    rewrite (create_connection_first _ _ _ _ _ _ Hclouds). fold opened.
    rewrite Hconnect.
    unfold try_except, bind, log, ask, lift. rewrite Hlist. reflexivity.
  - intros arch path proxies msg cause H.
    apply (build_image_raises W arch config path proxies s _ H).
  - intros instance_config proxies mirror candidates msg cause H.
    apply (create_instance_raises W config instance_config proxies mirror candidates s _ H).
  - intros arch path proxies app s2 d Happ Hbuild.
    rewrite (build_image_after_fetch _ _ _ _ _ _ _ Happ), Hbuild. split.
    + intros Hup. rewrite Hup. reflexivity.
    + intros Hconnect.
      assert (Hup : upload_steps W config app s2 =
                      (Raise (Foreign (Unauthorized d)),
                       record (EvConnect first)
                         (match rest with
                          | [] => s2
                          | _ :: _ =>
                              record (EvWarning
                                        "Multiple clouds defined in clouds.yaml. Using the first one to connect.")
                                s2
                          end))).
      { unfold upload_steps. unfold bind at 1.
        rewrite (create_connection_first _ _ _ _ _ _ Hclouds), Hconnect. reflexivity. }
      rewrite Hup. reflexivity.
  - intros instance_config proxies mirror candidates t cloud_userdata t1 d Hrender Hcloud.
    rewrite create_instance_body_run, Hrender, Hcloud. reflexivity.
  - intros instance_config proxies mirror candidates d body pause out.
    assert (Hquiet : emits (fun ev => match ev with EvSleep _ => False | _ => True end) body).
    { apply create_instance_body_emits. intros []; exact I. }
    change pause with (retry_delay 5 60 2).
    assert (Hout : out = retry_from 4 1 5 60 2 body s) by reflexivity.
    clearbody out. subst out. clear pause.
    split; [|split].
    + intros t t' Hstart Hrun.
      apply (retry_from_exhausted body 5 60 2 4 _ _ _ _ _ Hstart Hrun).
    + intros He.
      destruct (retry_from_outcome body 5 60 2 4 1 s)
        as (failures & t & _ & Hstart & [(a & _ & Hok)|(e' & t' & -> & Hfail & Hres)]).
      * congruence.
      * rewrite Hres in He |- *. inversion He; subst e'.
        exists t, t'. split; [assumption|]. split; [assumption|].
        destruct (Hquiet t) as (dl & Hd & Hnone). rewrite Hfail in Hd. cbn [snd] in Hd.
        cbn [snd record history].
        rewrite sleeps_app, Hd, sleeps_app, (sleeps_quiet dl Hnone).
        rewrite (attempt_from_sleeps body _ 4 Hquiet _ _ _ Hstart).
        cbn [sleeps flat_map app]. rewrite !app_nil_r. reflexivity.
    + intros Htemplate Hrender Hconnect.
      assert (Hattempt : forall u,
        fst (body u) = Raise (Foreign (Unauthorized d)) /\
        count_connects (history (snd (body u))) = S (count_connects (history u))).
      { intros u. apply (rejected_attempt W config first params rest); assumption. }
      destruct (retry_from_outcome body 5 60 2 4 1 s)
        as (failures & t & _ & Hstart & [(a & Hrun & _)|(e' & t' & -> & Hfail & Hres)]).
      * destruct (Hattempt t) as [Hraise _]. rewrite Hrun in Hraise. discriminate Hraise.
      * destruct (Hattempt t) as [Hraise Hcount]. rewrite Hfail in Hraise, Hcount.
        cbn [fst snd] in Hraise, Hcount. inversion Hraise; subst e'.
        rewrite Hres. cbn [fst snd record history]. split; [reflexivity|].
        rewrite count_connects_app, Hcount.
        rewrite (attempt_from_connects body _ 4 (fun u => proj2 (Hattempt u)) _ _ _ Hstart).
        cbn. lia.
Qed.

Lemma unauthorized_error_comes_from_list_projects_witness :
  _create_connection Sample.bad_token Sample.two_clouds Sample.empty_catalog =
    (Ok "prod",
     record (EvConnect "prod")
       (record (EvWarning
                  "Multiple clouds defined in clouds.yaml. Using the first one to connect.")
          Sample.empty_catalog)) /\
  list_projects Sample.bad_token Sample.two_clouds Sample.empty_catalog =
    (Raise (OpenStackUnauthorizedError "Unauthorized to connect to OpenStack."
              (Some (Unauthorized "401"))),
     record EvListProjects
       (record (EvConnect "prod")
          (record (EvWarning
                     "Multiple clouds defined in clouds.yaml. Using the first one to connect.")
             Sample.empty_catalog))) /\
  fst (build_image Sample.bad_token "x64" Sample.two_clouds "canonical/charm" None
         Sample.empty_catalog) = Raise (Foreign (Unauthorized "401")) /\
  (fst (create_instance Sample.bad_credentials Sample.one_cloud Sample.sample_config
          None None None Sample.empty_catalog) = Raise (Foreign (Unauthorized "401")) /\
   count_connects
     (history (snd (create_instance Sample.bad_credentials Sample.one_cloud
                      Sample.sample_config None None None Sample.empty_catalog))) =
     count_connects (history Sample.empty_catalog) + 5).
Proof.
  destruct (unauthorized_error_comes_from_list_projects Sample.bad_token
              Sample.two_clouds "prod" "https://keystone.example:5000/v3"
              [("staging", "https://keystone.test:5000/v3")] Sample.empty_catalog
              eq_refl) as (Hconn & Hlist & _ & _ & Hbuild & _).
  split; [exact Hconn|]. split; [apply (Hlist "401"); reflexivity|]. split.
  - destruct (Hbuild "x64" "canonical/charm" None
                {| architecture := "x64"; download_url := "http://x/runner.tgz";
                   filename := "actions-runner-linux.tar.gz" |}
                (record (EvExecute
                           (build_command
                              {| architecture := "x64";
                                 download_url := "http://x/runner.tgz";
                                 filename := "actions-runner-linux.tar.gz" |}
                              None "[Service]"))
                   (record (EvRender (SystemdDockerProxy None))
                      (record (EvGetRunnerApplication "canonical/charm" "x64")
                         Sample.empty_catalog)))
                "401" eq_refl eq_refl) as [Hphase _].
    rewrite Hphase; reflexivity.
  - destruct (unauthorized_error_comes_from_list_projects Sample.bad_credentials
                Sample.one_cloud "prod" "https://keystone.example:5000/v3" []
                Sample.empty_catalog eq_refl) as (_ & _ & _ & _ & _ & _ & Hlaunch).
    destruct (Hlaunch Sample.sample_config None None None "401") as (_ & _ & Hfive).
    apply Hfive.
    + intros template. reflexivity.
    + intros call. eexists. reflexivity.
    + intros u cloud. reflexivity.
Defined.
